(** * homebase-rental: landlord statistics, catalog paging, lease and
      message forms

    A shallow embedding of the React components of the rental application
    and the properties their specification states about them.

    Layout: the JavaScript runtime pieces the components rely on, a small
    monad for asynchronous handlers (trace of effects, early [return],
    exceptions), one module per component, then the theorems. *)

From Stdlib Require Import ZArith NArith QArith List String Ascii Bool Lia.
From Stdlib Require Import Permutation.
Import ListNotations.
Local Open Scope Z_scope.
Local Open Scope string_scope.
Local Open Scope list_scope.

(* ===================================================================== *)
(** ** JavaScript values *)
(* ===================================================================== *)

Module Js.

(** An error value: what [supabase] puts in the [error] field of a
    response and what a rejected promise or a [throw] carries. *)
Record Error := mkError { code : string; message : string }.

(** A promise once it has settled. *)
Inductive settled (A : Type) :=
| Fulfilled (a : A)
| Rejected (e : Error).
Arguments Fulfilled {A} a.
Arguments Rejected {A} e.

(** Arithmetic on JavaScript numbers as the statistics reducer uses it:
    [Number(x)] on a raw column value, the literal [0], and [+].  No law
    is assumed of [add] (IEEE addition has none worth assuming), so what
    is proved of the reducer holds of doubles as well as of integers. *)
Class Arith (raw num : Type) := {
  Number : raw -> num;
  zero : num;
  add : num -> num -> num
}.

(** Integer amounts; a raw column is a number or [null], and
    [Number(null)] is [0]. *)
#[global] Instance ArithZ : Arith (option Z) Z := {
  Number := fun r => match r with Some z => z | None => 0 end;
  zero := 0;
  add := Z.add
}.

(** A number as a form parser returns it: [NaN], a finite value or an
    infinity.  Comparisons with [NaN] are false. *)
Inductive number :=
| NaN
| Fin (q : Q)
| PosInf
| NegInf.

Definition isNaN (x : number) : bool :=
  match x with NaN => true | _ => false end.

(** [x <= y], [x < y] and [x > y] against a finite literal [y]. *)
Definition le_lit (x : number) (y : Q) : bool :=
  match x with
  | NaN => false
  | Fin q => Qle_bool q y
  | PosInf => false
  | NegInf => true
  end.

Definition lt_lit (x : number) (y : Q) : bool :=
  match x with
  | NaN => false
  | Fin q => negb (Qle_bool y q)
  | PosInf => false
  | NegInf => true
  end.

Definition gt_lit (x : number) (y : Q) : bool :=
  match x with
  | NaN => false
  | Fin q => negb (Qle_bool q y)
  | PosInf => true
  | NegInf => false
  end.

(** Truthiness of a number: [0] and [NaN] are falsy. *)
Definition truthy_number (x : number) : bool :=
  match x with
  | NaN => false
  | Fin q => negb (Qeq_bool q 0)
  | PosInf | NegInf => true
  end.

(** A string as a sequence of UTF-16 code units; [length] is the
    JavaScript [.length]. *)
Definition jsstring := list N.

(** WhiteSpace and LineTerminator code units of ECMAScript: what
    [String.prototype.trim] strips and what [\s] matches. *)
Definition isWhiteSpace (c : N) : bool :=
  ((9 <=? c) && (c <=? 13) ||
   (c =? 32) || (c =? 160) || (c =? 5760) ||
   (8192 <=? c) && (c <=? 8202) ||
   (c =? 8232) || (c =? 8233) || (c =? 8239) || (c =? 8287) ||
   (c =? 12288) || (c =? 65279))%N.

Fixpoint trimStart (s : jsstring) : jsstring :=
  match s with
  | [] => []
  | c :: s' => if isWhiteSpace c then trimStart s' else s
  end.

Definition trimEnd (s : jsstring) : jsstring :=
  rev (trimStart (rev s)).

Definition trim (s : jsstring) : jsstring :=
  trimEnd (trimStart s).

(** [parseInt] and [parseFloat] agree on a value that is a non-empty run
    of decimal digits, and this is their result there.  It serves to run
    the handlers on examples; every other value is sent to [NaN] here,
    which the two parsers do not always do. *)
Definition digit (c : N) : option Z :=
  if ((48 <=? c) && (c <=? 57))%N then Some (Z.of_N c - 48) else None.

Fixpoint digitsFrom (acc : Z) (s : jsstring) : option Z :=
  match s with
  | [] => Some acc
  | c :: s' =>
      match digit c with
      | Some d => digitsFrom (10 * acc + d) s'
      | None => None
      end
  end.

Definition parseDigits (v : option jsstring) : number :=
  match v with
  | Some (c :: s) =>
      match digitsFrom 0 (c :: s) with
      | Some z => Fin (inject_Z z)
      | None => NaN
      end
  | _ => NaN
  end.

(** Code units of an ASCII literal. *)
Fixpoint lit (s : string) : jsstring :=
  match s with
  | EmptyString => []
  | String a s' => N_of_ascii a :: lit s'
  end.

End Js.

(* ===================================================================== *)
(** ** Asynchronous handlers *)
(* ===================================================================== *)

(** A handler body runs to one of three ends: it falls off the end with a
    value, it executes [return], or it throws.  What it did on the way is
    the trace of its effects, in order. *)
Module Eff.

Inductive outcome (A : Type) :=
| Done (a : A)
| Returned
| Thrown (e : Js.Error).
Arguments Done {A} a.
Arguments Returned {A}.
Arguments Thrown {A} e.

Definition M (E A : Type) : Type := (list E * outcome A)%type.

Definition ret {E A} (a : A) : M E A := ([], Done a).

Definition bind {E A B} (m : M E A) (k : A -> M E B) : M E B :=
  match m with
  | (t, Done a) => let (t', o) := k a in (t ++ t', o)
  | (t, Returned) => (t, Returned)
  | (t, Thrown e) => (t, Thrown e)
  end.

Definition emit {E} (e : E) : M E unit := ([e], Done tt).

Definition early_return {E A} : M E A := ([], Returned).

Definition throw {E A} (e : Js.Error) : M E A := ([], Thrown e).

(** [await p]: the value of a fulfilled promise, a throw for a rejected
    one. *)
Definition await {E A} (p : Js.settled A) : M E A :=
  match p with
  | Js.Fulfilled a => ret a
  | Js.Rejected e => throw e
  end.

(** [try { m } catch (e) { h e }]. *)
Definition try_catch {E A} (m : M E A) (h : Js.Error -> M E A) : M E A :=
  match m with
  | (t, Thrown e) => let (t', o) := h e in (t ++ t', o)
  | _ => m
  end.

(** [try { m } finally { f }]: [f] runs whichever way [m] ended and the
    end of [m] stands unless [f] itself returns or throws. *)
Definition finally {E A} (m : M E A) (f : M E unit) : M E A :=
  let (t, o) := m in
  match f with
  | (t', Done _) => (t ++ t', o)
  | (t', Returned) => (t ++ t', Returned)
  | (t', Thrown e) => (t ++ t', Thrown e)
  end.

(** How the promise of an [async] function settles, seen by its caller. *)
Inductive completion :=
| Resolved
| Failed (e : Js.Error).

Definition run {E} (m : M E unit) : list E * completion :=
  match m with
  | (t, Done _) => (t, Resolved)
  | (t, Returned) => (t, Resolved)
  | (t, Thrown e) => (t, Failed e)
  end.

(** [Promise.all] of three settled promises; of several rejections the
    left-most is reported. *)
Definition all3 {A B C} (a : Js.settled A) (b : Js.settled B)
    (c : Js.settled C) : Js.settled (A * B * C) :=
  match a, b, c with
  | Js.Fulfilled x, Js.Fulfilled y, Js.Fulfilled z => Js.Fulfilled (x, y, z)
  | Js.Rejected e, _, _ => Js.Rejected e
  | _, Js.Rejected e, _ => Js.Rejected e
  | _, _, Js.Rejected e => Js.Rejected e
  end.

(** [await f(...)] for an [async] function [f] of the component: a
    [return] inside [f] ends [f], not its caller. *)
Definition call {E} (m : M E unit) : M E unit :=
  match m with
  | (t, Returned) => (t, Done tt)
  | _ => m
  end.

Module Notations.
Declare Scope eff_scope.
Delimit Scope eff_scope with eff.
Notation "x <- m ;; k" := (bind m (fun x => k))
  (at level 61, m at next level, right associativity) : eff_scope.
Notation "m ;; k" := (bind m (fun _ => k))
  (at level 61, right associativity) : eff_scope.
End Notations.

End Eff.

Import Eff.Notations.

(** What the [supabase] client hands back. *)
Module Supabase.

Record User := mkUser { id : string }.

(** [{ data: { user }, error }] of [auth.getUser()]. *)
Record AuthResponse := mkAuth {
  user : option User;
  authError : option Js.Error
}.

(** [{ data, error, count }] of a query. *)
Record Response (A : Type) := mkResponse {
  data : option A;
  error : option Js.Error;
  count : option Z
}.
Arguments mkResponse {A} data error count.
Arguments data {A} r.
Arguments error {A} r.
Arguments count {A} r.

End Supabase.

(* ===================================================================== *)
(** ** LandlordDashboard.tsx *)
(* ===================================================================== *)

Module LandlordDashboard.
Import Supabase.

Section Aggregation.
Context {raw num : Type} `{Js.Arith raw num}.

(** A row of [rent_payments] as selected: [amount, late_fee, status]. *)
Record Payment := mkPayment {
  amount : raw;
  late_fee : raw;
  status : string
}.

Record PaymentStats := mkPaymentStats {
  pendingPayments : Z;
  totalRevenue : num
}.

(** The callback of [reduce]. *)
Definition reducer (acc : PaymentStats) (p : Payment) : PaymentStats :=
  if (status p =? "pending") || (status p =? "overdue") then
    mkPaymentStats (pendingPayments acc + 1) (totalRevenue acc)
  else if status p =? "paid" then
    mkPaymentStats (pendingPayments acc)
      (Js.add (totalRevenue acc)
              (Js.add (Js.Number (amount p)) (Js.Number (late_fee p))))
  else acc.

(** [(payments.data || []).reduce(..., { pendingPayments: 0,
    totalRevenue: 0 })]. *)
Definition paymentStats (payments : list Payment) : PaymentStats :=
  fold_left reducer payments (mkPaymentStats 0 Js.zero).

(** The [stats] cell: [properties], [activeLeases], [pendingPayments] and
    [totalRevenue]; the last two are spelled [statsPending] and
    [statsRevenue] here, apart from the fields of the accumulator. *)
Record Stats := mkStats {
  properties : Z;
  activeLeases : Z;
  statsPending : Z;
  statsRevenue : num
}.

Definition zeroStats : Stats := mkStats 0 0 0 Js.zero.

Inductive Event :=
| SetStats (s : Stats)
| ConsoleError (label : string).

(** The answers of the back end to the four requests of [loadStats];
    the three queries depend on the user's id. *)
Record World := mkWorld {
  getUser : Js.settled AuthResponse;
  propertiesQuery : string -> Js.settled (Response unit);
  leasesQuery : string -> Js.settled (Response unit);
  paymentsQuery : string -> Js.settled (Response (list Payment))
}.

(** [x || 0] on a count. *)
Definition or0 (c : option Z) : Z :=
  match c with
  | Some n => n
  | None => 0
  end.

(** [x || []] on a row list. *)
Definition orNil {A} (d : option (list A)) : list A :=
  match d with
  | Some l => l
  | None => []
  end.

Definition throwIf (e : option Js.Error) : Eff.M Event unit :=
  match e with
  | Some err => Eff.throw err
  | None => Eff.ret tt
  end.

Definition loadStats (w : World) : Eff.M Event unit :=
  Eff.try_catch
    (r <- Eff.await (getUser w) ;;
     throwIf (authError r) ;;
     match user r with
     | None => Eff.early_return
     | Some u =>
       res <- Eff.await (Eff.all3 (propertiesQuery w (id u))
                                  (leasesQuery w (id u))
                                  (paymentsQuery w (id u))) ;;
       let '(props, leases, payments) := res in
       throwIf (error props) ;;
       throwIf (error leases) ;;
       throwIf (error payments) ;;
       let ps := paymentStats (orNil (data payments)) in
       Eff.emit (SetStats (mkStats (or0 (count props))
                                   (or0 (count leases))
                                   (pendingPayments ps)
                                   (totalRevenue ps)))
     end)%eff
    (fun _ =>
       (Eff.emit (ConsoleError "Error loading stats:") ;;
        Eff.emit (SetStats zeroStats))%eff).

(** The component's statistics after a trace, from the statistics
    before it. *)
Definition applyEvent (s : Stats) (e : Event) : Stats :=
  match e with
  | SetStats s' => s'
  | ConsoleError _ => s
  end.

Definition statsAfter (s : Stats) (t : list Event) : Stats :=
  fold_left applyEvent t s.

(** What the [catch] block leaves behind. *)
Definition softFailure : list Event * Eff.completion :=
  ([ConsoleError "Error loading stats:"; SetStats zeroStats], Eff.Resolved).

(** A fetch failed: its promise was rejected, or it was fulfilled with
    an [error]. *)
Definition failed {A} (q : Js.settled (Response A)) : bool :=
  match q with
  | Js.Rejected _ => true
  | Js.Fulfilled r =>
      match error r with
      | Some _ => true
      | None => false
      end
  end.

(** The statistics as the specification words them: a count of the
    pending or overdue payments, a sum over the paid ones. *)
Definition isPending (p : Payment) : bool :=
  (status p =? "pending") || (status p =? "overdue").

Definition isPaid (p : Payment) : bool :=
  status p =? "paid".

Definition countPending (ps : list Payment) : Z :=
  Z.of_nat (List.length (filter isPending ps)).

Definition sumPaid (ps : list Payment) : num :=
  fold_left
    (fun s p => Js.add s (Js.add (Js.Number (amount p))
                                 (Js.Number (late_fee p))))
    (filter isPaid ps) Js.zero.

End Aggregation.

Arguments Payment : clear implicits.
Arguments PaymentStats : clear implicits.
Arguments Stats : clear implicits.
Arguments Event : clear implicits.
Arguments World : clear implicits.

(** The payments of the specification's example. *)
Definition examplePayments : list (Payment (option Z)) :=
  [ mkPayment (Some 100) (Some 0) "paid";
    mkPayment (Some 150) None "pending" ].

(** The landlord of that example: two properties, one active lease. *)
Definition exampleWorld : World (option Z) :=
  mkWorld (Js.Fulfilled (mkAuth (Some (mkUser "landlord-1")) None))
          (fun _ => Js.Fulfilled (mkResponse None None (Some 2)))
          (fun _ => Js.Fulfilled (mkResponse None None (Some 1)))
          (fun _ => Js.Fulfilled (mkResponse (Some examplePayments) None None)).

(** The same landlord when the payments fetch comes back with an error. *)
Definition failingWorld : World (option Z) :=
  mkWorld (Js.Fulfilled (mkAuth (Some (mkUser "landlord-1")) None))
          (fun _ => Js.Fulfilled (mkResponse None None (Some 2)))
          (fun _ => Js.Fulfilled (mkResponse None None (Some 1)))
          (fun _ => Js.Fulfilled
                      (mkResponse None (Some (Js.mkError "500" "boom")) None)).

(** A partly paid payment. *)
Definition partialPayment : Payment (option Z) :=
  mkPayment (Some 50) (Some 5) "partial".

End LandlordDashboard.

(* ===================================================================== *)
(** ** LandlordDashboard.tsx, the earlier version *)
(* ===================================================================== *)

(** The repository also keeps the dashboard as it was before the single
    [reduce] and the [try]/[catch]: two passes over the payments, and no
    look at the [error] of a response. *)
Module LegacyDashboard.
Import Supabase.

Section Aggregation.
Context {raw num : Type} `{Js.Arith raw num}.

(** Truthiness of a number, for [x || 0]. *)
Variable truthy : num -> bool.

(** [payments.data?.filter(p => p.status === "pending" ||
    p.status === "overdue").length || 0]. *)
Definition pendingPayments
    (data : option (list (LandlordDashboard.Payment raw))) : Z :=
  match data with
  | None => 0
  | Some rows =>
      Z.of_nat
        (List.length
           (filter (fun p => (LandlordDashboard.status p =? "pending")
                             || (LandlordDashboard.status p =? "overdue"))
                   rows))
  end.

(** [payments.data?.filter(p => p.status === "paid").reduce((sum, p) =>
    sum + Number(p.amount) + Number(p.late_fee), 0) || 0]. *)
Definition totalRevenue
    (data : option (list (LandlordDashboard.Payment raw))) : num :=
  match data with
  | None => Js.zero
  | Some rows =>
      let sum :=
        fold_left
          (fun sum p =>
             Js.add (Js.add sum (Js.Number (LandlordDashboard.amount p)))
                    (Js.Number (LandlordDashboard.late_fee p)))
          (filter (fun p => LandlordDashboard.status p =? "paid") rows)
          Js.zero in
      if truthy sum then sum else Js.zero
  end.

Definition loadStats (w : LandlordDashboard.World raw)
    : Eff.M (LandlordDashboard.Event num) unit :=
  (r <- Eff.await (LandlordDashboard.getUser w) ;;
   match user r with
   | None => Eff.early_return
   | Some u =>
     res <- Eff.await
              (Eff.all3 (LandlordDashboard.propertiesQuery w (id u))
                        (LandlordDashboard.leasesQuery w (id u))
                        (LandlordDashboard.paymentsQuery w (id u))) ;;
     let '(props, leases, payments) := res in
     Eff.emit (LandlordDashboard.SetStats
                 (LandlordDashboard.mkStats
                    (LandlordDashboard.or0 (count props))
                    (LandlordDashboard.or0 (count leases))
                    (pendingPayments (data payments))
                    (totalRevenue (data payments))))
   end)%eff.

End Aggregation.

(** Truthiness of an integer. *)
Definition truthyZ (z : Z) : bool := negb (z =? 0)%Z.

End LegacyDashboard.

(* ===================================================================== *)
(** ** tenant/AvailablePropertiesSection.tsx *)
(* ===================================================================== *)

Module AvailablePropertiesSection.

Definition PAGE_SIZE : Z := 12.

Record Property := mkProperty {
  id : string;
  name : string;
  address : string;
  unit_number : option string;
  landlord_id : string;
  created_at : string;
  rent_amount : Z
}.

(** A request as the query builder assembles it: [from], [select],
    [eq], [order] and [range]. *)
Record Query := mkQuery {
  table : string;
  columns : string;
  eqFilter : string * string;
  orderColumn : string;
  ascending : bool;
  rangeFrom : Z;
  rangeTo : Z
}.

(** [const offset = pageIndex * PAGE_SIZE]. *)
Definition offset (pageIndex : Z) : Z := pageIndex * PAGE_SIZE.

(** The request of [queryFn]. *)
Definition queryFn (offset : Z) : Query :=
  mkQuery "properties"
          "id, name, address, unit_number, landlord_id, created_at, rent_amount"
          ("status", "available")
          "created_at" false
          offset (offset + PAGE_SIZE - 1).

(** [range(from, to)] of the client library is inclusive at both ends: it
    asks for the rows at zero-based positions [from .. to], that is, for
    offset [from] and limit [to - from + 1]. *)
Definition requestedOffset (q : Query) : Z := rangeFrom q.

Definition requestedLimit (q : Query) : Z := rangeTo q - rangeFrom q + 1.

Definition requestsRow (q : Query) (i : Z) : bool :=
  (rangeFrom q <=? i)%Z && (i <=? rangeTo q)%Z.

(** [setPageIndex((prev) => Math.max(0, prev - 1))]. *)
Definition handlePrevPage (prev : Z) : Z := Z.max 0 (prev - 1).

(** [setPageIndex((prev) => prev + 1)]. *)
Definition handleNextPage (prev : Z) : Z := prev + 1.

(** [useState(0)]. *)
Definition initialPageIndex : Z := 0.

Inductive Action := Prev | Next.

Definition step (pageIndex : Z) (a : Action) : Z :=
  match a with
  | Prev => handlePrevPage pageIndex
  | Next => handleNextPage pageIndex
  end.

(** The page index after a sequence of clicks on the two controls. *)
Definition pageIndexAfter (clicks : list Action) : Z :=
  fold_left step clicks initialPageIndex.

(** [properties && properties.length === PAGE_SIZE]: [undefined] ([None])
    while [properties] is [undefined], a boolean once a page is there (an
    array, empty or not, is truthy). *)
Definition hasNextPage (properties : option (list Property)) : option bool :=
  match properties with
  | None => None
  | Some rows => Some (Z.of_nat (List.length rows) =? PAGE_SIZE)%Z
  end.

(** [pageIndex > 0]. *)
Definition hasPrevPage (pageIndex : Z) : bool := (pageIndex >? 0)%Z.

(** [!v] on the value of [hasNextPage]: [undefined] is falsy. *)
Definition not_ (v : option bool) : bool :=
  match v with
  | Some b => negb b
  | None => true
  end.

(** The [disabled] attributes of the two buttons. *)
Definition prevDisabled (pageIndex : Z) : bool :=
  negb (hasPrevPage pageIndex).

Definition nextDisabled (properties : option (list Property)) : bool :=
  not_ (hasNextPage properties).

(** What [useQuery] returns. *)
Record QueryResult := mkQueryResult {
  data : option (list Property);
  isLoading : bool;
  error : option Js.Error
}.

(** The four things the component can show; the pager exists only under
    a non-empty grid. *)
Inductive View :=
| ErrorCard
| Skeletons
| Grid (rows : list Property) (prevOff nextOff : bool)
| NoAvailableProperties.

Definition render (pageIndex : Z) (q : QueryResult) : View :=
  match error q with
  | Some _ => ErrorCard
  | None =>
    if isLoading q then Skeletons
    else match data q with
         | Some (r :: rows) =>
             Grid (r :: rows) (prevDisabled pageIndex) (nextDisabled (data q))
         | _ => NoAvailableProperties
         end
  end.

(** A listing, a full page of it and a page of five. *)
Definition sampleProperty : Property :=
  mkProperty "p-1" "Maple Court" "12 Maple St" (Some "4B") "landlord-1"
             "2025-10-23T09:49:14Z" 1200.

Definition fullPage : QueryResult :=
  mkQueryResult (Some (repeat sampleProperty 12)) false None.

Definition shortPage : QueryResult :=
  mkQueryResult (Some (repeat sampleProperty 5)) false None.

(** What the back end answers to a request, given the available
    properties newest first: the rows at the requested positions, as many
    as there are. *)
Definition servePage (catalog : list Property) (q : Query) : list Property :=
  firstn (Z.to_nat (requestedLimit q))
         (skipn (Z.to_nat (requestedOffset q)) catalog).

(** The page [pageIndex] of a catalog, and what the component shows once
    it has arrived. *)
Definition page (catalog : list Property) (pageIndex : Z) : list Property :=
  servePage catalog (queryFn (offset pageIndex)).

Definition arrived (rows : list Property) : QueryResult :=
  mkQueryResult (Some rows) false None.

(** The number of clicks on [Next] in a sequence. *)
Definition nextClicks (clicks : list Action) : Z :=
  Z.of_nat (List.length (filter (fun a => match a with
                                          | Next => true
                                          | Prev => false
                                          end) clicks)).

End AvailablePropertiesSection.

(* ===================================================================== *)
(** ** The toast notification *)
(* ===================================================================== *)

Module Ui.

(** The argument of [toast(...)]; [destructive] is
    [variant: "destructive"]. *)
Record Toast := mkToast {
  title : string;
  description : option string;
  destructive : bool
}.

Definition errorToast (title description : string) : Toast :=
  mkToast title (Some description) true.

Definition infoToast (title : string) (description : option string) : Toast :=
  mkToast title description false.

End Ui.

(* ===================================================================== *)
(** ** tenant/ContactLandlordDialog.tsx *)
(* ===================================================================== *)

Module ContactLandlordDialog.
Import Supabase.

Record Props := mkProps {
  propertyId : string;
  landlordId : string
}.

(** The [useState] cells of the dialog. *)
Record State := mkState {
  isOpen : bool;
  message : Js.jsstring;
  isSubmitting : bool
}.

(** The row sent to [messages]. *)
Record Payload := mkPayload {
  property_id : string;
  landlord_id : string;
  sender_id : string;
  payloadMessage : Js.jsstring
}.

Inductive Event :=
| PreventDefault
| SetIsSubmitting (b : bool)
| SetMessage (m : Js.jsstring)
| SetOpen (b : bool)
| Toast (t : Ui.Toast)
| Insert (p : Payload).

Record World := mkWorld {
  getUser : Js.settled AuthResponse;
  insertMessage : Payload -> Js.settled (Response unit)
}.

Definition trimmedMessage (s : State) : Js.jsstring :=
  Js.trim (message s).

(** [trimmedMessage.length >= 1 && trimmedMessage.length <= 500]. *)
Definition isValid (s : State) : bool :=
  (1 <=? List.length (trimmedMessage s))%nat &&
  (List.length (trimmedMessage s) <=? 500)%nat.

Definition authRequired : Ui.Toast :=
  Ui.errorToast "Authentication required" "Please sign in to send messages.".

Definition permissionDenied : Ui.Toast :=
  Ui.errorToast "Permission denied"
                "You don't have permission to send this message.".

Definition failedToSend : Ui.Toast :=
  Ui.errorToast "Failed to send message"
                "An error occurred. Please try again later.".

Definition unexpectedError : Ui.Toast :=
  Ui.errorToast "Failed to send message" "An unexpected error occurred.".

Definition messageSent : Ui.Toast :=
  Ui.infoToast "Message sent" (Some "The landlord will receive your message.").

(** [authError || !user]. *)
Definition signedIn (r : AuthResponse) : option User :=
  match authError r with
  | Some _ => None
  | None => user r
  end.

Definition handleSubmit (p : Props) (s : State) (w : World)
    : Eff.M Event unit :=
  (Eff.emit PreventDefault ;;
   if negb (isValid s) || isSubmitting s then Eff.early_return
   else
     Eff.emit (SetIsSubmitting true) ;;
     Eff.finally
       (Eff.try_catch
          (r <- Eff.await (getUser w) ;;
           match signedIn r with
           | None =>
               Eff.emit (Toast authRequired) ;;
               Eff.emit (SetIsSubmitting false) ;;
               Eff.early_return
           | Some u =>
               let payload :=
                 mkPayload (propertyId p) (landlordId p) (id u)
                           (trimmedMessage s) in
               Eff.emit (Insert payload) ;;
               res <- Eff.await (insertMessage w payload) ;;
               match error res with
               | Some insertError =>
                   Eff.emit (Toast (if Js.code insertError =? "42501"
                                    then permissionDenied
                                    else failedToSend)) ;;
                   Eff.emit (SetIsSubmitting false) ;;
                   Eff.early_return
               | None =>
                   Eff.emit (Toast messageSent) ;;
                   Eff.emit (SetMessage []) ;;
                   Eff.emit (SetOpen false)
               end
           end)
          (fun _ => Eff.emit (Toast unexpectedError)))
       (Eff.emit (SetIsSubmitting false)))%eff.

(** The effects of a submit, and how the handler's promise settles. *)
Definition submit (p : Props) (s : State) (w : World)
    : list Event * Eff.completion :=
  Eff.run (handleSubmit p s w).

Definition isInsert (e : Event) : bool :=
  match e with
  | Insert _ => true
  | _ => false
  end.

Definition inserts (t : list Event) : list Event := filter isInsert t.

(** The notifications of a trace, in order. *)
Fixpoint toasts (t : list Event) : list Ui.Toast :=
  match t with
  | [] => []
  | Toast x :: t' => x :: toasts t'
  | _ :: t' => toasts t'
  end.

(** [500 - trimmedMessage.length]. *)
Definition remainingChars (s : State) : Z :=
  500 - Z.of_nat (List.length (trimmedMessage s)).

(** The two hints under the text area, the [aria-invalid] attribute of
    the text area, the class of the counter and the [disabled] attribute
    of the submit button. *)
Definition showsRequired (s : State) : bool :=
  (List.length (trimmedMessage s) <? 1)%nat.

Definition showsTooLong (s : State) : bool :=
  (500 <? List.length (trimmedMessage s))%nat.

Definition ariaInvalid (s : State) : bool :=
  negb (isValid s) && (0 <? List.length (trimmedMessage s))%nat.

Definition counterIsRed (s : State) : bool :=
  (remainingChars s <? 0)%Z.

Definition submitDisabled (s : State) : bool :=
  negb (isValid s) || isSubmitting s.

(** [handleOpenChange]. *)
Definition handleOpenChange (s : State) (newOpen : bool) : State :=
  if negb (isSubmitting s) then
    if negb newOpen then mkState newOpen [] (isSubmitting s)
    else mkState newOpen (message s) (isSubmitting s)
  else s.

(** The cells of the dialog after a trace. *)
Definition applyEvent (s : State) (e : Event) : State :=
  match e with
  | SetIsSubmitting b => mkState (isOpen s) (message s) b
  | SetMessage m => mkState (isOpen s) m (isSubmitting s)
  | SetOpen b => mkState b (message s) (isSubmitting s)
  | PreventDefault | Toast _ | Insert _ => s
  end.

Definition stateAfter (s : State) (t : list Event) : State :=
  fold_left applyEvent t s.

(** The payload of a submit by user [u]. *)
Definition payloadOf (p : Props) (s : State) (u : User) : Payload :=
  mkPayload (propertyId p) (landlordId p) (id u) (trimmedMessage s).

(** A dialog for one listing, a tenant, and messages of given length made
    of the letter [a], framed by a blank and a line feed. *)
Definition sampleProps : Props := mkProps "p-1" "landlord-1".

Definition tenant : User := mkUser "tenant-7".

Definition typed (n : nat) : State :=
  mkState true (32%N :: repeat 97%N n ++ [10%N]) false.

(** A back end that takes every message, and one whose access policy
    refuses every message. *)
Definition acceptingWorld : World :=
  mkWorld (Js.Fulfilled (mkAuth (Some tenant) None))
          (fun _ => Js.Fulfilled (mkResponse (Some tt) None None)).

Definition refusingWorld : World :=
  mkWorld (Js.Fulfilled (mkAuth (Some tenant) None))
          (fun _ => Js.Fulfilled
                      (mkResponse None
                         (Some (Js.mkError "42501" "row-level security"))
                         None)).

End ContactLandlordDialog.

(* ===================================================================== *)
(** ** What the three landlord sections share *)
(* ===================================================================== *)

Module Crud.
Import Supabase.

(** The values of a submitted form: [formData.get(name)], [None] for
    [null]. *)
Definition FormData := string -> option Js.jsstring.

(** The effects of the handlers of a section whose persistence calls
    carry rows of type [Row]. *)
Inductive Event (Row : Type) :=
| PreventDefault
| Toast (t : Ui.Toast)
| ConsoleError (label : string)
| Confirm (prompt : string)
| Insert (table : string) (row : Row)
| Update (table : string) (row : Row) (id : string)
| Delete (table : string) (id : string)
| SetOpen (b : bool)
| SetTenantEmail (s : Js.jsstring)
| SetEditingProperty_null
| Reload (loader : string)
| OnUpdate.
Arguments PreventDefault {Row}.
Arguments Toast {Row} t.
Arguments ConsoleError {Row} label.
Arguments Confirm {Row} prompt.
Arguments Insert {Row} table row.
Arguments Update {Row} table row id.
Arguments Delete {Row} table id.
Arguments SetOpen {Row} b.
Arguments SetTenantEmail {Row} s.
Arguments SetEditingProperty_null {Row}.
Arguments Reload {Row} loader.
Arguments OnUpdate {Row}.

(** The surroundings of a handler: the signed-in user, the answer to the
    [confirm] prompt and the answer of the back end to a persistence
    call. *)
Record World (Row : Type) := mkWorld {
  getUser : Js.settled AuthResponse;
  confirm : string -> bool;
  respond : Event Row -> Js.settled (Response unit)
}.
Arguments mkWorld {Row} getUser confirm respond.
Arguments getUser {Row} w.
Arguments confirm {Row} w prompt.
Arguments respond {Row} w call.

Section Handlers.
Context {Row : Type}.

(** [await supabase.from(...).insert/update/delete(...)]. *)
Definition persist (w : World Row) (call : Event Row)
    : Eff.M (Event Row) (Response unit) :=
  (Eff.emit call ;; Eff.await (respond w call))%eff.

Definition toast (t : Ui.Toast) : Eff.M (Event Row) unit :=
  Eff.emit (Toast t).

(** [if (c) { m }]. *)
Definition when_ (c : bool) (m : Eff.M (Event Row) unit)
    : Eff.M (Event Row) unit :=
  if c then m else Eff.ret tt.

(** [if (e) throw e]. *)
Definition throwIf (e : option Js.Error) : Eff.M (Event Row) unit :=
  match e with
  | Some err => Eff.throw err
  | None => Eff.ret tt
  end.

Definition isCall (e : Event Row) : bool :=
  match e with
  | Insert _ _ | Update _ _ _ | Delete _ _ => true
  | _ => false
  end.

(** The persistence calls of a trace. *)
Definition calls (t : list (Event Row)) : list (Event Row) :=
  filter isCall t.

(** A call succeeded when its promise was fulfilled with no [error]. *)
Definition succeeded (w : World Row) (call : Event Row) : bool :=
  match respond w call with
  | Js.Fulfilled r =>
      match error r with
      | None => true
      | Some _ => false
      end
  | Js.Rejected _ => false
  end.

Definition isReload (e : Event Row) : bool :=
  match e with
  | Reload _ => true
  | _ => false
  end.

Definition isOnUpdate (e : Event Row) : bool :=
  match e with
  | OnUpdate => true
  | _ => false
  end.

(** How often the section's own list is reloaded and how often the
    dashboard's callback is invoked. *)
Definition reloads (t : list (Event Row)) : nat :=
  List.length (filter isReload t).

Definition updates (t : list (Event Row)) : nat :=
  List.length (filter isOnUpdate t).

Definition isErrorToast (e : Event Row) : bool :=
  match e with
  | Toast t => Ui.destructive t
  | _ => false
  end.

(** A handler turned the request down: it told the user so, sent nothing
    to the back end and refreshed nothing. *)
Definition turnedDown (t : list (Event Row)) : Prop :=
  calls t = [] /\ existsb isErrorToast t = true
  /\ reloads t = 0%nat /\ updates t = 0%nat.

(** How often one loader of the section is invoked. *)
Definition isReloadOf (loader : string) (e : Event Row) : bool :=
  match e with
  | Reload l => l =? loader
  | _ => false
  end.

Definition reloadsOf (loader : string) (t : list (Event Row)) : nat :=
  List.length (filter (isReloadOf loader) t).

(** Both refreshes happened, once each: the section reloaded its list with
    [loader] and with no other loader, and [onUpdate] was invoked.  Or
    neither happened. *)
Definition refreshed (loader : string) (t : list (Event Row)) : Prop :=
  reloadsOf loader t = 1%nat /\ reloads t = 1%nat /\ updates t = 1%nat.

Definition notRefreshed (t : list (Event Row)) : Prop :=
  reloads t = 0%nat /\ updates t = 0%nat.

(** The trace [t] made the persistence call [c] and no other, and
    refreshed exactly if [c] succeeded. *)
Definition settles (loader : string) (w : World Row) (c : Event Row)
    (t : list (Event Row)) : Prop :=
  calls t = [c]
  /\ (succeeded w c = true -> refreshed loader t)
  /\ (succeeded w c = false -> notRefreshed t).

(** Whatever the trace did: without a persistence call nothing is
    refreshed, and a call that was made settles the trace. *)
Definition mutationContract (loader : string) (w : World Row)
    (t : list (Event Row)) : Prop :=
  (calls t = [] -> notRefreshed t)
  /\ forall c : Event Row, In c (calls t) -> settles loader w c t.

End Handlers.

(** [/^[^\s@]+@[^\s@]+\.[^\s@]+$/.test(s)]: one [@], something without
    white space before it, and after it something without white space
    that has a dot neither first nor last. *)
Definition at_sign : N := 64.
Definition dot : N := 46.

Definition plain (c : N) : bool :=
  negb (Js.isWhiteSpace c) && negb (c =? at_sign)%N.

Fixpoint splitAtSign (s : Js.jsstring) : option (Js.jsstring * Js.jsstring) :=
  match s with
  | [] => None
  | c :: s' =>
      if (c =? at_sign)%N then Some ([], s')
      else match splitAtSign s' with
           | Some (l, r) => Some (c :: l, r)
           | None => None
           end
  end.

Definition emailPattern (s : Js.jsstring) : bool :=
  match splitAtSign s with
  | None => false
  | Some (l, r) =>
      negb (Nat.eqb (List.length l) 0) && forallb plain l && forallb plain r &&
      existsb (N.eqb dot) (removelast (tl r))
  end.

(** Truthiness of a string, and of a form value. *)
Definition truthy (s : Js.jsstring) : bool :=
  negb (Nat.eqb (List.length s) 0).

Definition truthyValue (v : option Js.jsstring) : bool :=
  match v with
  | Some s => truthy s
  | None => false
  end.

End Crud.

(* ===================================================================== *)
(** ** landlord/LeasesSection.tsx *)
(* ===================================================================== *)

Module LeasesSection.
Import Supabase Crud.

Record Profile := mkProfile { profileId : string }.

(** The row sent to [leases]. *)
Record LeaseData := mkLeaseData {
  landlord_id : string;
  property_id : option Js.jsstring;
  tenant_id : string;
  start_date : option Js.jsstring;
  end_date : option Js.jsstring;
  rent_amount : Js.number;
  deposit_amount : option Js.number;
  payment_due_day : Js.number;
  status : option Js.jsstring
}.

Definition Event := Crud.Event LeaseData.
Definition World := Crud.World LeaseData.

Definition mustBeLoggedIn : Ui.Toast :=
  Ui.errorToast "Error" "You must be logged in".
Definition invalidEmail : Ui.Toast :=
  Ui.errorToast "Error" "Please provide a valid tenant email".
Definition tenantNotFound : Ui.Toast :=
  Ui.errorToast "Error" "Tenant not found with this email".
Definition invalidRent : Ui.Toast :=
  Ui.errorToast "Error" "Please provide a valid rent amount".
Definition invalidDeposit : Ui.Toast :=
  Ui.errorToast "Error" "Please provide a valid deposit amount".
Definition invalidDueDay : Ui.Toast :=
  Ui.errorToast "Error" "Payment due day must be between 1 and 31".
Definition createFailed : Ui.Toast :=
  Ui.errorToast "Error creating lease"
                "Failed to create lease. Please try again.".
Definition deleteFailed : Ui.Toast :=
  Ui.errorToast "Error deleting lease"
                "Failed to delete lease. Please try again.".
Definition unexpected : Ui.Toast :=
  Ui.errorToast "Error" "An unexpected error occurred".

(** [profileError || !profile] is false: the profile found. *)
Definition found (r : Response Profile) : option Profile :=
  match error r with
  | Some _ => None
  | None => data r
  end.

Section Handlers.
(** The two global parsers of JavaScript, applied to a form value. *)
Variable parseFloat : option Js.jsstring -> Js.number.
Variable parseInt : option Js.jsstring -> Js.number.

(** [isNaN(rentAmount) || rentAmount <= 0]. *)
Definition badRent (rentAmount : Js.number) : bool :=
  Js.isNaN rentAmount || Js.le_lit rentAmount 0.

(** [depositAmount !== null && (isNaN(depositAmount) ||
    depositAmount < 0)]. *)
Definition badDeposit (depositAmount : option Js.number) : bool :=
  match depositAmount with
  | Some d => Js.isNaN d || Js.lt_lit d 0
  | None => false
  end.

(** [isNaN(paymentDueDay) || paymentDueDay < 1 || paymentDueDay > 31]. *)
Definition badDueDay (paymentDueDay : Js.number) : bool :=
  Js.isNaN paymentDueDay || Js.lt_lit paymentDueDay 1
  || Js.gt_lit paymentDueDay 31.

(** [handleSubmit]; [profiles] answers the look-up of a profile by
    email. *)
Definition handleSubmit (formData : FormData) (tenantEmail : Js.jsstring)
    (profiles : Js.jsstring -> Js.settled (Response Profile))
    (w : World) : Eff.M Event unit :=
  (Eff.emit PreventDefault ;;
   Eff.try_catch
    (r <- Eff.await (getUser w) ;;
     throwIf (authError r) ;;
     match user r with
     | None => toast mustBeLoggedIn ;; Eff.early_return
     | Some u =>
       when_ (negb (truthy tenantEmail) || negb (emailPattern tenantEmail))
             (toast invalidEmail ;; Eff.early_return) ;;
       res <- Eff.await (profiles tenantEmail) ;;
       match found res with
       | None => toast tenantNotFound ;; Eff.early_return
       | Some profile =>
         let rentAmount := parseFloat (formData "rent_amount") in
         let depositAmount :=
           if truthyValue (formData "deposit_amount")
           then Some (parseFloat (formData "deposit_amount"))
           else None in
         let paymentDueDay := parseInt (formData "payment_due_day") in
         when_ (badRent rentAmount)
               (toast invalidRent ;; Eff.early_return) ;;
         when_ (badDeposit depositAmount)
               (toast invalidDeposit ;; Eff.early_return) ;;
         when_ (badDueDay paymentDueDay)
               (toast invalidDueDay ;; Eff.early_return) ;;
         let leaseData :=
           mkLeaseData (id u) (formData "property_id") (profileId profile)
                       (formData "start_date") (formData "end_date")
                       rentAmount depositAmount paymentDueDay
                       (formData "status") in
         ins <- persist w (Insert "leases" leaseData) ;;
         match error ins with
         | Some _ =>
             Eff.emit (ConsoleError "Error creating lease:") ;;
             toast createFailed
         | None =>
             toast (Ui.infoToast "Lease created successfully" None) ;;
             Eff.emit (SetOpen false) ;;
             Eff.emit (SetTenantEmail []) ;;
             Eff.emit (Reload "loadLeases") ;;
             Eff.emit OnUpdate
         end
       end
     end)
    (fun _ =>
       Eff.emit (ConsoleError "Unexpected error creating lease:") ;;
       toast unexpected))%eff.

(** The object [leaseData] of [handleSubmit], for the signed-in user and
    the profile found. *)
Definition leaseDataOf (formData : FormData) (u : User) (profile : Profile)
    : LeaseData :=
  mkLeaseData (id u) (formData "property_id") (profileId profile)
              (formData "start_date") (formData "end_date")
              (parseFloat (formData "rent_amount"))
              (if truthyValue (formData "deposit_amount")
               then Some (parseFloat (formData "deposit_amount"))
               else None)
              (parseInt (formData "payment_due_day"))
              (formData "status").

Definition deletePrompt : string :=
  "Are you sure you want to delete this lease?".

Definition handleDelete (leaseId : string) (w : World)
    : Eff.M Event unit :=
  (Eff.emit (Confirm deletePrompt) ;;
   when_ (negb (confirm w deletePrompt)) Eff.early_return ;;
   Eff.try_catch
     (r <- Eff.await (getUser w) ;;
      throwIf (authError r) ;;
      match user r with
      | None => toast mustBeLoggedIn ;; Eff.early_return
      | Some _ =>
        del <- persist w (Delete "leases" leaseId) ;;
        match error del with
        | Some _ =>
            Eff.emit (ConsoleError "Error deleting lease:") ;;
            toast deleteFailed
        | None =>
            toast (Ui.infoToast "Lease deleted successfully" None) ;;
            Eff.emit (Reload "loadLeases") ;;
            Eff.emit OnUpdate
        end
      end)
     (fun _ =>
        Eff.emit (ConsoleError "Unexpected error deleting lease:") ;;
        toast unexpected))%eff.

End Handlers.

(** A lease form as typed, with the given rent and due day; a landlord
    who confirms every prompt and whose back end accepts every call; a
    directory that knows one tenant. *)
Definition leaseForm (rent day : string) : FormData :=
  fun field =>
    if field =? "property_id" then Some (Js.lit "p-1")
    else if field =? "start_date" then Some (Js.lit "2025-01-01")
    else if field =? "end_date" then Some (Js.lit "2025-12-31")
    else if field =? "rent_amount" then Some (Js.lit rent)
    else if field =? "deposit_amount" then Some []
    else if field =? "payment_due_day" then Some (Js.lit day)
    else if field =? "status" then Some (Js.lit "active")
    else None.

Definition landlord : User := mkUser "landlord-1".

Definition obligingWorld : World :=
  mkWorld (Js.Fulfilled (mkAuth (Some landlord) None))
          (fun _ => true)
          (fun _ => Js.Fulfilled (mkResponse None None None)).

Definition tenantEmail : Js.jsstring := Js.lit "tenant@example.com".

Definition directory (email : Js.jsstring)
    : Js.settled (Response Profile) :=
  if list_eq_dec N.eq_dec email tenantEmail
  then Js.Fulfilled (mkResponse (Some (mkProfile "tenant-7")) None None)
  else Js.Fulfilled
         (mkResponse None (Some (Js.mkError "PGRST116" "no rows")) None).

(** The row that [leaseForm "1200" "15"] makes for the known tenant. *)
Definition sampleLease : LeaseData :=
  mkLeaseData "landlord-1" (Some (Js.lit "p-1")) "tenant-7"
              (Some (Js.lit "2025-01-01")) (Some (Js.lit "2025-12-31"))
              (Js.Fin (inject_Z 1200)) None (Js.Fin (inject_Z 15))
              (Some (Js.lit "active")).

(** A landlord who answers no to every prompt. *)
Definition hesitantWorld : World :=
  mkWorld (Js.Fulfilled (mkAuth (Some landlord) None))
          (fun _ => false)
          (fun _ => Js.Fulfilled (mkResponse None None None)).

(** The same landlord with a back end that refuses every call. *)
Definition refusingWorld : World :=
  mkWorld (Js.Fulfilled (mkAuth (Some landlord) None))
          (fun _ => true)
          (fun _ => Js.Fulfilled
                      (mkResponse None
                         (Some (Js.mkError "42501" "row-level security"))
                         None)).

(** Nobody signed in. *)
Definition signedOutWorld : World :=
  mkWorld (Js.Fulfilled (mkAuth None None))
          (fun _ => true)
          (fun _ => Js.Fulfilled (mkResponse None None None)).

(** The look-up found no profile. *)
Definition noProfile (q : Js.settled (Response Profile)) : bool :=
  match q with
  | Js.Fulfilled r =>
      match data r with
      | Some _ => false
      | None => true
      end
  | Js.Rejected _ => false
  end.

End LeasesSection.

(* ===================================================================== *)
(** ** landlord/PropertiesSection.tsx *)
(* ===================================================================== *)

Module PropertiesSection.
Import Supabase Crud.

(** The row sent to [properties]. *)
Record PropertyData := mkPropertyData {
  landlord_id : string;
  name : option Js.jsstring;
  address : option Js.jsstring;
  unit_number : option Js.jsstring;
  rent_amount : Js.number;
  deposit_amount : option Js.number;
  status : option Js.jsstring
}.

(** The property being edited; only its [id] is read. *)
Record Property := mkProperty { propertyId : string }.

Definition Event := Crud.Event PropertyData.
Definition World := Crud.World PropertyData.

(** [s || null] on a form value. *)
Definition orNull (v : option Js.jsstring) : option Js.jsstring :=
  if truthyValue v then v else None.

(** [x || null] on a number. *)
Definition numberOrNull (x : Js.number) : option Js.number :=
  if Js.truthy_number x then Some x else None.

Definition failure (title : string) (e : Js.Error) : Ui.Toast :=
  Ui.errorToast title (Js.message e).

Section Handlers.
Variable parseFloat : option Js.jsstring -> Js.number.

Definition handleSubmit (formData : FormData)
    (editingProperty : option Property) (w : World)
    : Eff.M Event unit :=
  (Eff.emit PreventDefault ;;
   r <- Eff.await (getUser w) ;;
   match user r with
   | None => Eff.early_return
   | Some u =>
     let propertyData :=
       mkPropertyData (id u) (formData "name") (formData "address")
                      (orNull (formData "unit_number"))
                      (parseFloat (formData "rent_amount"))
                      (numberOrNull (parseFloat (formData "deposit_amount")))
                      (formData "status") in
     match editingProperty with
     | Some editing =>
       upd <- persist w (Update "properties" propertyData
                                (propertyId editing)) ;;
       match error upd with
       | Some e => toast (failure "Error updating property" e)
       | None =>
           toast (Ui.infoToast "Property updated successfully" None) ;;
           Eff.emit (SetOpen false) ;;
           Eff.emit SetEditingProperty_null ;;
           Eff.emit (Reload "loadProperties") ;;
           Eff.emit OnUpdate
       end
     | None =>
       ins <- persist w (Insert "properties" propertyData) ;;
       match error ins with
       | Some e => toast (failure "Error creating property" e)
       | None =>
           toast (Ui.infoToast "Property created successfully" None) ;;
           Eff.emit (SetOpen false) ;;
           Eff.emit (Reload "loadProperties") ;;
           Eff.emit OnUpdate
       end
     end
   end)%eff.

(** The object [propertyData] of [handleSubmit], for the signed-in
    user. *)
Definition propertyDataOf (formData : FormData) (u : User) : PropertyData :=
  mkPropertyData (id u) (formData "name") (formData "address")
                 (orNull (formData "unit_number"))
                 (parseFloat (formData "rent_amount"))
                 (numberOrNull (parseFloat (formData "deposit_amount")))
                 (formData "status").

Definition deletePrompt : string :=
  "Are you sure you want to delete this property?".

Definition handleDelete (propertyId : string) (w : World)
    : Eff.M Event unit :=
  (Eff.emit (Confirm deletePrompt) ;;
   when_ (negb (confirm w deletePrompt)) Eff.early_return ;;
   del <- persist w (Delete "properties" propertyId) ;;
   match error del with
   | Some e => toast (failure "Error deleting property" e)
   | None =>
       toast (Ui.infoToast "Property deleted successfully" None) ;;
       Eff.emit (Reload "loadProperties") ;;
       Eff.emit OnUpdate
   end)%eff.

End Handlers.

(** A property form as typed; a landlord who confirms every prompt, with a
    back end that accepts every call and with one that refuses every
    call. *)
Definition propertyForm : FormData :=
  fun field =>
    if field =? "name" then Some (Js.lit "Maple Court")
    else if field =? "address" then Some (Js.lit "12 Maple St")
    else if field =? "unit_number" then Some []
    else if field =? "rent_amount" then Some (Js.lit "1200")
    else if field =? "deposit_amount" then Some (Js.lit "600")
    else if field =? "status" then Some (Js.lit "available")
    else None.

Definition obligingWorld : World :=
  mkWorld (Js.Fulfilled (mkAuth (Some (mkUser "landlord-1")) None))
          (fun _ => true)
          (fun _ => Js.Fulfilled (mkResponse None None None)).

Definition refusingWorld : World :=
  mkWorld (Js.Fulfilled (mkAuth (Some (mkUser "landlord-1")) None))
          (fun _ => true)
          (fun _ => Js.Fulfilled
                      (mkResponse None
                         (Some (Js.mkError "42501" "row-level security"))
                         None)).

(** A landlord who answers no to every prompt. *)
Definition hesitantWorld : World :=
  mkWorld (Js.Fulfilled (mkAuth (Some (mkUser "landlord-1")) None))
          (fun _ => false)
          (fun _ => Js.Fulfilled (mkResponse None None None)).

(** A back end whose promises are rejected. *)
Definition brokenWorld : World :=
  mkWorld (Js.Fulfilled (mkAuth (Some (mkUser "landlord-1")) None))
          (fun _ => true)
          (fun _ => Js.Rejected (Js.mkError "" "Failed to fetch")).

(** The row that [propertyForm] makes. *)
Definition sampleRow : PropertyData :=
  mkPropertyData "landlord-1" (Some (Js.lit "Maple Court"))
                 (Some (Js.lit "12 Maple St")) None
                 (Js.Fin (inject_Z 1200)) (Some (Js.Fin (inject_Z 600)))
                 (Some (Js.lit "available")).

End PropertiesSection.

(* ===================================================================== *)
(** ** landlord/PaymentsSection.tsx *)
(* ===================================================================== *)

Module PaymentsSection.
Import Supabase Crud.

(** What is sent to [rent_payments]: a new payment, or the two columns
    [markAsPaid] sets. *)
Inductive PaymentRow :=
| NewPayment (lease_id : option Js.jsstring) (amount : Js.number)
             (due_date : option Js.jsstring) (status : string)
             (late_fee : Z)
| Paid (status : string) (paid_date : string).

Definition Event := Crud.Event PaymentRow.
Definition World := Crud.World PaymentRow.

Definition invalidAmount : Ui.Toast :=
  Ui.errorToast "Error" "Please provide a valid amount greater than 0".
Definition createFailed : Ui.Toast :=
  Ui.errorToast "Error creating payment"
                "Failed to create payment. Please try again.".
Definition updateFailed : Ui.Toast :=
  Ui.errorToast "Error updating payment"
                "Failed to update payment. Please try again.".
Definition mustBeLoggedIn : Ui.Toast :=
  Ui.errorToast "Error" "You must be logged in".
Definition unexpected : Ui.Toast :=
  Ui.errorToast "Error" "An unexpected error occurred".

Section Handlers.
Variable parseFloat : option Js.jsstring -> Js.number.

Definition handleSubmit (formData : FormData) (w : World)
    : Eff.M Event unit :=
  (Eff.emit PreventDefault ;;
   Eff.try_catch
    (let amount := parseFloat (formData "amount") in
     when_ (Js.isNaN amount || Js.le_lit amount 0)
           (toast invalidAmount ;; Eff.early_return) ;;
     let paymentData :=
       NewPayment (formData "lease_id") amount (formData "due_date")
                  "pending" 0 in
     ins <- persist w (Insert "rent_payments" paymentData) ;;
     match error ins with
     | Some _ =>
         Eff.emit (ConsoleError "Error creating payment:") ;;
         toast createFailed
     | None =>
         toast (Ui.infoToast "Payment record created successfully" None) ;;
         Eff.emit (SetOpen false) ;;
         Eff.emit (Reload "loadPayments") ;;
         Eff.emit OnUpdate
     end)
    (fun _ =>
       Eff.emit (ConsoleError "Unexpected error creating payment:") ;;
       toast unexpected))%eff.

(** The object [paymentData] of [handleSubmit]. *)
Definition paymentDataOf (formData : FormData) : PaymentRow :=
  NewPayment (formData "lease_id") (parseFloat (formData "amount"))
             (formData "due_date") "pending" 0.

(** [markAsPaid]; [now] is [new Date().toISOString()]. *)
Definition markAsPaid (paymentId : string) (now : string) (w : World)
    : Eff.M Event unit :=
  Eff.try_catch
    (r <- Eff.await (getUser w) ;;
     throwIf (authError r) ;;
     match user r with
     | None => toast mustBeLoggedIn ;; Eff.early_return
     | Some _ =>
       upd <- persist w (Update "rent_payments" (Paid "paid" now)
                                paymentId) ;;
       match error upd with
       | Some _ =>
           Eff.emit (ConsoleError "Error updating payment:") ;;
           toast updateFailed
       | None =>
           toast (Ui.infoToast "Payment marked as paid" None) ;;
           Eff.emit (Reload "loadPayments") ;;
           Eff.emit OnUpdate
       end
     end)%eff
    (fun _ =>
       (Eff.emit (ConsoleError "Unexpected error updating payment:") ;;
        toast unexpected)%eff).

End Handlers.

(** A payment form as typed, with the given amount, and a back end that
    accepts every call. *)
Definition paymentForm (amount : string) : FormData :=
  fun field =>
    if field =? "lease_id" then Some (Js.lit "l-1")
    else if field =? "amount" then Some (Js.lit amount)
    else if field =? "due_date" then Some (Js.lit "2025-02-01")
    else None.

Definition obligingWorld : World :=
  mkWorld (Js.Fulfilled (mkAuth (Some (mkUser "landlord-1")) None))
          (fun _ => true)
          (fun _ => Js.Fulfilled (mkResponse None None None)).

(** A back end whose promises are rejected. *)
Definition brokenWorld : World :=
  mkWorld (Js.Fulfilled (mkAuth (Some (mkUser "landlord-1")) None))
          (fun _ => true)
          (fun _ => Js.Rejected (Js.mkError "" "Failed to fetch")).

End PaymentsSection.

(* ===================================================================== *)
(** ** pages/Index.tsx *)
(* ===================================================================== *)

Module Index.

Record Session := mkSession { sessionUser : option Supabase.User }.

(** [{ data: { session }, error }] of [auth.getSession()]. *)
Record SessionResponse := mkSessionResponse {
  session : option Session;
  sessionError : option Js.Error
}.

(** A row of [user_roles] as selected: [role]. *)
Record RoleRow := mkRoleRow { rowRole : string }.

(** The three [useState] cells of the page. *)
Record State := mkState {
  user : option Supabase.User;
  role : option string;
  loading : bool
}.

Definition initialState : State := mkState None None true.

Inductive Event :=
| SetUser (u : option Supabase.User)
| SetRole (r : option string)
| SetLoading (b : bool)
| Navigate (path : string)
| ConsoleError (label : string)
| SignOut.

Record World := mkWorld {
  getSession : Js.settled SessionResponse;
  roleQuery : string -> Js.settled (Supabase.Response RoleRow);
  signOut : Js.settled (option Js.Error)
}.

(** [session?.user]. *)
Definition userOf (s : option Session) : option Supabase.User :=
  match s with
  | Some x => sessionUser x
  | None => None
  end.

Definition throwIf (e : option Js.Error) : Eff.M Event unit :=
  match e with
  | Some err => Eff.throw err
  | None => Eff.ret tt
  end.

Definition loadUserRole (w : World) (userId : string) : Eff.M Event unit :=
  Eff.try_catch
    (res <- Eff.await (roleQuery w userId) ;;
     match Supabase.error res with
     | Some e =>
         (if negb (Js.code e =? "PGRST116")
          then Eff.emit (ConsoleError "Error loading user role:")
          else Eff.ret tt) ;;
         Eff.early_return
     | None =>
         match Supabase.data res with
         | Some d => Eff.emit (SetRole (Some (rowRole d)))
         | None => Eff.ret tt
         end
     end)%eff
    (fun _ => Eff.emit (ConsoleError "Unexpected error loading user role:")).

Definition checkUser (w : World) : Eff.M Event unit :=
  Eff.finally
    (Eff.try_catch
       (r <- Eff.await (getSession w) ;;
        throwIf (sessionError r) ;;
        match userOf (session r) with
        | Some u =>
            Eff.emit (SetUser (Some u)) ;;
            Eff.call (loadUserRole w (Supabase.id u))
        | None => Eff.emit (Navigate "/auth")
        end)%eff
       (fun _ =>
          (Eff.emit (ConsoleError "Error checking user:") ;;
           Eff.emit (Navigate "/auth"))%eff))
    (Eff.emit (SetLoading false)).

(** The callback given to [onAuthStateChange]. *)
Definition onAuthStateChange (w : World) (s : option Session)
    : Eff.M Event unit :=
  match userOf s with
  | Some u =>
      (Eff.emit (SetUser (Some u)) ;;
       Eff.call (loadUserRole w (Supabase.id u)))%eff
  | None =>
      (Eff.emit (SetUser None) ;;
       Eff.emit (SetRole None) ;;
       Eff.emit (Navigate "/auth"))%eff
  end.

Definition handleSignOut (w : World) : Eff.M Event unit :=
  Eff.try_catch
    (Eff.emit SignOut ;;
     e <- Eff.await (signOut w) ;;
     throwIf e ;;
     Eff.emit (Navigate "/auth"))%eff
    (fun _ =>
       (Eff.emit (ConsoleError "Error signing out:") ;;
        Eff.emit (Navigate "/auth"))%eff).

Definition applyEvent (s : State) (e : Event) : State :=
  match e with
  | SetUser u => mkState u (role s) (loading s)
  | SetRole r => mkState (user s) r (loading s)
  | SetLoading b => mkState (user s) (role s) b
  | Navigate _ | ConsoleError _ | SignOut => s
  end.

Definition stateAfter (s : State) (t : list Event) : State :=
  fold_left applyEvent t s.

(** What the page shows. *)
Inductive View :=
| LoadingScreen
| Blank
| LandlordPortal
| TenantPortal.

(** Truthiness of [user] and of [role]: [null] and the empty string are
    falsy. *)
Definition hasUser (s : State) : bool :=
  match user s with
  | Some _ => true
  | None => false
  end.

Definition hasRole (s : State) : bool :=
  match role s with
  | Some r => negb (r =? "")
  | None => false
  end.

Definition isLandlord (s : State) : bool :=
  match role s with
  | Some r => r =? "landlord"
  | None => false
  end.

Definition render (s : State) : View :=
  if loading s then LoadingScreen
  else if negb (hasUser s) || negb (hasRole s) then Blank
  else if isLandlord s then LandlordPortal
  else TenantPortal.

Definition navigations (t : list Event) : list string :=
  flat_map (fun e => match e with
                     | Navigate path => [path]
                     | _ => []
                     end) t.

(** The user of the session that [getSession] returns, if it returns one
    without error. *)
Definition sessionUserOf (w : World) : option Supabase.User :=
  match getSession w with
  | Js.Fulfilled r =>
      match sessionError r with
      | Some _ => None
      | None => userOf (session r)
      end
  | Js.Rejected _ => None
  end.

(** The role that the look-up in [user_roles] returns for a user, if it
    returns a row without error. *)
Definition roleOf (w : World) (u : Supabase.User) : option string :=
  match roleQuery w (Supabase.id u) with
  | Js.Fulfilled res =>
      match Supabase.error res with
      | Some _ => None
      | None => option_map rowRole (Supabase.data res)
      end
  | Js.Rejected _ => None
  end.

(** A visitor with a session whose role row says [r]. *)
Definition visitor (r : string) : World :=
  mkWorld (Js.Fulfilled
             (mkSessionResponse
                (Some (mkSession (Some (Supabase.mkUser "u-1")))) None))
          (fun _ => Js.Fulfilled
                      (Supabase.mkResponse (Some (mkRoleRow r)) None None))
          (Js.Fulfilled None).

End Index.

(* ===================================================================== *)
(** ** tenant/TenantDashboard.tsx *)
(* ===================================================================== *)

Module TenantDashboard.
Import Supabase.

(** The active lease; only its [id] is read by the loader. *)
Record Lease := mkLease { leaseId : string }.

Record Payment := mkPayment {
  paymentId : string;
  paymentStatus : string
}.

Inductive Event :=
| SetLease (l : Lease)
| SetPayments (ps : list Payment).

Record World := mkWorld {
  getUser : Js.settled AuthResponse;
  leaseQuery : string -> Js.settled (Response Lease);
  paymentsQuery : string -> Js.settled (Response (list Payment))
}.

Definition loadTenantData (w : World) : Eff.M Event unit :=
  (r <- Eff.await (getUser w) ;;
   match user r with
   | None => Eff.early_return
   | Some u =>
     l <- Eff.await (leaseQuery w (id u)) ;;
     match data l with
     | Some leaseData =>
         Eff.emit (SetLease leaseData) ;;
         ps <- Eff.await (paymentsQuery w (leaseId leaseData)) ;;
         Eff.emit (SetPayments (LandlordDashboard.orNil (data ps)))
     | None => Eff.ret tt
     end
   end)%eff.

(** A tenant with an active lease and two payments on it. *)
Definition tenantWorld : World :=
  mkWorld (Js.Fulfilled (mkAuth (Some (mkUser "tenant-7")) None))
          (fun _ => Js.Fulfilled (mkResponse (Some (mkLease "l-1")) None None))
          (fun _ => Js.Fulfilled
                      (mkResponse (Some [mkPayment "pay-2" "pending";
                                         mkPayment "pay-1" "paid"])
                                  None None)).

End TenantDashboard.

(* ===================================================================== *)
(** * Properties *)
(* ===================================================================== *)

(** ** The statistics reducer *)

Section ReducerFacts.
Import LandlordDashboard.
Context {raw num : Type} `{Js.Arith raw num}.

Let term (s : num) (p : Payment raw) : num :=
  Js.add s (Js.add (Js.Number (amount p)) (Js.Number (late_fee p))).

(** One pass from any accumulator: the counter advances by the number of
    pending or overdue payments, the revenue by the paid ones, in list
    order. *)
Lemma fold_reducer (ps : list (Payment raw)) (acc : PaymentStats num) :
  pendingPayments (fold_left reducer ps acc)
    = pendingPayments acc + countPending ps
  /\ totalRevenue (fold_left reducer ps acc)
    = fold_left term (filter isPaid ps) (totalRevenue acc).
Proof.
  revert acc.
  induction ps as [|p ps IH]; intros acc.
  - unfold countPending; simpl. split; [lia | reflexivity].
  - cbn [fold_left filter].
    destruct (IH (reducer acc p)) as [IHc IHr].
    rewrite IHc, IHr. clear IH IHc IHr.
    unfold countPending, reducer, isPending, isPaid.
    cbn [filter].
    destruct ((status p =? "pending") || (status p =? "overdue")) eqn:Ep.
    + assert (Hpaid : (status p =? "paid") = false).
      { apply orb_true_iff in Ep.
        destruct Ep as [E|E]; apply String.eqb_eq in E; rewrite E;
          reflexivity. }
      rewrite Hpaid. cbn [pendingPayments totalRevenue List.length].
      split; [lia | reflexivity].
    + destruct (status p =? "paid"); cbn [pendingPayments totalRevenue fold_left];
        split; first [lia | reflexivity].
Qed.

Lemma paymentStats_pending (ps : list (Payment raw)) :
  pendingPayments (paymentStats ps) = countPending ps.
Proof.
  unfold paymentStats.
  destruct (fold_reducer ps (mkPaymentStats 0 Js.zero)) as [Hc _].
  rewrite Hc. cbn [pendingPayments]. lia.
Qed.

Lemma paymentStats_revenue (ps : list (Payment raw)) :
  totalRevenue (paymentStats ps) = sumPaid ps.
Proof.
  unfold paymentStats, sumPaid.
  destruct (fold_reducer ps (mkPaymentStats 0 Js.zero)) as [_ Hr].
  exact Hr.
Qed.

(** A record is its two fields. *)
Lemma paymentStats_eta (a b : PaymentStats num) :
  pendingPayments a = pendingPayments b ->
  totalRevenue a = totalRevenue b -> a = b.
Proof.
  destruct a, b; cbn; intros -> ->; reflexivity.
Qed.

Lemma filter_skip {A} (f : A -> bool) (l1 l2 : list A) (x : A) :
  f x = false -> filter f (l1 ++ x :: l2) = filter f (l1 ++ l2).
Proof.
  intros Hx. rewrite !filter_app. cbn [filter]. rewrite Hx. reflexivity.
Qed.

Lemma pending_skip (l1 l2 : list (Payment raw)) (p : Payment raw) :
  isPending p = false ->
  pendingPayments (paymentStats (l1 ++ p :: l2))
    = pendingPayments (paymentStats (l1 ++ l2)).
Proof.
  intros Hp. rewrite !paymentStats_pending. unfold countPending.
  rewrite (filter_skip _ _ _ _ Hp). reflexivity.
Qed.

Lemma revenue_skip (l1 l2 : list (Payment raw)) (p : Payment raw) :
  isPaid p = false ->
  totalRevenue (paymentStats (l1 ++ p :: l2))
    = totalRevenue (paymentStats (l1 ++ l2)).
Proof.
  intros Hp. rewrite !paymentStats_revenue. unfold sumPaid.
  rewrite (filter_skip _ _ _ _ Hp). reflexivity.
Qed.

Lemma pending_not_paid (p : Payment raw) :
  isPending p = true -> isPaid p = false.
Proof.
  unfold isPending, isPaid. intros Hp.
  apply orb_true_iff in Hp.
  destruct Hp as [E|E]; apply String.eqb_eq in E; rewrite E; reflexivity.
Qed.

End ReducerFacts.

(** Over the integers the revenue is the sum of the paid amounts and fees
    in the usual sense, whatever the order of the additions. *)
Lemma fold_left_add {A} (f : A -> Z) (l : list A) (a : Z) :
  fold_left (fun s x => s + f x) l a = a + fold_right Z.add 0 (map f l).
Proof.
  revert a. induction l as [|x l IH]; intros a; cbn.
  - lia.
  - rewrite IH. lia.
Qed.

Lemma sumPaid_integers (ps : list (LandlordDashboard.Payment (option Z))) :
  LandlordDashboard.sumPaid ps
  = fold_right Z.add 0
      (map (fun p => Js.Number (LandlordDashboard.amount p)
                     + Js.Number (LandlordDashboard.late_fee p))
           (filter LandlordDashboard.isPaid ps)).
Proof.
  unfold LandlordDashboard.sumPaid. cbn [Js.add Js.zero Js.ArithZ].
  rewrite (fold_left_add
             (fun p => Js.Number (LandlordDashboard.amount p)
                       + Js.Number (LandlordDashboard.late_fee p))).
  lia.
Qed.

Section LoadStatsFacts.
Import LandlordDashboard Supabase.
Context {raw num : Type} `{Js.Arith raw num}.

(** With a signed-in user, a failure of any of the three fetches sends
    [loadStats] through its [catch] block. *)
Lemma loadStats_soft_failure (w : World raw) (r : AuthResponse) (u : User) :
  getUser w = Js.Fulfilled r ->
  authError r = None ->
  user r = Some u ->
  failed (propertiesQuery w (id u)) || failed (leasesQuery w (id u))
    || failed (paymentsQuery w (id u)) = true ->
  Eff.run (loadStats w) = softFailure.
Proof.
  intros Hget Herr Huser Hfail.
  unfold loadStats, softFailure. rewrite Hget. cbn.
  rewrite Herr, Huser. cbn.
  destruct (propertiesQuery w (id u)) as [p|ep];
    destruct (leasesQuery w (id u)) as [l|el];
    destruct (paymentsQuery w (id u)) as [q|eq]; cbn in *;
    try reflexivity.
  destruct (error p); cbn in *; [reflexivity|].
  destruct (error l); cbn in *; [reflexivity|].
  destruct (error q); cbn in *; [reflexivity|discriminate].
Qed.

(** With a signed-in user and three fetches that succeed, [loadStats] sets
    the four statistics once. *)
Lemma loadStats_success (w : World raw) (r : AuthResponse) (u : User)
    (p l : Response unit) (q : Response (list (Payment raw))) :
  getUser w = Js.Fulfilled r ->
  authError r = None ->
  user r = Some u ->
  propertiesQuery w (id u) = Js.Fulfilled p -> error p = None ->
  leasesQuery w (id u) = Js.Fulfilled l -> error l = None ->
  paymentsQuery w (id u) = Js.Fulfilled q -> error q = None ->
  Eff.run (loadStats w)
  = ([SetStats (mkStats (or0 (count p)) (or0 (count l))
                        (pendingPayments (paymentStats (orNil (data q))))
                        (totalRevenue (paymentStats (orNil (data q)))))],
     Eff.Resolved).
Proof.
  intros Hget Herr Huser Hp Ep Hl El Hq Eq.
  unfold loadStats. rewrite Hget. cbn.
  rewrite Herr, Huser. cbn.
  rewrite Hp, Hl, Hq. cbn.
  rewrite Ep, El, Eq. cbn. reflexivity.
Qed.

End LoadStatsFacts.

(** C1. The statistics reducer, on any list of payments, leaves in
    [pendingPayments] the number of payments whose status is ["pending"] or
    ["overdue"] and in [totalRevenue] the sum of [amount + late_fee] over
    the payments whose status is ["paid"]; when the three fetches succeed
    these are the figures [loadStats] stores.  On the payments
    [{100, paid, late_fee 0}, {150, pending}] the reducer yields [1] and
    [100], and for the landlord with two properties and one active lease
    [loadStats] stores [{2, 1, 1, 100}]. *)
Theorem payment_stats_count_and_sum :
  (forall (raw num : Type) (A : Js.Arith raw num)
          (ps : list (LandlordDashboard.Payment raw)),
      LandlordDashboard.pendingPayments (LandlordDashboard.paymentStats ps)
        = LandlordDashboard.countPending ps
      /\ LandlordDashboard.totalRevenue (LandlordDashboard.paymentStats ps)
        = LandlordDashboard.sumPaid ps)
  /\ LandlordDashboard.paymentStats LandlordDashboard.examplePayments
     = LandlordDashboard.mkPaymentStats 1 100
  /\ Eff.run (LandlordDashboard.loadStats LandlordDashboard.exampleWorld)
     = ([LandlordDashboard.SetStats (LandlordDashboard.mkStats 2 1 1 100)],
        Eff.Resolved).
Proof.
  split; [|split].
  - intros raw num A ps. split.
    + apply paymentStats_pending.
    + apply paymentStats_revenue.
  - reflexivity.
  - reflexivity.
Qed.

(** C4. If any of the three fetches of the aggregator fails (its promise
    is rejected or its response carries an [error]), [loadStats] logs the
    error, sets the four statistics to zero and its own promise resolves:
    the error does not reach the caller. *)
Theorem load_stats_fails_soft :
  forall (raw num : Type) (A : Js.Arith raw num)
         (w : LandlordDashboard.World raw) (r : Supabase.AuthResponse)
         (u : Supabase.User) (before : LandlordDashboard.Stats num),
    LandlordDashboard.getUser w = Js.Fulfilled r ->
    Supabase.authError r = None ->
    Supabase.user r = Some u ->
    LandlordDashboard.failed
        (LandlordDashboard.propertiesQuery w (Supabase.id u))
      || LandlordDashboard.failed
        (LandlordDashboard.leasesQuery w (Supabase.id u))
      || LandlordDashboard.failed
        (LandlordDashboard.paymentsQuery w (Supabase.id u)) = true ->
    exists t,
      Eff.run (LandlordDashboard.loadStats w) = (t, Eff.Resolved)
      /\ LandlordDashboard.statsAfter before t
         = LandlordDashboard.mkStats 0 0 0 Js.zero.
Proof.
  intros raw num A w r u before Hget Herr Huser Hfail.
  rewrite (loadStats_soft_failure w r u Hget Herr Huser Hfail).
  eexists. split; reflexivity.
Qed.

Lemma load_stats_fails_soft_witness :
  exists t,
    Eff.run (LandlordDashboard.loadStats LandlordDashboard.failingWorld)
      = (t, Eff.Resolved)
    /\ LandlordDashboard.statsAfter (LandlordDashboard.mkStats 2 1 1 100) t
       = LandlordDashboard.mkStats 0 0 0 0.
Proof.
  apply (load_stats_fails_soft (option Z) Z Js.ArithZ
           LandlordDashboard.failingWorld
           (Supabase.mkAuth (Some (Supabase.mkUser "landlord-1")) None)
           (Supabase.mkUser "landlord-1")
           (LandlordDashboard.mkStats 2 1 1 100));
    reflexivity.
Defined.

(** C9. Every payment moves at most one statistic.  A payment whose
    status is none of ["pending"], ["overdue"], ["paid"] (["partial"], for
    one) leaves both the count and the revenue as they are without it, and
    for any payment at least one of the two is as it is without it; the
    same holds of a single step of the reducer. *)
Theorem payment_moves_at_most_one_statistic :
  forall (raw num : Type) (A : Js.Arith raw num)
         (l1 l2 : list (LandlordDashboard.Payment raw))
         (p : LandlordDashboard.Payment raw)
         (acc : LandlordDashboard.PaymentStats num),
    (LandlordDashboard.status p <> "pending" ->
     LandlordDashboard.status p <> "overdue" ->
     LandlordDashboard.status p <> "paid" ->
     LandlordDashboard.reducer acc p = acc
     /\ LandlordDashboard.paymentStats (l1 ++ p :: l2)
        = LandlordDashboard.paymentStats (l1 ++ l2))
    /\ (LandlordDashboard.pendingPayments
          (LandlordDashboard.paymentStats (l1 ++ p :: l2))
        = LandlordDashboard.pendingPayments
            (LandlordDashboard.paymentStats (l1 ++ l2))
        \/ LandlordDashboard.totalRevenue
             (LandlordDashboard.paymentStats (l1 ++ p :: l2))
           = LandlordDashboard.totalRevenue
               (LandlordDashboard.paymentStats (l1 ++ l2)))
    /\ (LandlordDashboard.pendingPayments (LandlordDashboard.reducer acc p)
        = LandlordDashboard.pendingPayments acc
        \/ LandlordDashboard.totalRevenue (LandlordDashboard.reducer acc p)
           = LandlordDashboard.totalRevenue acc).
Proof.
  intros raw num A l1 l2 p acc. split; [|split].
  - intros Hpend Hover Hpaid.
    apply String.eqb_neq in Hpend, Hover, Hpaid.
    assert (Hp : LandlordDashboard.isPending p = false).
    { unfold LandlordDashboard.isPending. rewrite Hpend, Hover. reflexivity. }
    split.
    + unfold LandlordDashboard.reducer. rewrite Hpend, Hover, Hpaid.
      reflexivity.
    + apply paymentStats_eta.
      * apply pending_skip. exact Hp.
      * apply revenue_skip. exact Hpaid.
  - destruct (LandlordDashboard.isPending p) eqn:Hp.
    + right. apply revenue_skip. apply pending_not_paid. exact Hp.
    + left. apply pending_skip. exact Hp.
  - unfold LandlordDashboard.reducer.
    destruct ((LandlordDashboard.status p =? "pending")
              || (LandlordDashboard.status p =? "overdue")).
    + right. reflexivity.
    + left. destruct (LandlordDashboard.status p =? "paid"); reflexivity.
Qed.

Lemma payment_moves_at_most_one_statistic_witness :
  LandlordDashboard.paymentStats
    (LandlordDashboard.examplePayments
       ++ LandlordDashboard.partialPayment :: LandlordDashboard.examplePayments)
  = LandlordDashboard.paymentStats
      (LandlordDashboard.examplePayments ++ LandlordDashboard.examplePayments).
Proof.
  apply (payment_moves_at_most_one_statistic (option Z) Z Js.ArithZ
           LandlordDashboard.examplePayments LandlordDashboard.examplePayments
           LandlordDashboard.partialPayment
           (LandlordDashboard.mkPaymentStats 0 0));
    discriminate.
Defined.

(** ** The catalog pager *)

Section PagerFacts.
Import AvailablePropertiesSection.

Lemma step_nonneg (p : Z) (a : Action) : 0 <= p -> 0 <= step p a.
Proof.
  intros Hp. destruct a; unfold step, handlePrevPage, handleNextPage; lia.
Qed.

Lemma fold_step_nonneg (clicks : list Action) (p : Z) :
  0 <= p -> 0 <= fold_left step clicks p.
Proof.
  revert p. induction clicks as [|a clicks IH]; intros p Hp; cbn.
  - exact Hp.
  - apply IH. apply step_nonneg. exact Hp.
Qed.

Lemma pageIndexAfter_nonneg (clicks : list Action) :
  0 <= pageIndexAfter clicks.
Proof.
  unfold pageIndexAfter, initialPageIndex. apply fold_step_nonneg. lia.
Qed.

Lemma hasNextPage_true (rows : list Property) :
  hasNextPage (Some rows) = Some true <-> List.length rows = 12%nat.
Proof.
  unfold hasNextPage, PAGE_SIZE. split.
  - intros E. injection E as E. apply Z.eqb_eq in E. lia.
  - intros E. f_equal. apply Z.eqb_eq. lia.
Qed.

Lemma hasNextPage_false (rows : list Property) :
  hasNextPage (Some rows) = Some false <-> List.length rows <> 12%nat.
Proof.
  unfold hasNextPage, PAGE_SIZE. split.
  - intros E. injection E as E. apply Z.eqb_neq in E. lia.
  - intros E. f_equal. apply Z.eqb_neq. lia.
Qed.

Lemma prevDisabled_iff (p : Z) : 0 <= p -> (prevDisabled p = true <-> p = 0).
Proof.
  intros Hp. unfold prevDisabled, hasPrevPage.
  rewrite negb_true_iff, Z.gtb_ltb, Z.ltb_ge. lia.
Qed.

Lemma render_grid (p : Z) (q : QueryResult) (rows : list Property)
    (prevOff nextOff : bool) :
  render p q = Grid rows prevOff nextOff ->
  data q = Some rows /\ prevOff = prevDisabled p
  /\ nextOff = nextDisabled (Some rows).
Proof.
  unfold render.
  destruct (error q); [discriminate|].
  destruct (isLoading q); [discriminate|].
  destruct (data q) as [[|r rs]|]; try discriminate.
  intros E. injection E as <- <- <-. repeat split.
Qed.

End PagerFacts.

(** C2. For every page index [p] the catalog reader asks the table of
    properties for the rows whose status is ["available"], newest first,
    at offset [p * 12] with limit [12]: the rows at positions [i] with
    [p * 12 <= i < p * 12 + 12]. *)
Theorem catalog_request_offset_and_limit :
  forall p : Z,
    let q := AvailablePropertiesSection.queryFn
               (AvailablePropertiesSection.offset p) in
    AvailablePropertiesSection.table q = "properties"
    /\ AvailablePropertiesSection.eqFilter q = ("status", "available")
    /\ AvailablePropertiesSection.orderColumn q = "created_at"
    /\ AvailablePropertiesSection.ascending q = false
    /\ AvailablePropertiesSection.requestedOffset q = p * 12
    /\ AvailablePropertiesSection.requestedLimit q = 12
    /\ forall i : Z,
         AvailablePropertiesSection.requestsRow q i = true
         <-> p * 12 <= i < p * 12 + 12.
Proof.
  intros p q. subst q.
  unfold AvailablePropertiesSection.queryFn, AvailablePropertiesSection.offset,
    AvailablePropertiesSection.requestedOffset,
    AvailablePropertiesSection.requestedLimit,
    AvailablePropertiesSection.requestsRow,
    AvailablePropertiesSection.PAGE_SIZE.
  cbn [AvailablePropertiesSection.table AvailablePropertiesSection.eqFilter
       AvailablePropertiesSection.orderColumn AvailablePropertiesSection.ascending
       AvailablePropertiesSection.rangeFrom AvailablePropertiesSection.rangeTo].
  repeat split; lia.
Qed.

(** C3. For a fetched page the flag [hasNextPage] is true exactly when the
    page has 12 rows (true for a page of 12, false for a page of 5).  A
    fetched page that has rows is drawn as the grid with the pager under
    it, and there the previous-page button is disabled exactly when the
    page index is 0 and the next-page button exactly when the flag is
    false, that is, when the page has not 12 rows; the pager is drawn in no
    other way. *)
Theorem has_next_page_flag_and_controls :
  (forall rows : list AvailablePropertiesSection.Property,
      (AvailablePropertiesSection.hasNextPage (Some rows) = Some true
       <-> List.length rows = 12%nat)
      /\ (AvailablePropertiesSection.hasNextPage (Some rows) = Some false
          <-> List.length rows <> 12%nat))
  /\ AvailablePropertiesSection.hasNextPage
       (AvailablePropertiesSection.data AvailablePropertiesSection.fullPage)
     = Some true
  /\ AvailablePropertiesSection.hasNextPage
       (AvailablePropertiesSection.data AvailablePropertiesSection.shortPage)
     = Some false
  /\ (forall (clicks : list AvailablePropertiesSection.Action)
             (q : AvailablePropertiesSection.QueryResult)
             (r : AvailablePropertiesSection.Property)
             (rows : list AvailablePropertiesSection.Property),
         AvailablePropertiesSection.error q = None ->
         AvailablePropertiesSection.isLoading q = false ->
         AvailablePropertiesSection.data q = Some (r :: rows) ->
         exists prevOff nextOff : bool,
           AvailablePropertiesSection.render
             (AvailablePropertiesSection.pageIndexAfter clicks) q
           = AvailablePropertiesSection.Grid (r :: rows) prevOff nextOff
           /\ (prevOff = true
               <-> AvailablePropertiesSection.pageIndexAfter clicks = 0)
           /\ (nextOff = true
               <-> AvailablePropertiesSection.hasNextPage
                     (AvailablePropertiesSection.data q) = Some false)
           /\ (nextOff = false <-> List.length (r :: rows) = 12%nat))
  /\ (forall (clicks : list AvailablePropertiesSection.Action)
             (q : AvailablePropertiesSection.QueryResult)
             (rows : list AvailablePropertiesSection.Property)
             (prevOff nextOff : bool),
         AvailablePropertiesSection.render
           (AvailablePropertiesSection.pageIndexAfter clicks) q
         = AvailablePropertiesSection.Grid rows prevOff nextOff ->
         (prevOff = true
          <-> AvailablePropertiesSection.pageIndexAfter clicks = 0)
         /\ (nextOff = true
             <-> AvailablePropertiesSection.hasNextPage
                   (AvailablePropertiesSection.data q) = Some false)).
Proof.
  assert (Hgrid :
    forall (clicks : list AvailablePropertiesSection.Action)
           (q : AvailablePropertiesSection.QueryResult)
           (rows : list AvailablePropertiesSection.Property)
           (prevOff nextOff : bool),
      AvailablePropertiesSection.render
        (AvailablePropertiesSection.pageIndexAfter clicks) q
      = AvailablePropertiesSection.Grid rows prevOff nextOff ->
      (prevOff = true
       <-> AvailablePropertiesSection.pageIndexAfter clicks = 0)
      /\ (nextOff = true
          <-> AvailablePropertiesSection.hasNextPage
                (AvailablePropertiesSection.data q) = Some false)).
  { intros clicks q rows prevOff nextOff Hr.
    apply render_grid in Hr. destruct Hr as (Hd & -> & ->).
    rewrite Hd. split.
    + apply prevDisabled_iff. apply pageIndexAfter_nonneg.
    + unfold AvailablePropertiesSection.nextDisabled,
        AvailablePropertiesSection.not_.
      destruct (AvailablePropertiesSection.hasNextPage (Some rows))
        as [[|]|] eqn:E; cbn; split; intros; try congruence.
      discriminate E. }
  split; [|split; [|split; [|split]]].
  - intros rows. split; [apply hasNextPage_true | apply hasNextPage_false].
  - reflexivity.
  - reflexivity.
  - intros clicks q r rows He Hl Hd.
    assert (Hr : AvailablePropertiesSection.render
                   (AvailablePropertiesSection.pageIndexAfter clicks) q
                 = AvailablePropertiesSection.Grid (r :: rows)
                     (AvailablePropertiesSection.prevDisabled
                        (AvailablePropertiesSection.pageIndexAfter clicks))
                     (AvailablePropertiesSection.nextDisabled
                        (AvailablePropertiesSection.data q))).
    { unfold AvailablePropertiesSection.render. rewrite He, Hl, Hd.
      reflexivity. }
    eexists. eexists. split; [exact Hr|].
    destruct (Hgrid clicks q _ _ _ Hr) as [Hp Hn].
    split; [exact Hp|]. split; [exact Hn|].
    rewrite Hd in *. rewrite <- hasNextPage_true.
    unfold AvailablePropertiesSection.nextDisabled,
      AvailablePropertiesSection.not_.
    destruct (AvailablePropertiesSection.hasNextPage (Some (r :: rows)))
      as [[|]|] eqn:E; cbn; split; intros; congruence.
  - exact Hgrid.
Qed.

Lemma has_next_page_flag_and_controls_witness :
  AvailablePropertiesSection.render
    (AvailablePropertiesSection.pageIndexAfter
       [AvailablePropertiesSection.Next; AvailablePropertiesSection.Prev])
    AvailablePropertiesSection.shortPage
  = AvailablePropertiesSection.Grid
      (repeat AvailablePropertiesSection.sampleProperty 5) true true
  /\ AvailablePropertiesSection.render
       (AvailablePropertiesSection.pageIndexAfter
          [AvailablePropertiesSection.Next])
       AvailablePropertiesSection.fullPage
     = AvailablePropertiesSection.Grid
         (repeat AvailablePropertiesSection.sampleProperty 12) false false.
Proof.
  split.
  - destruct (proj1 (proj2 (proj2 (proj2 has_next_page_flag_and_controls)))
                [AvailablePropertiesSection.Next;
                 AvailablePropertiesSection.Prev]
                AvailablePropertiesSection.shortPage
                AvailablePropertiesSection.sampleProperty
                (repeat AvailablePropertiesSection.sampleProperty 4)
                eq_refl eq_refl eq_refl)
      as (prevOff & nextOff & Hr & Hp & Hn & _).
    rewrite Hr.
    rewrite (proj2 Hp eq_refl), (proj2 Hn eq_refl). reflexivity.
  - destruct (proj1 (proj2 (proj2 (proj2 has_next_page_flag_and_controls)))
                [AvailablePropertiesSection.Next]
                AvailablePropertiesSection.fullPage
                AvailablePropertiesSection.sampleProperty
                (repeat AvailablePropertiesSection.sampleProperty 11)
                eq_refl eq_refl eq_refl)
      as (prevOff & nextOff & Hr & Hp & _ & Hn).
    rewrite Hr. rewrite (proj2 Hn eq_refl).
    destruct prevOff; [|reflexivity].
    discriminate (proj1 Hp eq_refl).
Defined.

(** C10. The page index is never negative: it starts at 0, the next-page
    action adds 1, the previous-page action takes [p] to [max 0 (p - 1)]
    (so it leaves 0 at 0), and after any sequence of the two actions the
    index is at least 0. *)
Theorem page_index_never_negative :
  AvailablePropertiesSection.initialPageIndex = 0
  /\ (forall p : Z, AvailablePropertiesSection.handleNextPage p = p + 1)
  /\ (forall p : Z,
         AvailablePropertiesSection.handlePrevPage p = Z.max 0 (p - 1))
  /\ AvailablePropertiesSection.handlePrevPage 0 = 0
  /\ (forall clicks : list AvailablePropertiesSection.Action,
         0 <= AvailablePropertiesSection.pageIndexAfter clicks).
Proof.
  repeat split.
  apply pageIndexAfter_nonneg.
Qed.

(** ** The message composer *)

Section ComposerFacts.
Import ContactLandlordDialog Supabase.

Lemma isValid_iff (s : State) :
  isValid s = true
  <-> (1 <= List.length (Js.trim (message s)) <= 500)%nat.
Proof.
  unfold isValid, trimmedMessage.
  rewrite andb_true_iff, !Nat.leb_le. reflexivity.
Qed.

(** On an invalid message, or while a submit is under way, the handler
    only cancels the form's default action. *)
Lemma submit_ignored (p : Props) (s : State) (w : World) :
  negb (isValid s) || isSubmitting s = true ->
  submit p s w = ([PreventDefault], Eff.Resolved).
Proof.
  intros H. unfold submit, handleSubmit. cbn. rewrite H. reflexivity.
Qed.

(** The submit of a valid message by a signed-in user, up to the answer of
    the back end. *)
Lemma submit_signed_in (p : Props) (s : State) (w : World)
    (r : AuthResponse) (u : User) :
  isValid s = true -> isSubmitting s = false ->
  getUser w = Js.Fulfilled r -> signedIn r = Some u ->
  submit p s w
  = match insertMessage w (payloadOf p s u) with
    | Js.Fulfilled res =>
        match error res with
        | Some e =>
            ([PreventDefault; SetIsSubmitting true; Insert (payloadOf p s u);
              Toast (if Js.code e =? "42501" then permissionDenied
                     else failedToSend);
              SetIsSubmitting false; SetIsSubmitting false], Eff.Resolved)
        | None =>
            ([PreventDefault; SetIsSubmitting true; Insert (payloadOf p s u);
              Toast messageSent; SetMessage []; SetOpen false;
              SetIsSubmitting false], Eff.Resolved)
        end
    | Js.Rejected _ =>
        ([PreventDefault; SetIsSubmitting true; Insert (payloadOf p s u);
          Toast unexpectedError; SetIsSubmitting false], Eff.Resolved)
    end.
Proof.
  intros Hv Hs Hget Hu.
  unfold submit, handleSubmit. cbn. rewrite Hv, Hs. cbn [negb orb].
  rewrite Hget. cbn. rewrite Hu. fold (payloadOf p s u). cbn.
  destruct (insertMessage w (payloadOf p s u)) as [res|e]; cbn.
  - destruct (error res) as [e|]; cbn; reflexivity.
  - reflexivity.
Qed.

End ComposerFacts.

(** C6. A message is valid exactly when its trimmed length is between 1
    and 500.  A message that is empty once trimmed, or longer than 500 once
    trimmed, is dropped by the submit handler, which only cancels the
    form's default action: nothing is inserted.  A message of trimmed
    length 500 is valid and, for a signed-in user, the handler sends the
    insert with the trimmed text. *)
Theorem message_valid_iff_trimmed_length_1_to_500 :
  forall (p : ContactLandlordDialog.Props) (s : ContactLandlordDialog.State)
         (w : ContactLandlordDialog.World),
    (ContactLandlordDialog.isValid s = true
     <-> (1 <= List.length (Js.trim (ContactLandlordDialog.message s))
          <= 500)%nat)
    /\ ((List.length (Js.trim (ContactLandlordDialog.message s)) = 0
         \/ 500 < List.length (Js.trim (ContactLandlordDialog.message s)))%nat
        -> ContactLandlordDialog.submit p s w
           = ([ContactLandlordDialog.PreventDefault], Eff.Resolved))
    /\ (List.length (Js.trim (ContactLandlordDialog.message s)) = 500%nat
        -> ContactLandlordDialog.isValid s = true
           /\ forall (r : Supabase.AuthResponse) (u : Supabase.User),
                ContactLandlordDialog.isSubmitting s = false ->
                ContactLandlordDialog.getUser w = Js.Fulfilled r ->
                ContactLandlordDialog.signedIn r = Some u ->
                ContactLandlordDialog.inserts
                  (fst (ContactLandlordDialog.submit p s w))
                = [ContactLandlordDialog.Insert
                     (ContactLandlordDialog.mkPayload
                        (ContactLandlordDialog.propertyId p)
                        (ContactLandlordDialog.landlordId p)
                        (Supabase.id u)
                        (Js.trim (ContactLandlordDialog.message s)))]).
Proof.
  intros p s w. split; [|split].
  - apply isValid_iff.
  - intros Hlen. apply submit_ignored.
    destruct (ContactLandlordDialog.isValid s) eqn:Hv; [|reflexivity].
    apply isValid_iff in Hv. lia.
  - intros Hlen.
    assert (Hv : ContactLandlordDialog.isValid s = true)
      by (apply isValid_iff; lia).
    split; [exact Hv|].
    intros r u Hs Hget Hu.
    rewrite (submit_signed_in p s w r u Hv Hs Hget Hu).
    unfold ContactLandlordDialog.payloadOf,
      ContactLandlordDialog.trimmedMessage.
    destruct (ContactLandlordDialog.insertMessage w _) as [res|e];
      [destruct (Supabase.error res)|]; reflexivity.
Qed.

Lemma message_valid_iff_trimmed_length_1_to_500_witness :
  List.length (Js.trim (ContactLandlordDialog.message
                          (ContactLandlordDialog.typed 500))) = 500%nat
  /\ ContactLandlordDialog.isValid (ContactLandlordDialog.typed 500) = true
  /\ ContactLandlordDialog.inserts
       (fst (ContactLandlordDialog.submit ContactLandlordDialog.sampleProps
               (ContactLandlordDialog.typed 500)
               ContactLandlordDialog.acceptingWorld))
     = [ContactLandlordDialog.Insert
          (ContactLandlordDialog.mkPayload "p-1" "landlord-1" "tenant-7"
             (Js.trim (ContactLandlordDialog.message
                         (ContactLandlordDialog.typed 500))))]
  /\ ContactLandlordDialog.submit ContactLandlordDialog.sampleProps
       (ContactLandlordDialog.typed 501) ContactLandlordDialog.acceptingWorld
     = ([ContactLandlordDialog.PreventDefault], Eff.Resolved)
  /\ ContactLandlordDialog.submit ContactLandlordDialog.sampleProps
       (ContactLandlordDialog.typed 0) ContactLandlordDialog.acceptingWorld
     = ([ContactLandlordDialog.PreventDefault], Eff.Resolved).
Proof.
  assert (H500 : List.length (Js.trim (ContactLandlordDialog.message
                                         (ContactLandlordDialog.typed 500)))
                 = 500%nat) by (vm_compute; reflexivity).
  split; [exact H500|].
  destruct (message_valid_iff_trimmed_length_1_to_500
              ContactLandlordDialog.sampleProps
              (ContactLandlordDialog.typed 500)
              ContactLandlordDialog.acceptingWorld) as (_ & _ & Hacc).
  destruct (Hacc H500) as [Hv Hins].
  split; [exact Hv|].
  split.
  { apply (Hins (Supabase.mkAuth (Some ContactLandlordDialog.tenant) None)
                ContactLandlordDialog.tenant); reflexivity. }
  split.
  - apply (proj1 (proj2 (message_valid_iff_trimmed_length_1_to_500
                           ContactLandlordDialog.sampleProps
                           (ContactLandlordDialog.typed 501)
                           ContactLandlordDialog.acceptingWorld))).
    right. vm_compute. reflexivity.
  - apply (proj1 (proj2 (message_valid_iff_trimmed_length_1_to_500
                           ContactLandlordDialog.sampleProps
                           (ContactLandlordDialog.typed 0)
                           ContactLandlordDialog.acceptingWorld))).
    left. vm_compute. reflexivity.
Defined.

(** C7. When the insert of a message comes back with an error, the dialog
    shows one notification, and which one depends on the cause alone: the
    permission-denied one when the error code is 42501, the generic failure
    one for any other code.  The two differ, the insert is sent once, and
    the handler ends there. *)
Theorem insert_error_yields_one_of_two_messages :
  forall (p : ContactLandlordDialog.Props) (s : ContactLandlordDialog.State)
         (w : ContactLandlordDialog.World) (r : Supabase.AuthResponse)
         (u : Supabase.User) (res : Supabase.Response unit) (e : Js.Error),
    ContactLandlordDialog.isValid s = true ->
    ContactLandlordDialog.isSubmitting s = false ->
    ContactLandlordDialog.getUser w = Js.Fulfilled r ->
    ContactLandlordDialog.signedIn r = Some u ->
    ContactLandlordDialog.insertMessage w
      (ContactLandlordDialog.payloadOf p s u) = Js.Fulfilled res ->
    Supabase.error res = Some e ->
    let t := fst (ContactLandlordDialog.submit p s w) in
    (Js.code e = "42501" ->
       ContactLandlordDialog.toasts t
       = [ContactLandlordDialog.permissionDenied])
    /\ (Js.code e <> "42501" ->
          ContactLandlordDialog.toasts t = [ContactLandlordDialog.failedToSend])
    /\ ContactLandlordDialog.permissionDenied
       <> ContactLandlordDialog.failedToSend
    /\ ContactLandlordDialog.inserts t
       = [ContactLandlordDialog.Insert (ContactLandlordDialog.payloadOf p s u)]
    /\ snd (ContactLandlordDialog.submit p s w) = Eff.Resolved.
Proof.
  intros p s w r u res e Hv Hs Hget Hu Hins He t. subst t.
  rewrite (submit_signed_in p s w r u Hv Hs Hget Hu), Hins, He.
  cbn [fst snd]. repeat split.
  - intros Hc. apply String.eqb_eq in Hc.
    cbn. rewrite Hc. reflexivity.
  - intros Hc. apply String.eqb_neq in Hc.
    cbn. rewrite Hc. reflexivity.
  - discriminate.
Qed.

Lemma insert_error_yields_one_of_two_messages_witness :
  ContactLandlordDialog.toasts
    (fst (ContactLandlordDialog.submit ContactLandlordDialog.sampleProps
            (ContactLandlordDialog.typed 20)
            ContactLandlordDialog.refusingWorld))
  = [ContactLandlordDialog.permissionDenied].
Proof.
  apply (insert_error_yields_one_of_two_messages
           ContactLandlordDialog.sampleProps (ContactLandlordDialog.typed 20)
           ContactLandlordDialog.refusingWorld
           (Supabase.mkAuth (Some ContactLandlordDialog.tenant) None)
           ContactLandlordDialog.tenant
           (Supabase.mkResponse None
              (Some (Js.mkError "42501" "row-level security")) None)
           (Js.mkError "42501" "row-level security"));
    reflexivity.
Defined.

(** ** The landlord sections *)

Section CrudFacts.
Import Crud Supabase.
Context {Row : Type}.

Lemma settles_intro (loader : string) (w : World Row)
    (t : list (Event Row)) (c : Event Row) (n : nat) :
  calls t = [c] ->
  reloadsOf loader t = n -> reloads t = n -> updates t = n ->
  n = (if succeeded w c then 1%nat else 0%nat) ->
  settles loader w c t.
Proof.
  intros Hc Hl Hr Hu Hn. split; [exact Hc|].
  unfold refreshed, notRefreshed. rewrite Hl, Hr, Hu, Hn.
  split; intros ->; repeat split.
Qed.

Lemma contract_no_call (loader : string) (w : World Row)
    (t : list (Event Row)) :
  calls t = [] -> reloads t = 0%nat -> updates t = 0%nat ->
  mutationContract loader w t.
Proof.
  intros Hc Hr Hu. split.
  - intros _. split; assumption.
  - intros c Hin. rewrite Hc in Hin. destruct Hin.
Qed.

Lemma contract_one_call (loader : string) (w : World Row)
    (t : list (Event Row)) (c : Event Row) (n : nat) :
  calls t = [c] ->
  reloadsOf loader t = n -> reloads t = n -> updates t = n ->
  n = (if succeeded w c then 1%nat else 0%nat) ->
  mutationContract loader w t.
Proof.
  intros Hc Hl Hr Hu Hn. split.
  - rewrite Hc. discriminate.
  - intros c' Hin. rewrite Hc in Hin.
    destruct Hin as [<-|[]].
    apply (settles_intro loader w t c n); assumption.
Qed.

End CrudFacts.

(** Case analysis on what a handler branches on; [k] simplifies between
    two cases. *)
Ltac branch k :=
  repeat (k;
    match goal with
    | |- context [match ?x with
                  | Js.Fulfilled _ => _
                  | Js.Rejected _ => _
                  end] => destruct x eqn:?
    | |- context [match ?x with
                  | Some _ => _
                  | None => _
                  end] => destruct x eqn:?
    | |- context [if ?x then _ else _] => destruct x eqn:?
    end);
  k.

(** Unfolding of the handler monad, for proofs by cases. *)
Ltac open_eff :=
  unfold Eff.run, Eff.try_catch, Eff.finally, Eff.bind, Eff.await, Eff.throw,
    Eff.ret, Eff.emit, Eff.early_return,
    Crud.when_, Crud.throwIf, Crud.persist, Crud.toast in *.

Ltac tidy :=
  open_eff;
  cbn -[LeasesSection.badRent LeasesSection.badDeposit LeasesSection.badDueDay
        Crud.emailPattern Crud.truthy Crud.truthyValue
        PropertiesSection.orNull PropertiesSection.numberOrNull
        Js.isNaN Js.le_lit Js.lt_lit Js.gt_lit] in *.

(** The answer the back end gave to the one call of a trace settles
    whether that call succeeded. *)
Ltac settle_call :=
  unfold Crud.succeeded;
  repeat match goal with
         | H : Crud.respond _ _ = _ |- _ => rewrite H
         end;
  try match goal with
      | H : Supabase.error _ = _ |- _ => rewrite H
      end;
  reflexivity.

Ltac contract_leaf :=
  first [ apply contract_no_call; reflexivity
        | eapply contract_one_call;
          [reflexivity | reflexivity | reflexivity | reflexivity
          | settle_call] ].

Ltac settles_leaf :=
  eapply settles_intro;
  [reflexivity | reflexivity | reflexivity | reflexivity | settle_call].

Section LeaseFacts.
Import Crud Supabase LeasesSection.
Variables parseFloat parseInt : option Js.jsstring -> Js.number.

Lemma lease_submit_turned_down (formData : FormData)
    (email : Js.jsstring)
    (profiles : Js.jsstring -> Js.settled (Response Profile)) (w : World) :
  noProfile (profiles email)
  || badRent (parseFloat (formData "rent_amount"))
  || badDueDay (parseInt (formData "payment_due_day")) = true ->
  turnedDown (fst (Eff.run (handleSubmit parseFloat parseInt formData
                              email profiles w)))
  /\ snd (Eff.run (handleSubmit parseFloat parseInt formData
                     email profiles w)) = Eff.Resolved.
Proof.
  intros H. unfold handleSubmit, turnedDown, found, noProfile in *.
  branch tidy.
  all: try (repeat split; reflexivity).
  all: try discriminate.
  all: match goal with
       | Hf : match error ?r with
              | Some _ => None
              | None => data ?r
              end = Some _ |- _ =>
           destruct (error r); [discriminate Hf|];
           rewrite Hf in H; discriminate H
       end.
Qed.

(** Which notification each rejection shows, once the user is signed in
    and the email has the shape of one. *)
Lemma lease_submit_messages (formData : FormData) (email : Js.jsstring)
    (profiles : Js.jsstring -> Js.settled (Response Profile)) (w : World)
    (r : AuthResponse) (u : User) (res : Response Profile) :
  getUser w = Js.Fulfilled r -> authError r = None -> user r = Some u ->
  truthy email = true -> emailPattern email = true ->
  profiles email = Js.Fulfilled res ->
  let t := fst (Eff.run (handleSubmit parseFloat parseInt formData
                           email profiles w)) in
  (found res = None -> t = [PreventDefault; Toast tenantNotFound])
  /\ (forall p, found res = Some p ->
        badRent (parseFloat (formData "rent_amount")) = true ->
        t = [PreventDefault; Toast invalidRent])
  /\ (forall p, found res = Some p ->
        badRent (parseFloat (formData "rent_amount")) = false ->
        badDeposit (if truthyValue (formData "deposit_amount")
                    then Some (parseFloat (formData "deposit_amount"))
                    else None) = false ->
        badDueDay (parseInt (formData "payment_due_day")) = true ->
        t = [PreventDefault; Toast invalidDueDay]).
Proof.
  intros Hget Herr Huser Ht He Hp t. subst t.
  unfold handleSubmit. rewrite Hget. tidy. rewrite Herr, Huser. tidy.
  rewrite Ht, He, Hp. tidy.
  repeat split.
  - intros ->. reflexivity.
  - intros p -> ->. reflexivity.
  - intros p -> -> Hd ->. tidy.
    destruct (truthyValue (formData "deposit_amount"));
      rewrite Hd; reflexivity.
Qed.

Lemma lease_submit_contract (formData : FormData) (email : Js.jsstring)
    (profiles : Js.jsstring -> Js.settled (Response Profile)) (w : World) :
  mutationContract "loadLeases" w
    (fst (Eff.run (handleSubmit parseFloat parseInt formData
                     email profiles w))).
Proof.
  unfold handleSubmit, found. branch tidy; contract_leaf.
Qed.

(** A lease form that passes every check reaches the insert. *)
Lemma lease_submit_settles (formData : FormData) (email : Js.jsstring)
    (profiles : Js.jsstring -> Js.settled (Response Profile)) (w : World)
    (r : AuthResponse) (u : User) (res : Response Profile)
    (profile : Profile) :
  getUser w = Js.Fulfilled r -> authError r = None -> user r = Some u ->
  truthy email = true -> emailPattern email = true ->
  profiles email = Js.Fulfilled res -> found res = Some profile ->
  badRent (parseFloat (formData "rent_amount")) = false ->
  badDeposit (deposit_amount
                (leaseDataOf parseFloat parseInt formData u profile))
    = false ->
  badDueDay (parseInt (formData "payment_due_day")) = false ->
  settles "loadLeases" w
    (Insert "leases" (leaseDataOf parseFloat parseInt formData u profile))
    (fst (Eff.run (handleSubmit parseFloat parseInt formData
                     email profiles w))).
Proof.
  intros Hget Ha Hu Ht He Hp Hf Hrent Hdep Hday.
  unfold leaseDataOf in *. cbn [deposit_amount] in Hdep.
  unfold handleSubmit. tidy. rewrite Hget. tidy. rewrite Ha, Hu. tidy.
  rewrite Ht, He. tidy. rewrite Hp. tidy. rewrite Hf. tidy.
  rewrite Hrent. tidy. rewrite Hdep. tidy. rewrite Hday.
  branch tidy; settles_leaf.
Qed.

Lemma lease_delete_contract (leaseId : string) (w : World) :
  mutationContract "loadLeases" w (fst (Eff.run (handleDelete leaseId w))).
Proof.
  unfold handleDelete. branch tidy; contract_leaf.
Qed.

(** A confirmed deletion by a signed-in landlord reaches the delete. *)
Lemma lease_delete_settles (leaseId : string) (w : World)
    (r : AuthResponse) (u : User) :
  confirm w deletePrompt = true ->
  getUser w = Js.Fulfilled r -> authError r = None -> user r = Some u ->
  settles "loadLeases" w (Delete "leases" leaseId)
    (fst (Eff.run (handleDelete leaseId w))).
Proof.
  intros Hc Hget Ha Hu.
  unfold handleDelete. tidy. rewrite Hc, Hget. tidy. rewrite Ha, Hu.
  branch tidy; settles_leaf.
Qed.

End LeaseFacts.

Section PropertyFacts.
Import Crud Supabase PropertiesSection.
Variable parseFloat : option Js.jsstring -> Js.number.

Lemma property_submit_contract (formData : FormData)
    (editingProperty : option Property) (w : World) :
  mutationContract "loadProperties" w
    (fst (Eff.run (handleSubmit parseFloat formData editingProperty w))).
Proof.
  unfold handleSubmit. branch tidy; contract_leaf.
Qed.

(** The property form of a signed-in landlord reaches the update of the
    property being edited, or else the insert. *)
Lemma property_submit_settles (formData : FormData)
    (editingProperty : option Property) (w : World)
    (r : AuthResponse) (u : User) :
  getUser w = Js.Fulfilled r -> user r = Some u ->
  settles "loadProperties" w
    (match editingProperty with
     | Some editing =>
         Update "properties" (propertyDataOf parseFloat formData u)
                (propertyId editing)
     | None => Insert "properties" (propertyDataOf parseFloat formData u)
     end)
    (fst (Eff.run (handleSubmit parseFloat formData editingProperty w))).
Proof.
  intros Hget Hu. unfold propertyDataOf.
  unfold handleSubmit. tidy. rewrite Hget. tidy. rewrite Hu.
  destruct editingProperty; branch tidy; settles_leaf.
Qed.

Lemma property_delete_contract (propertyId : string) (w : World) :
  mutationContract "loadProperties" w
    (fst (Eff.run (handleDelete propertyId w))).
Proof.
  unfold handleDelete. branch tidy; contract_leaf.
Qed.

Lemma property_delete_settles (propertyId : string) (w : World) :
  confirm w deletePrompt = true ->
  settles "loadProperties" w (Delete "properties" propertyId)
    (fst (Eff.run (handleDelete propertyId w))).
Proof.
  intros Hc. unfold handleDelete. tidy. rewrite Hc.
  branch tidy; settles_leaf.
Qed.

End PropertyFacts.

Section PaymentFacts.
Import Crud Supabase PaymentsSection.
Variable parseFloat : option Js.jsstring -> Js.number.

Lemma payment_submit_contract (formData : FormData) (w : World) :
  mutationContract "loadPayments" w
    (fst (Eff.run (handleSubmit parseFloat formData w))).
Proof.
  unfold handleSubmit. branch tidy; contract_leaf.
Qed.

(** A payment form with a valid amount reaches the insert. *)
Lemma payment_submit_settles (formData : FormData) (w : World) :
  Js.isNaN (parseFloat (formData "amount"))
  || Js.le_lit (parseFloat (formData "amount")) 0 = false ->
  settles "loadPayments" w
    (Insert "rent_payments" (paymentDataOf parseFloat formData))
    (fst (Eff.run (handleSubmit parseFloat formData w))).
Proof.
  intros Hamount. unfold paymentDataOf.
  unfold handleSubmit. tidy. rewrite Hamount.
  tidy. branch tidy; settles_leaf.
Qed.

Lemma payment_paid_contract (paymentId now : string) (w : World) :
  mutationContract "loadPayments" w
    (fst (Eff.run (markAsPaid paymentId now w))).
Proof.
  unfold markAsPaid. branch tidy; contract_leaf.
Qed.

(** Marking as paid by a signed-in landlord reaches the update. *)
Lemma payment_paid_settles (paymentId now : string) (w : World)
    (r : AuthResponse) (u : User) :
  getUser w = Js.Fulfilled r -> authError r = None -> user r = Some u ->
  settles "loadPayments" w
    (Update "rent_payments" (Paid "paid" now) paymentId)
    (fst (Eff.run (markAsPaid paymentId now w))).
Proof.
  intros Hget Ha Hu.
  unfold markAsPaid. tidy. rewrite Hget. tidy. rewrite Ha, Hu.
  branch tidy; settles_leaf.
Qed.

End PaymentFacts.

(** C5. Creating a lease is turned down before anything is sent to the
    back end, with an error notification, no insert and no refresh, in each
    of these cases: the look-up by the tenant's email finds no profile; the
    parsed rent is not a number or is at most 0; the parsed payment due day
    is not a number or lies outside 1..31. *)
Theorem lease_creation_rejects_invalid_input :
  forall (parseFloat parseInt : option Js.jsstring -> Js.number)
         (formData : Crud.FormData) (email : Js.jsstring)
         (profiles : Js.jsstring
                     -> Js.settled (Supabase.Response LeasesSection.Profile))
         (w : LeasesSection.World),
    LeasesSection.noProfile (profiles email) = true
    \/ (Js.isNaN (parseFloat (formData "rent_amount")) = true
        \/ Js.le_lit (parseFloat (formData "rent_amount")) 0 = true)
    \/ (Js.isNaN (parseInt (formData "payment_due_day")) = true
        \/ Js.lt_lit (parseInt (formData "payment_due_day")) 1 = true
        \/ Js.gt_lit (parseInt (formData "payment_due_day")) 31 = true) ->
    let outcome :=
      Eff.run (LeasesSection.handleSubmit parseFloat parseInt formData
                 email profiles w) in
    Crud.calls (fst outcome) = []
    /\ existsb Crud.isErrorToast (fst outcome) = true
    /\ Crud.reloads (fst outcome) = 0%nat
    /\ Crud.updates (fst outcome) = 0%nat
    /\ snd outcome = Eff.Resolved.
Proof.
  intros parseFloat parseInt formData email profiles w H outcome.
  subst outcome.
  destruct (lease_submit_turned_down parseFloat parseInt formData email
              profiles w) as [(Hc & He & Hr & Hu) Hs].
  - unfold LeasesSection.badRent, LeasesSection.badDueDay.
    destruct H as [->|[[->| ->]|[->|[->| ->]]]];
      rewrite ?orb_true_r; reflexivity.
  - repeat split; assumption.
Qed.

Lemma lease_creation_rejects_invalid_input_witness :
  let outcome :=
    Eff.run (LeasesSection.handleSubmit Js.parseDigits Js.parseDigits
               (LeasesSection.leaseForm "0" "15") LeasesSection.tenantEmail
               LeasesSection.directory LeasesSection.obligingWorld) in
  Crud.calls (fst outcome) = []
  /\ existsb Crud.isErrorToast (fst outcome) = true
  /\ Crud.reloads (fst outcome) = 0%nat
  /\ Crud.updates (fst outcome) = 0%nat
  /\ snd outcome = Eff.Resolved.
Proof.
  apply (lease_creation_rejects_invalid_input Js.parseDigits Js.parseDigits
           (LeasesSection.leaseForm "0" "15") LeasesSection.tenantEmail
           LeasesSection.directory LeasesSection.obligingWorld).
  right. left. right. reflexivity.
Defined.

(** C8. Every mutation of the three landlord sections (creating or
    updating a property, deleting a property, creating a lease, deleting a
    lease, recording a payment, marking a payment as paid) keeps the
    refresh contract.  A request that gets through the handler's own
    checks (a signed-in user, a confirmed prompt, a valid form, as the
    handler asks for them) makes the persistence call of that mutation,
    once; if the call succeeds, the section reloads its own list and
    [onUpdate] is invoked, once each; if it fails, by an error in the
    response or by a rejected promise, neither is invoked and the call is
    not sent again.  On any input whatever, nothing is refreshed without a
    persistence call, and a call that was made is the only one and
    decides the refresh in this way. *)
Theorem mutation_refreshes_iff_persisted :
  (forall parseFloat formData editingProperty (w : PropertiesSection.World),
      let t := fst (Eff.run (PropertiesSection.handleSubmit parseFloat
                               formData editingProperty w)) in
      Crud.mutationContract "loadProperties" w t
      /\ forall r u,
           Crud.getUser w = Js.Fulfilled r -> Supabase.user r = Some u ->
           Crud.settles "loadProperties" w
             (match editingProperty with
              | Some editing =>
                  Crud.Update "properties"
                    (PropertiesSection.propertyDataOf parseFloat formData u)
                    (PropertiesSection.propertyId editing)
              | None =>
                  Crud.Insert "properties"
                    (PropertiesSection.propertyDataOf parseFloat formData u)
              end) t)
  /\ (forall propertyId (w : PropertiesSection.World),
         let t := fst (Eff.run (PropertiesSection.handleDelete propertyId w))
         in
         Crud.mutationContract "loadProperties" w t
         /\ (Crud.confirm w PropertiesSection.deletePrompt = true ->
             Crud.settles "loadProperties" w
               (Crud.Delete "properties" propertyId) t))
  /\ (forall parseFloat parseInt formData email profiles
             (w : LeasesSection.World),
         let t := fst (Eff.run (LeasesSection.handleSubmit parseFloat parseInt
                                  formData email profiles w)) in
         Crud.mutationContract "loadLeases" w t
         /\ forall r u res profile,
              Crud.getUser w = Js.Fulfilled r ->
              Supabase.authError r = None -> Supabase.user r = Some u ->
              Crud.truthy email = true -> Crud.emailPattern email = true ->
              profiles email = Js.Fulfilled res ->
              LeasesSection.found res = Some profile ->
              LeasesSection.badRent (parseFloat (formData "rent_amount"))
                = false ->
              LeasesSection.badDeposit
                (LeasesSection.deposit_amount
                   (LeasesSection.leaseDataOf parseFloat parseInt formData
                      u profile)) = false ->
              LeasesSection.badDueDay (parseInt (formData "payment_due_day"))
                = false ->
              Crud.settles "loadLeases" w
                (Crud.Insert "leases"
                   (LeasesSection.leaseDataOf parseFloat parseInt formData
                      u profile)) t)
  /\ (forall leaseId (w : LeasesSection.World),
         let t := fst (Eff.run (LeasesSection.handleDelete leaseId w)) in
         Crud.mutationContract "loadLeases" w t
         /\ forall r u,
              Crud.confirm w LeasesSection.deletePrompt = true ->
              Crud.getUser w = Js.Fulfilled r ->
              Supabase.authError r = None -> Supabase.user r = Some u ->
              Crud.settles "loadLeases" w (Crud.Delete "leases" leaseId) t)
  /\ (forall parseFloat formData (w : PaymentsSection.World),
         let t := fst (Eff.run (PaymentsSection.handleSubmit parseFloat
                                  formData w)) in
         Crud.mutationContract "loadPayments" w t
         /\ (Js.isNaN (parseFloat (formData "amount"))
             || Js.le_lit (parseFloat (formData "amount")) 0 = false ->
             Crud.settles "loadPayments" w
               (Crud.Insert "rent_payments"
                  (PaymentsSection.paymentDataOf parseFloat formData)) t))
  /\ (forall paymentId now (w : PaymentsSection.World),
         let t := fst (Eff.run (PaymentsSection.markAsPaid paymentId now w))
         in
         Crud.mutationContract "loadPayments" w t
         /\ forall r u,
              Crud.getUser w = Js.Fulfilled r ->
              Supabase.authError r = None -> Supabase.user r = Some u ->
              Crud.settles "loadPayments" w
                (Crud.Update "rent_payments" (PaymentsSection.Paid "paid" now)
                   paymentId) t).
Proof.
  split; [|split; [|split; [|split; [|split]]]]; intros; subst t.
  - split; [apply property_submit_contract|].
    intros r u. apply property_submit_settles.
  - split; [apply property_delete_contract|].
    apply property_delete_settles.
  - split; [apply lease_submit_contract|].
    intros r u res profile. apply lease_submit_settles.
  - split; [apply lease_delete_contract|].
    intros r u. apply lease_delete_settles.
  - split; [apply payment_submit_contract|].
    apply payment_submit_settles.
  - split; [apply payment_paid_contract|].
    intros r u. apply payment_paid_settles.
Qed.

Lemma mutation_refreshes_iff_persisted_witness :
  (let t := fst (Eff.run (PropertiesSection.handleSubmit Js.parseDigits
                            PropertiesSection.propertyForm None
                            PropertiesSection.obligingWorld)) in
   Crud.calls t = [Crud.Insert "properties" PropertiesSection.sampleRow]
   /\ Crud.refreshed "loadProperties" t)
  /\ (let t := fst (Eff.run (PropertiesSection.handleSubmit Js.parseDigits
                               PropertiesSection.propertyForm
                               (Some (PropertiesSection.mkProperty "p-1"))
                               PropertiesSection.refusingWorld)) in
      Crud.calls t
      = [Crud.Update "properties" PropertiesSection.sampleRow "p-1"]
      /\ Crud.notRefreshed t)
  /\ (let t := fst (Eff.run (PropertiesSection.handleDelete "p-1"
                               PropertiesSection.obligingWorld)) in
      Crud.calls t = [Crud.Delete "properties" "p-1"]
      /\ Crud.refreshed "loadProperties" t)
  /\ (let t := fst (Eff.run (LeasesSection.handleSubmit Js.parseDigits
                               Js.parseDigits
                               (LeasesSection.leaseForm "1200" "15")
                               LeasesSection.tenantEmail
                               LeasesSection.directory
                               LeasesSection.obligingWorld)) in
      Crud.calls t = [Crud.Insert "leases" LeasesSection.sampleLease]
      /\ Crud.refreshed "loadLeases" t)
  /\ (let t := fst (Eff.run (LeasesSection.handleSubmit Js.parseDigits
                               Js.parseDigits
                               (LeasesSection.leaseForm "1200" "15")
                               LeasesSection.tenantEmail
                               LeasesSection.directory
                               LeasesSection.refusingWorld)) in
      Crud.calls t = [Crud.Insert "leases" LeasesSection.sampleLease]
      /\ Crud.notRefreshed t)
  /\ (let t := fst (Eff.run (LeasesSection.handleDelete "l-1"
                               LeasesSection.obligingWorld)) in
      Crud.calls t = [Crud.Delete "leases" "l-1"]
      /\ Crud.refreshed "loadLeases" t)
  /\ (let t := fst (Eff.run (PaymentsSection.handleSubmit Js.parseDigits
                               (PaymentsSection.paymentForm "1200")
                               PaymentsSection.obligingWorld)) in
      Crud.calls t
      = [Crud.Insert "rent_payments"
           (PaymentsSection.paymentDataOf Js.parseDigits
              (PaymentsSection.paymentForm "1200"))]
      /\ Crud.refreshed "loadPayments" t)
  /\ (let t := fst (Eff.run (PaymentsSection.markAsPaid "pay-1"
                               "2025-02-01T09:00:00.000Z"
                               PaymentsSection.obligingWorld)) in
      Crud.calls t
      = [Crud.Update "rent_payments"
           (PaymentsSection.Paid "paid" "2025-02-01T09:00:00.000Z") "pay-1"]
      /\ Crud.refreshed "loadPayments" t)
  /\ (let t := fst (Eff.run (PaymentsSection.markAsPaid "pay-1"
                               "2025-02-01T09:00:00.000Z"
                               PaymentsSection.brokenWorld)) in
      Crud.calls t
      = [Crud.Update "rent_payments"
           (PaymentsSection.Paid "paid" "2025-02-01T09:00:00.000Z") "pay-1"]
      /\ Crud.notRefreshed t).
Proof.
  destruct mutation_refreshes_iff_persisted
    as (Psubmit & Pdelete & Lsubmit & Ldelete & Ysubmit & Ypaid).
  pose (landlord := Supabase.mkUser "landlord-1").
  pose (auth := Supabase.mkAuth (Some landlord) None).
  cbv zeta.
  split.
  { destruct (proj2 (Psubmit Js.parseDigits PropertiesSection.propertyForm
                       None PropertiesSection.obligingWorld)
                auth landlord eq_refl eq_refl) as (Hc & Hs & _).
    split; [exact Hc | apply Hs; reflexivity]. }
  split.
  { destruct (proj2 (Psubmit Js.parseDigits PropertiesSection.propertyForm
                       (Some (PropertiesSection.mkProperty "p-1"))
                       PropertiesSection.refusingWorld)
                auth landlord eq_refl eq_refl) as (Hc & _ & Hf).
    split; [exact Hc | apply Hf; reflexivity]. }
  split.
  { destruct (proj2 (Pdelete "p-1" PropertiesSection.obligingWorld) eq_refl)
      as (Hc & Hs & _).
    split; [exact Hc | apply Hs; reflexivity]. }
  split.
  { destruct (proj2 (Lsubmit Js.parseDigits Js.parseDigits
                       (LeasesSection.leaseForm "1200" "15")
                       LeasesSection.tenantEmail LeasesSection.directory
                       LeasesSection.obligingWorld)
                auth landlord
                (Supabase.mkResponse
                   (Some (LeasesSection.mkProfile "tenant-7")) None None)
                (LeasesSection.mkProfile "tenant-7")
                eq_refl eq_refl eq_refl eq_refl eq_refl eq_refl eq_refl
                eq_refl eq_refl eq_refl) as (Hc & Hs & _).
    split; [exact Hc | apply Hs; reflexivity]. }
  split.
  { destruct (proj2 (Lsubmit Js.parseDigits Js.parseDigits
                       (LeasesSection.leaseForm "1200" "15")
                       LeasesSection.tenantEmail LeasesSection.directory
                       LeasesSection.refusingWorld)
                auth landlord
                (Supabase.mkResponse
                   (Some (LeasesSection.mkProfile "tenant-7")) None None)
                (LeasesSection.mkProfile "tenant-7")
                eq_refl eq_refl eq_refl eq_refl eq_refl eq_refl eq_refl
                eq_refl eq_refl eq_refl) as (Hc & _ & Hf).
    split; [exact Hc | apply Hf; reflexivity]. }
  split.
  { destruct (proj2 (Ldelete "l-1" LeasesSection.obligingWorld)
                auth landlord eq_refl eq_refl eq_refl eq_refl)
      as (Hc & Hs & _).
    split; [exact Hc | apply Hs; reflexivity]. }
  split.
  { destruct (proj2 (Ysubmit Js.parseDigits
                       (PaymentsSection.paymentForm "1200")
                       PaymentsSection.obligingWorld) eq_refl)
      as (Hc & Hs & _).
    split; [exact Hc | apply Hs; reflexivity]. }
  split.
  { destruct (proj2 (Ypaid "pay-1" "2025-02-01T09:00:00.000Z"
                       PaymentsSection.obligingWorld)
                auth landlord eq_refl eq_refl eq_refl) as (Hc & Hs & _).
    split; [exact Hc | apply Hs; reflexivity]. }
  destruct (proj2 (Ypaid "pay-1" "2025-02-01T09:00:00.000Z"
                     PaymentsSection.brokenWorld)
              auth landlord eq_refl eq_refl eq_refl) as (Hc & _ & Hf).
  split; [exact Hc | apply Hf; reflexivity].
Defined.

(** ** Side facts *)

Section TrimFacts.

Lemma trimStart_length (s : Js.jsstring) :
  (List.length (Js.trimStart s) <= List.length s)%nat.
Proof.
  induction s as [|c s IH]; cbn.
  - lia.
  - destruct (Js.isWhiteSpace c); cbn; lia.
Qed.

(** Trimming never lengthens a message, so whatever fits in 500 code units
    untrimmed fits trimmed. *)
Lemma trim_length (s : Js.jsstring) :
  (List.length (Js.trim s) <= List.length s)%nat.
Proof.
  unfold Js.trim, Js.trimEnd.
  rewrite length_rev.
  etransitivity; [apply trimStart_length|].
  rewrite length_rev. apply trimStart_length.
Qed.

(** What is left after trimming does not start with white space. *)
Lemma trimStart_head (s : Js.jsstring) (c : N) (rest : Js.jsstring) :
  Js.trimStart s = c :: rest -> Js.isWhiteSpace c = false.
Proof.
  induction s as [|d s IH]; cbn.
  - discriminate.
  - destruct (Js.isWhiteSpace d) eqn:E.
    + exact IH.
    + intros [= <- _]. exact E.
Qed.

End TrimFacts.

(** A rejected insert promise, which the client library does not produce
    for a refused or failed request, ends in the [catch] block: one
    notification under the generic title, no second insert. *)
Lemma insert_rejected_generic_title
    (p : ContactLandlordDialog.Props) (s : ContactLandlordDialog.State)
    (w : ContactLandlordDialog.World) (r : Supabase.AuthResponse)
    (u : Supabase.User) (e : Js.Error) :
  ContactLandlordDialog.isValid s = true ->
  ContactLandlordDialog.isSubmitting s = false ->
  ContactLandlordDialog.getUser w = Js.Fulfilled r ->
  ContactLandlordDialog.signedIn r = Some u ->
  ContactLandlordDialog.insertMessage w
    (ContactLandlordDialog.payloadOf p s u) = Js.Rejected e ->
  ContactLandlordDialog.toasts (fst (ContactLandlordDialog.submit p s w))
    = [ContactLandlordDialog.unexpectedError]
  /\ Ui.title ContactLandlordDialog.unexpectedError
     = Ui.title ContactLandlordDialog.failedToSend
  /\ List.length (ContactLandlordDialog.inserts
                    (fst (ContactLandlordDialog.submit p s w))) = 1%nat.
Proof.
  intros Hv Hs Hget Hu Hins.
  rewrite (submit_signed_in p s w r u Hv Hs Hget Hu), Hins.
  repeat split.
Qed.

(* ===================================================================== *)
(** * Further properties *)
(* ===================================================================== *)

(** Unfolding of the handler monad and of the small helpers of every
    component. *)
Ltac open_handlers :=
  unfold Crud.when_, Crud.throwIf, Crud.persist, Crud.toast,
    LandlordDashboard.throwIf, Index.throwIf in *;
  unfold Eff.run, Eff.call, Eff.try_catch, Eff.finally, Eff.bind, Eff.await,
    Eff.throw, Eff.ret, Eff.emit, Eff.early_return in *.

Ltac neat :=
  open_handlers;
  cbn -[LeasesSection.badRent LeasesSection.badDeposit LeasesSection.badDueDay
        Crud.emailPattern Crud.truthy Crud.truthyValue
        PropertiesSection.orNull PropertiesSection.numberOrNull
        ContactLandlordDialog.isValid ContactLandlordDialog.trimmedMessage
        LandlordDashboard.paymentStats
        LegacyDashboard.pendingPayments LegacyDashboard.totalRevenue
        String.eqb Js.isNaN Js.le_lit Js.lt_lit Js.gt_lit] in *.

(** ** The dashboard *)

(** X1. Whatever the back end answers, [loadStats] never rejects: it does
    nothing (no user), or stores one set of figures, or logs and stores
    the zeros. *)
Theorem load_stats_never_rejects :
  forall (raw num : Type) (A : Js.Arith raw num)
         (w : LandlordDashboard.World raw),
    Eff.run (LandlordDashboard.loadStats w) = ([], Eff.Resolved)
    \/ Eff.run (LandlordDashboard.loadStats w) = LandlordDashboard.softFailure
    \/ exists s,
         Eff.run (LandlordDashboard.loadStats w)
         = ([LandlordDashboard.SetStats s], Eff.Resolved).
Proof.
  intros raw num A w. unfold LandlordDashboard.loadStats.
  destruct (LandlordDashboard.getUser w) as [r|e]; neat;
    [|right; left; reflexivity].
  destruct (Supabase.authError r); neat; [right; left; reflexivity|].
  destruct (Supabase.user r) as [u|]; neat; [|left; reflexivity].
  destruct (LandlordDashboard.propertiesQuery w (Supabase.id u)) as [p|];
    destruct (LandlordDashboard.leasesQuery w (Supabase.id u)) as [l|];
    destruct (LandlordDashboard.paymentsQuery w (Supabase.id u)) as [q|];
    neat; try (right; left; reflexivity).
  destruct (Supabase.error p); neat; [right; left; reflexivity|].
  destruct (Supabase.error l); neat; [right; left; reflexivity|].
  destruct (Supabase.error q); neat; [right; left; reflexivity|].
  right; right; eexists; reflexivity.
Qed.

(** X2. A visitor without a user leaves the statistics as they are, while
    an authentication error, in the response or as a rejected promise,
    puts them to zero. *)
Theorem load_stats_without_user :
  forall (raw num : Type) (A : Js.Arith raw num)
         (w : LandlordDashboard.World raw)
         (before : LandlordDashboard.Stats num),
    (forall r, LandlordDashboard.getUser w = Js.Fulfilled r ->
               Supabase.authError r = None -> Supabase.user r = None ->
       LandlordDashboard.statsAfter before
         (fst (Eff.run (LandlordDashboard.loadStats w))) = before)
    /\ (forall r e, LandlordDashboard.getUser w = Js.Fulfilled r ->
                    Supabase.authError r = Some e ->
          LandlordDashboard.statsAfter before
            (fst (Eff.run (LandlordDashboard.loadStats w)))
          = LandlordDashboard.zeroStats)
    /\ (forall e, LandlordDashboard.getUser w = Js.Rejected e ->
          LandlordDashboard.statsAfter before
            (fst (Eff.run (LandlordDashboard.loadStats w)))
          = LandlordDashboard.zeroStats).
Proof.
  intros raw num A w before. unfold LandlordDashboard.loadStats.
  repeat split.
  - intros r -> Ha Hu. neat. rewrite Ha. neat. rewrite Hu. reflexivity.
  - intros r e -> Ha. neat. rewrite Ha. reflexivity.
  - intros e ->. reflexivity.
Qed.

Lemma load_stats_without_user_witness :
  LandlordDashboard.statsAfter (LandlordDashboard.mkStats 2 1 1 100)
    (fst (Eff.run (LandlordDashboard.loadStats
                     (LandlordDashboard.mkWorld
                        (Js.Fulfilled (Supabase.mkAuth None None))
                        (LandlordDashboard.propertiesQuery
                           LandlordDashboard.exampleWorld)
                        (LandlordDashboard.leasesQuery
                           LandlordDashboard.exampleWorld)
                        (LandlordDashboard.paymentsQuery
                           LandlordDashboard.exampleWorld)))))
  = LandlordDashboard.mkStats 2 1 1 100.
Proof.
  apply (proj1 (load_stats_without_user (option Z) Z Js.ArithZ _ _)
           (Supabase.mkAuth None None)); reflexivity.
Defined.

Lemma filter_permutation {A} (f : A -> bool) (l l' : list A) :
  Permutation l l' -> Permutation (filter f l) (filter f l').
Proof.
  induction 1 as [|x l l' _ IH|x y l|l l' l'' _ IH1 _ IH2]; cbn.
  - constructor.
  - destruct (f x); [constructor|]; exact IH.
  - destruct (f x), (f y); try reflexivity. constructor.
  - etransitivity; eassumption.
Qed.

Lemma sum_permutation (l l' : list Z) :
  Permutation l l' -> fold_right Z.add 0 l = fold_right Z.add 0 l'.
Proof.
  induction 1; cbn; lia.
Qed.

(** X3. The query for the payments fixes no order; over integer amounts
    the figures do not depend on the order in which the rows arrive. *)
Theorem payment_stats_ignore_row_order :
  forall ps ps' : list (LandlordDashboard.Payment (option Z)),
    Permutation ps ps' ->
    LandlordDashboard.paymentStats ps = LandlordDashboard.paymentStats ps'.
Proof.
  intros ps ps' Hp. apply paymentStats_eta.
  - rewrite !paymentStats_pending. unfold LandlordDashboard.countPending.
    f_equal. apply Permutation_length. apply filter_permutation. exact Hp.
  - rewrite !paymentStats_revenue, !sumPaid_integers.
    apply sum_permutation. apply Permutation_map.
    apply filter_permutation. exact Hp.
Qed.

Lemma payment_stats_ignore_row_order_witness :
  LandlordDashboard.paymentStats
    (LandlordDashboard.partialPayment :: LandlordDashboard.examplePayments)
  = LandlordDashboard.paymentStats
      (LandlordDashboard.examplePayments ++ [LandlordDashboard.partialPayment]).
Proof.
  apply (payment_stats_ignore_row_order
           (LandlordDashboard.partialPayment :: LandlordDashboard.examplePayments)
           (LandlordDashboard.examplePayments
              ++ [LandlordDashboard.partialPayment])).
  apply Permutation_cons_append.
Defined.

Lemma filter_two_disjoint {A} (f g : A -> bool) (l : list A) :
  (forall x, f x = true -> g x = false) ->
  (List.length (filter f l) + List.length (filter g l) <= List.length l)%nat.
Proof.
  intros Hfg. induction l as [|x l IH]; cbn; [lia|].
  destruct (f x) eqn:Ef.
  - rewrite (Hfg x Ef). cbn. lia.
  - destruct (g x); cbn; lia.
Qed.

(** X4. The count of pending payments lies between 0 and the number of
    payments, and together with the number of paid payments it does not
    exceed the number of payments. *)
Theorem pending_count_bounds :
  forall (raw num : Type) (A : Js.Arith raw num)
         (ps : list (LandlordDashboard.Payment raw)),
    0 <= LandlordDashboard.pendingPayments (LandlordDashboard.paymentStats ps)
    /\ LandlordDashboard.pendingPayments (LandlordDashboard.paymentStats ps)
       + Z.of_nat (List.length (filter LandlordDashboard.isPaid ps))
       <= Z.of_nat (List.length ps).
Proof.
  intros raw num A ps. rewrite paymentStats_pending.
  unfold LandlordDashboard.countPending.
  pose proof (filter_two_disjoint LandlordDashboard.isPending
                LandlordDashboard.isPaid ps pending_not_paid).
  lia.
Qed.

Lemma sum_positive_terms {A} (f : A -> Z) (l : list A) :
  Forall (fun x => 0 < f x) l ->
  0 <= fold_right Z.add 0 (map f l)
  /\ (fold_right Z.add 0 (map f l) = 0 <-> l = []).
Proof.
  induction 1 as [|x l Hx _ IH]; cbn.
  - split; [lia|]. split; reflexivity.
  - destruct IH as [IH _]. split; [lia|].
    split; [lia|discriminate].
Qed.

(** X5. Under the constraints of the table (a positive amount, a late fee
    that is absent or not negative), over integer amounts, the revenue is
    not negative, and it is 0 exactly when no payment is paid. *)
Theorem revenue_zero_iff_nothing_paid :
  forall ps : list (LandlordDashboard.Payment (option Z)),
    Forall (fun p => 0 < Js.Number (LandlordDashboard.amount p)
                     /\ 0 <= Js.Number (LandlordDashboard.late_fee p)) ps ->
    0 <= LandlordDashboard.totalRevenue (LandlordDashboard.paymentStats ps)
    /\ (LandlordDashboard.totalRevenue (LandlordDashboard.paymentStats ps) = 0
        <-> filter LandlordDashboard.isPaid ps = []).
Proof.
  intros ps Hps. rewrite paymentStats_revenue, sumPaid_integers.
  apply sum_positive_terms.
  apply Forall_forall. intros p Hin.
  apply filter_In in Hin. destruct Hin as [Hin _].
  rewrite Forall_forall in Hps. specialize (Hps p Hin). lia.
Qed.

Lemma revenue_zero_iff_nothing_paid_witness :
  0 <= LandlordDashboard.totalRevenue
         (LandlordDashboard.paymentStats LandlordDashboard.examplePayments)
  /\ (LandlordDashboard.totalRevenue
        (LandlordDashboard.paymentStats LandlordDashboard.examplePayments) = 0
      <-> filter LandlordDashboard.isPaid LandlordDashboard.examplePayments
          = []).
Proof.
  apply (revenue_zero_iff_nothing_paid LandlordDashboard.examplePayments).
  repeat (apply Forall_cons; [cbn; lia|]). apply Forall_nil.
Defined.

Lemma fold_left_add_two {A} (f g : A -> Z) (l : list A) (a : Z) :
  fold_left (fun s x => s + f x + g x) l a
  = a + fold_right Z.add 0 (map (fun x => f x + g x) l).
Proof.
  revert a. induction l as [|x l IH]; intros a; cbn.
  - lia.
  - rewrite IH. lia.
Qed.

Lemma legacy_figures (data : option (list (LandlordDashboard.Payment (option Z)))) :
  LegacyDashboard.pendingPayments data
  = LandlordDashboard.pendingPayments
      (LandlordDashboard.paymentStats (LandlordDashboard.orNil data))
  /\ LegacyDashboard.totalRevenue LegacyDashboard.truthyZ data
     = LandlordDashboard.totalRevenue
         (LandlordDashboard.paymentStats (LandlordDashboard.orNil data)).
Proof.
  rewrite paymentStats_pending, paymentStats_revenue, sumPaid_integers.
  destruct data as [rows|]; cbn [LandlordDashboard.orNil].
  - split; [reflexivity|].
    unfold LegacyDashboard.totalRevenue. cbn [Js.add Js.zero Js.ArithZ].
    rewrite (fold_left_add_two
               (fun p => Js.Number (LandlordDashboard.amount p))
               (fun p => Js.Number (LandlordDashboard.late_fee p))).
    unfold LegacyDashboard.truthyZ, LandlordDashboard.isPaid.
    rewrite Z.add_0_l.
    destruct (Z.eqb_spec
                (fold_right Z.add 0
                   (map (fun p => Js.Number (LandlordDashboard.amount p)
                                  + Js.Number (LandlordDashboard.late_fee p))
                        (filter (fun p => LandlordDashboard.status p =? "paid")
                                rows))) 0) as [E|E]; cbn.
    + symmetry. exact E.
    + reflexivity.
  - split; reflexivity.
Qed.

(** X6. Over integer amounts the earlier dashboard, with its two passes
    and its [sum + amount + late_fee], computes the figures of the single
    [reduce]; when the user is signed in and the three fetches succeed the
    two versions of [loadStats] store the same statistics. *)
Theorem legacy_dashboard_agrees :
  forall (w : LandlordDashboard.World (option Z)) (r : Supabase.AuthResponse)
         (u : Supabase.User) (p l : Supabase.Response unit)
         (q : Supabase.Response
                (list (LandlordDashboard.Payment (option Z)))),
    (LegacyDashboard.pendingPayments (Supabase.data q)
     = LandlordDashboard.pendingPayments
         (LandlordDashboard.paymentStats
            (LandlordDashboard.orNil (Supabase.data q)))
     /\ LegacyDashboard.totalRevenue LegacyDashboard.truthyZ (Supabase.data q)
        = LandlordDashboard.totalRevenue
            (LandlordDashboard.paymentStats
               (LandlordDashboard.orNil (Supabase.data q))))
    /\ (LandlordDashboard.getUser w = Js.Fulfilled r ->
        Supabase.authError r = None ->
        Supabase.user r = Some u ->
        LandlordDashboard.propertiesQuery w (Supabase.id u) = Js.Fulfilled p ->
        Supabase.error p = None ->
        LandlordDashboard.leasesQuery w (Supabase.id u) = Js.Fulfilled l ->
        Supabase.error l = None ->
        LandlordDashboard.paymentsQuery w (Supabase.id u) = Js.Fulfilled q ->
        Supabase.error q = None ->
        Eff.run (LegacyDashboard.loadStats LegacyDashboard.truthyZ w)
        = Eff.run (LandlordDashboard.loadStats w)).
Proof.
  intros w r u p l q. split; [apply legacy_figures|].
  intros Hget Herr Huser Hp Ep Hl El Hq Eq.
  rewrite (loadStats_success w r u p l q Hget Herr Huser Hp Ep Hl El Hq Eq).
  unfold LegacyDashboard.loadStats. rewrite Hget. neat.
  rewrite Huser. neat. rewrite Hp, Hl, Hq. neat.
  destruct (legacy_figures (Supabase.data q)) as [-> ->]. reflexivity.
Qed.

Lemma legacy_dashboard_agrees_witness :
  Eff.run (LegacyDashboard.loadStats LegacyDashboard.truthyZ
             LandlordDashboard.exampleWorld)
  = Eff.run (LandlordDashboard.loadStats LandlordDashboard.exampleWorld).
Proof.
  apply (proj2 (legacy_dashboard_agrees LandlordDashboard.exampleWorld
                  (Supabase.mkAuth (Some (Supabase.mkUser "landlord-1")) None)
                  (Supabase.mkUser "landlord-1")
                  (Supabase.mkResponse None None (Some 2))
                  (Supabase.mkResponse None None (Some 1))
                  (Supabase.mkResponse
                     (Some LandlordDashboard.examplePayments) None None)));
    reflexivity.
Defined.

(** ** The catalog pager, continued *)

(** X7. Every row position belongs to exactly one page: position [i] is
    requested by page [p] exactly when [p] is [i] divided by 12. *)
Theorem row_position_on_one_page :
  forall p i : Z,
    AvailablePropertiesSection.requestsRow
      (AvailablePropertiesSection.queryFn
         (AvailablePropertiesSection.offset p)) i = true
    <-> p = i / 12.
Proof.
  intros p i.
  unfold AvailablePropertiesSection.requestsRow,
    AvailablePropertiesSection.queryFn, AvailablePropertiesSection.offset,
    AvailablePropertiesSection.PAGE_SIZE.
  cbn [AvailablePropertiesSection.rangeFrom AvailablePropertiesSection.rangeTo].
  rewrite andb_true_iff, !Z.leb_le. split.
  - intros [Hlo Hhi]. apply Z.div_unique with (r := i - 12 * p); lia.
  - intros ->. pose proof (Z.div_mod i 12 ltac:(lia)) as Hdm.
    pose proof (Z.mod_pos_bound i 12 ltac:(lia)) as Hb. lia.
Qed.

Section ServingFacts.
Import AvailablePropertiesSection.

Lemma page_length (catalog : list Property) (p : Z) :
  0 <= p ->
  Z.of_nat (List.length (page catalog p))
  = Z.min 12 (Z.max 0 (Z.of_nat (List.length catalog) - 12 * p)).
Proof.
  intros Hp. unfold page, servePage, requestedLimit, requestedOffset, queryFn,
    offset, PAGE_SIZE.
  cbn [rangeFrom rangeTo].
  rewrite length_firstn, length_skipn. lia.
Qed.

Lemma firstn_plus {A} (a b : nat) (l : list A) :
  firstn (a + b) l = firstn a l ++ firstn b (skipn a l).
Proof.
  revert l. induction a as [|a IH]; intros l; cbn.
  - reflexivity.
  - destruct l as [|x l]; cbn.
    + rewrite firstn_nil. reflexivity.
    + rewrite IH. reflexivity.
Qed.

Lemma page_is_slice (catalog : list Property) (k : nat) :
  page catalog (Z.of_nat k) = firstn 12 (skipn (12 * k) catalog).
Proof.
  unfold page, servePage, requestedLimit, requestedOffset, queryFn, offset,
    PAGE_SIZE.
  cbn [rangeFrom rangeTo].
  replace (Z.to_nat (Z.of_nat k * 12 + 12 - 1 - Z.of_nat k * 12 + 1))
    with 12%nat by lia.
  replace (Z.to_nat (Z.of_nat k * 12)) with (12 * k)%nat by lia.
  reflexivity.
Qed.

End ServingFacts.

(** X8. Served from a catalog of [n] rows, page [p] has
    [min 12 (max 0 (n - 12 p))] rows; its flag [hasNextPage] is true
    exactly when the catalog has at least [12 (p + 1)] rows, and the flag
    is true over an empty next page exactly when the catalog has
    [12 (p + 1)] rows. *)
Theorem next_page_flag_against_catalog :
  forall (catalog : list AvailablePropertiesSection.Property) (p : Z),
    0 <= p ->
    let n := Z.of_nat (List.length catalog) in
    Z.of_nat (List.length (AvailablePropertiesSection.page catalog p))
    = Z.min 12 (Z.max 0 (n - 12 * p))
    /\ (AvailablePropertiesSection.hasNextPage
          (Some (AvailablePropertiesSection.page catalog p)) = Some true
        <-> 12 * (p + 1) <= n)
    /\ (AvailablePropertiesSection.hasNextPage
          (Some (AvailablePropertiesSection.page catalog p)) = Some true
        /\ AvailablePropertiesSection.page catalog (p + 1) = []
        <-> n = 12 * (p + 1)).
Proof.
  intros catalog p Hp n.
  pose proof (page_length catalog p Hp) as Hlen.
  pose proof (page_length catalog (p + 1) ltac:(lia)) as Hnext.
  fold n in Hlen, Hnext.
  split; [exact Hlen|].
  rewrite hasNextPage_true.
  assert (Hnil : AvailablePropertiesSection.page catalog (p + 1) = []
                 <-> List.length
                       (AvailablePropertiesSection.page catalog (p + 1))
                     = 0%nat)
    by (symmetry; apply length_zero_iff_nil).
  rewrite Hnil. lia.
Qed.

Lemma next_page_flag_against_catalog_witness :
  AvailablePropertiesSection.hasNextPage
    (Some (AvailablePropertiesSection.page
             (repeat AvailablePropertiesSection.sampleProperty 24) 1))
  = Some true
  /\ AvailablePropertiesSection.page
       (repeat AvailablePropertiesSection.sampleProperty 24) (1 + 1) = [].
Proof.
  apply (proj2 (proj2 (next_page_flag_against_catalog
                         (repeat AvailablePropertiesSection.sampleProperty 24)
                         1 ltac:(lia)))).
  reflexivity.
Defined.

(** X9. Read one after the other, the pages 0 to [k - 1] of a catalog are
    its first [12 k] rows, in order: no row is skipped and none comes
    twice. *)
Theorem pages_tile_the_catalog :
  forall (catalog : list AvailablePropertiesSection.Property) (k : nat),
    List.concat
      (map (fun i => AvailablePropertiesSection.page catalog (Z.of_nat i))
                (seq 0 k))
    = firstn (12 * k) catalog.
Proof.
  intros catalog k. induction k as [|k IH].
  - reflexivity.
  - rewrite seq_S, map_app, concat_app, IH. cbn [map List.concat plus].
    rewrite app_nil_r, page_is_slice.
    replace (12 * S k)%nat with (12 * k + 12)%nat by lia.
    symmetry. apply firstn_plus.
Qed.

(** X10. From any page the pager can reach, [Next] followed by [Previous]
    comes back to the same page, while [Previous] followed by [Next] comes
    back to it only off page 0: from page 0 it ends on page 1. *)
Theorem next_then_previous_returns :
  forall clicks : list AvailablePropertiesSection.Action,
    let p := AvailablePropertiesSection.pageIndexAfter clicks in
    AvailablePropertiesSection.handlePrevPage
      (AvailablePropertiesSection.handleNextPage p) = p
    /\ AvailablePropertiesSection.handleNextPage
         (AvailablePropertiesSection.handlePrevPage p) = Z.max 1 p.
Proof.
  intros clicks p. pose proof (pageIndexAfter_nonneg clicks) as Hp.
  fold p in Hp.
  unfold AvailablePropertiesSection.handlePrevPage,
    AvailablePropertiesSection.handleNextPage. lia.
Qed.

Section ClickFacts.
Import AvailablePropertiesSection.

Lemma fold_step_upper (clicks : list Action) (p : Z) :
  0 <= p -> fold_left step clicks p <= p + nextClicks clicks.
Proof.
  revert p. induction clicks as [|a clicks IH]; intros p Hp.
  - unfold nextClicks. cbn. lia.
  - cbn [fold_left].
    specialize (IH (step p a) (step_nonneg p a Hp)).
    unfold nextClicks in *. destruct a; cbn [filter List.length] in *;
      unfold step, handlePrevPage, handleNextPage in *; lia.
Qed.

Lemma fold_step_next (n : nat) (p : Z) :
  fold_left step (repeat Next n) p = p + Z.of_nat n.
Proof.
  revert p. induction n as [|n IH]; intros p; cbn [repeat fold_left].
  - lia.
  - rewrite IH. unfold step, handleNextPage. lia.
Qed.

End ClickFacts.

(** X11. The page index never exceeds the number of clicks on [Next], and
    [n] clicks on [Next] alone lead to page [n]: nothing in the component
    stops the index at the last page. *)
Theorem page_index_bounded_by_next_clicks :
  (forall clicks : list AvailablePropertiesSection.Action,
      AvailablePropertiesSection.pageIndexAfter clicks
      <= AvailablePropertiesSection.nextClicks clicks)
  /\ (forall n : nat,
         AvailablePropertiesSection.pageIndexAfter
           (repeat AvailablePropertiesSection.Next n) = Z.of_nat n).
Proof.
  split.
  - intros clicks.
    pose proof (fold_step_upper clicks
                  AvailablePropertiesSection.initialPageIndex) as H.
    unfold AvailablePropertiesSection.pageIndexAfter,
      AvailablePropertiesSection.initialPageIndex in *. lia.
  - intros n. unfold AvailablePropertiesSection.pageIndexAfter.
    rewrite fold_step_next.
    unfold AvailablePropertiesSection.initialPageIndex. lia.
Qed.

(** X12. The pager is drawn only under a page that has rows.  So when the
    catalog has exactly [12 (p + 1)] rows, page [p] offers an enabled
    [Next], and the page it leads to shows the empty state with no pager,
    hence no [Previous] to go back with. *)
Theorem empty_page_has_no_pager :
  (forall (p : Z) (q : AvailablePropertiesSection.QueryResult)
          (rows : list AvailablePropertiesSection.Property)
          (prevOff nextOff : bool),
      AvailablePropertiesSection.render p q
      = AvailablePropertiesSection.Grid rows prevOff nextOff ->
      rows <> [])
  /\ (forall (catalog : list AvailablePropertiesSection.Property) (p : Z),
         0 <= p ->
         Z.of_nat (List.length catalog) = 12 * (p + 1) ->
         AvailablePropertiesSection.nextDisabled
           (Some (AvailablePropertiesSection.page catalog p)) = false
         /\ AvailablePropertiesSection.render (p + 1)
              (AvailablePropertiesSection.arrived
                 (AvailablePropertiesSection.page catalog (p + 1)))
            = AvailablePropertiesSection.NoAvailableProperties).
Proof.
  split.
  - intros p q rows prevOff nextOff Hr.
    unfold AvailablePropertiesSection.render in Hr.
    destruct (AvailablePropertiesSection.error q); [discriminate|].
    destruct (AvailablePropertiesSection.isLoading q); [discriminate|].
    destruct (AvailablePropertiesSection.data q) as [[|r rs]|];
      try discriminate.
    injection Hr as <- _ _. discriminate.
  - intros catalog p Hp Hn.
    pose proof (page_length catalog p Hp) as Hlen.
    pose proof (page_length catalog (p + 1) ltac:(lia)) as Hnext.
    split.
    + unfold AvailablePropertiesSection.nextDisabled.
      assert (E : AvailablePropertiesSection.hasNextPage
                    (Some (AvailablePropertiesSection.page catalog p))
                  = Some true) by (apply hasNextPage_true; lia).
      rewrite E. reflexivity.
    + assert (E : AvailablePropertiesSection.page catalog (p + 1) = [])
        by (apply length_zero_iff_nil; lia).
      rewrite E. reflexivity.
Qed.

Lemma empty_page_has_no_pager_witness :
  AvailablePropertiesSection.nextDisabled
    (Some (AvailablePropertiesSection.page
             (repeat AvailablePropertiesSection.sampleProperty 12) 0)) = false
  /\ AvailablePropertiesSection.render (0 + 1)
       (AvailablePropertiesSection.arrived
          (AvailablePropertiesSection.page
             (repeat AvailablePropertiesSection.sampleProperty 12) (0 + 1)))
     = AvailablePropertiesSection.NoAvailableProperties.
Proof.
  apply (proj2 empty_page_has_no_pager
           (repeat AvailablePropertiesSection.sampleProperty 12) 0);
    [lia | reflexivity].
Defined.

(** ** The message composer, continued *)

Section TrimEnds.

Lemma trimStart_suffix (s : Js.jsstring) :
  exists pre, s = pre ++ Js.trimStart s.
Proof.
  induction s as [|c s [pre IH]]; cbn.
  - exists []. reflexivity.
  - destruct (Js.isWhiteSpace c).
    + exists (c :: pre). cbn. f_equal. exact IH.
    + exists []. reflexivity.
Qed.

(** What [trim] leaves neither starts nor ends with white space. *)
Lemma trim_first (s : Js.jsstring) (c : N) (rest : Js.jsstring) :
  Js.trim s = c :: rest -> Js.isWhiteSpace c = false.
Proof.
  unfold Js.trim, Js.trimEnd. intros E.
  apply (f_equal (@rev N)) in E. rewrite rev_involutive in E. cbn in E.
  destruct (trimStart_suffix (rev (Js.trimStart s))) as [pre Hpre].
  rewrite E in Hpre.
  apply (f_equal (@rev N)) in Hpre. rewrite rev_involutive in Hpre.
  rewrite !rev_app_distr in Hpre. cbn in Hpre.
  apply (trimStart_head s c _ Hpre).
Qed.

Lemma trim_last (s : Js.jsstring) (front : Js.jsstring) (c : N) :
  Js.trim s = front ++ [c] -> Js.isWhiteSpace c = false.
Proof.
  unfold Js.trim, Js.trimEnd. intros E.
  apply (f_equal (@rev N)) in E. rewrite rev_involutive in E.
  rewrite rev_app_distr in E. cbn in E.
  apply (trimStart_head _ c _ E).
Qed.

End TrimEnds.

Section ComposerCases.
Import ContactLandlordDialog Supabase.

(** Every way a submit can go. *)
Lemma submit_cases (p : Props) (s : State) (w : World) :
  submit p s w = ([PreventDefault], Eff.Resolved)
  \/ (isValid s = true /\ isSubmitting s = false
      /\ (submit p s w
          = ([PreventDefault; SetIsSubmitting true; Toast unexpectedError;
              SetIsSubmitting false], Eff.Resolved)
          \/ submit p s w
             = ([PreventDefault; SetIsSubmitting true; Toast authRequired;
                 SetIsSubmitting false; SetIsSubmitting false], Eff.Resolved)
          \/ exists r u,
               getUser w = Js.Fulfilled r /\ signedIn r = Some u
               /\ (submit p s w
                   = ([PreventDefault; SetIsSubmitting true;
                       Insert (payloadOf p s u); Toast unexpectedError;
                       SetIsSubmitting false], Eff.Resolved)
                   \/ submit p s w
                      = ([PreventDefault; SetIsSubmitting true;
                          Insert (payloadOf p s u); Toast permissionDenied;
                          SetIsSubmitting false; SetIsSubmitting false],
                         Eff.Resolved)
                   \/ submit p s w
                      = ([PreventDefault; SetIsSubmitting true;
                          Insert (payloadOf p s u); Toast failedToSend;
                          SetIsSubmitting false; SetIsSubmitting false],
                         Eff.Resolved)
                   \/ submit p s w
                      = ([PreventDefault; SetIsSubmitting true;
                          Insert (payloadOf p s u); Toast messageSent;
                          SetMessage []; SetOpen false;
                          SetIsSubmitting false], Eff.Resolved)))).
Proof.
  destruct (negb (isValid s) || isSubmitting s) eqn:Hg.
  - left. apply submit_ignored. exact Hg.
  - right. apply orb_false_iff in Hg. destruct Hg as [Hv Hs].
    apply negb_false_iff in Hv.
    split; [exact Hv|]. split; [exact Hs|].
    destruct (getUser w) as [r|e] eqn:Hget.
    + destruct (signedIn r) as [u|] eqn:Hu.
      * right. right. exists r, u. split; [reflexivity|]. split; [exact Hu|].
        rewrite (submit_signed_in p s w r u Hv Hs Hget Hu).
        destruct (insertMessage w (payloadOf p s u)) as [res|e].
        -- destruct (error res) as [e|].
           ++ destruct (Js.code e =? "42501"); auto.
           ++ auto 6.
        -- auto.
      * right. left. unfold submit, handleSubmit. neat.
        rewrite Hv, Hs, Hget. neat. rewrite Hu. reflexivity.
    + left. unfold submit, handleSubmit. neat.
      rewrite Hv, Hs, Hget. reflexivity.
Qed.

End ComposerCases.

(** Case analysis over the ways of [submit_cases]. *)
Ltac by_submit_cases p s w :=
  let Hc := fresh "Hc" in
  let Hv := fresh "Hv" in
  let Hs := fresh "Hs" in
  let r := fresh "r" in
  let u := fresh "u" in
  let Hget := fresh "Hget" in
  let Hu := fresh "Hu" in
  destruct (submit_cases p s w)
    as [Hc|(Hv & Hs & [Hc|[Hc|(r & u & Hget & Hu & [Hc|[Hc|[Hc|Hc]]])]])];
  rewrite Hc in *; cbn [fst snd] in *.

(** X13. Whatever the dialog sends to [messages] fits the column: the text
    is the trimmed message, it has between 1 and 500 code units, it neither
    starts nor ends with white space, and the sender is the signed-in
    user. *)
Theorem sent_message_is_trimmed_and_bounded :
  forall (p : ContactLandlordDialog.Props) (s : ContactLandlordDialog.State)
         (w : ContactLandlordDialog.World)
         (row : ContactLandlordDialog.Payload),
    In (ContactLandlordDialog.Insert row)
       (fst (ContactLandlordDialog.submit p s w)) ->
    ContactLandlordDialog.payloadMessage row
      = Js.trim (ContactLandlordDialog.message s)
    /\ (1 <= List.length (ContactLandlordDialog.payloadMessage row) <= 500)%nat
    /\ (forall c rest, ContactLandlordDialog.payloadMessage row = c :: rest ->
                       Js.isWhiteSpace c = false)
    /\ (forall front c,
           ContactLandlordDialog.payloadMessage row = front ++ [c] ->
           Js.isWhiteSpace c = false)
    /\ exists r u,
         ContactLandlordDialog.getUser w = Js.Fulfilled r
         /\ Supabase.authError r = None
         /\ Supabase.user r = Some u
         /\ ContactLandlordDialog.sender_id row = Supabase.id u.
Proof.
  intros p s w row Hin.
  assert (Hrow : ContactLandlordDialog.isValid s = true
                 /\ exists r u,
                      ContactLandlordDialog.getUser w = Js.Fulfilled r
                      /\ ContactLandlordDialog.signedIn r = Some u
                      /\ row = ContactLandlordDialog.payloadOf p s u).
  { by_submit_cases p s w; cbn in Hin;
      repeat match goal with
             | H : _ \/ _ |- _ => destruct H
             | H : False |- _ => destruct H
             | H : _ = ContactLandlordDialog.Insert _ |- _ =>
                 first [discriminate H | injection H as H]
             end;
      split; try assumption; exists r, u; auto. }
  destruct Hrow as (Hv & r & u & Hget & Hu & ->).
  cbn [ContactLandlordDialog.payloadOf ContactLandlordDialog.payloadMessage
       ContactLandlordDialog.sender_id].
  unfold ContactLandlordDialog.trimmedMessage.
  split; [reflexivity|].
  split; [apply isValid_iff; exact Hv|].
  split; [intros c rest; apply trim_first|].
  split; [intros front c; apply trim_last|].
  exists r, u. unfold ContactLandlordDialog.signedIn in Hu.
  destruct (Supabase.authError r); [discriminate|]. auto.
Qed.

Lemma sent_message_is_trimmed_and_bounded_witness :
  (1 <= List.length (Js.trim (ContactLandlordDialog.message
                                (ContactLandlordDialog.typed 3))) <= 500)%nat.
Proof.
  apply (sent_message_is_trimmed_and_bounded ContactLandlordDialog.sampleProps
           (ContactLandlordDialog.typed 3) ContactLandlordDialog.acceptingWorld
           (ContactLandlordDialog.payloadOf ContactLandlordDialog.sampleProps
              (ContactLandlordDialog.typed 3) ContactLandlordDialog.tenant)).
  right. right. left. reflexivity.
Defined.

(** X14. A submit never rejects, sends at most one insert, and leaves the
    flag [isSubmitting] as it found it: the dialog is never left stuck in
    the sending state. *)
Theorem submit_resets_the_sending_flag :
  forall (p : ContactLandlordDialog.Props) (s : ContactLandlordDialog.State)
         (w : ContactLandlordDialog.World),
    snd (ContactLandlordDialog.submit p s w) = Eff.Resolved
    /\ (List.length (ContactLandlordDialog.inserts
                       (fst (ContactLandlordDialog.submit p s w))) <= 1)%nat
    /\ ContactLandlordDialog.isSubmitting
         (ContactLandlordDialog.stateAfter s
            (fst (ContactLandlordDialog.submit p s w)))
       = ContactLandlordDialog.isSubmitting s.
Proof.
  intros p s w. by_submit_cases p s w; cbn;
    repeat split; try lia; try reflexivity; symmetry; assumption.
Qed.

(** X15. Only a delivered message closes the dialog and clears the text:
    when the success notification is shown the dialog is closed and empty,
    and in every other outcome the dialog is as it was, the typed message
    still there. *)
Theorem only_delivery_clears_the_draft :
  forall (p : ContactLandlordDialog.Props) (s : ContactLandlordDialog.State)
         (w : ContactLandlordDialog.World),
    let t := fst (ContactLandlordDialog.submit p s w) in
    (In ContactLandlordDialog.messageSent (ContactLandlordDialog.toasts t) ->
       ContactLandlordDialog.stateAfter s t
       = ContactLandlordDialog.mkState false [] false)
    /\ (~ In ContactLandlordDialog.messageSent
             (ContactLandlordDialog.toasts t) ->
          ContactLandlordDialog.stateAfter s t = s).
Proof.
  intros p s w t. subst t.
  by_submit_cases p s w; cbn; split; intros H;
    try (destruct s as [o m b]; cbn in *; subst; reflexivity);
    try (exfalso; apply H; left; reflexivity);
    try (exfalso; destruct H as [H|[]]; discriminate H);
    try (exfalso; destruct H).
Qed.

Lemma only_delivery_clears_the_draft_witness :
  ContactLandlordDialog.stateAfter (ContactLandlordDialog.typed 3)
    (fst (ContactLandlordDialog.submit ContactLandlordDialog.sampleProps
            (ContactLandlordDialog.typed 3)
            ContactLandlordDialog.acceptingWorld))
  = ContactLandlordDialog.mkState false [] false
  /\ ContactLandlordDialog.stateAfter (ContactLandlordDialog.typed 3)
       (fst (ContactLandlordDialog.submit ContactLandlordDialog.sampleProps
               (ContactLandlordDialog.typed 3)
               ContactLandlordDialog.refusingWorld))
     = ContactLandlordDialog.typed 3.
Proof.
  split.
  - apply (proj1 (only_delivery_clears_the_draft
                    ContactLandlordDialog.sampleProps
                    (ContactLandlordDialog.typed 3)
                    ContactLandlordDialog.acceptingWorld)).
    left. reflexivity.
  - apply (proj2 (only_delivery_clears_the_draft
                    ContactLandlordDialog.sampleProps
                    (ContactLandlordDialog.typed 3)
                    ContactLandlordDialog.refusingWorld)).
    intros [H|[]]. discriminate H.
Defined.

(** X16. A valid message from a visitor who is not signed in (no user, or
    an authentication error) is not sent: the dialog asks to sign in and
    stays as it was. *)
Theorem unsigned_visitor_is_asked_to_sign_in :
  forall (p : ContactLandlordDialog.Props) (s : ContactLandlordDialog.State)
         (w : ContactLandlordDialog.World) (r : Supabase.AuthResponse),
    ContactLandlordDialog.isValid s = true ->
    ContactLandlordDialog.isSubmitting s = false ->
    ContactLandlordDialog.getUser w = Js.Fulfilled r ->
    (Supabase.user r = None \/ Supabase.authError r <> None) ->
    let t := fst (ContactLandlordDialog.submit p s w) in
    ContactLandlordDialog.toasts t = [ContactLandlordDialog.authRequired]
    /\ ContactLandlordDialog.inserts t = []
    /\ ContactLandlordDialog.stateAfter s t = s.
Proof.
  intros p s w r Hv Hs Hget Hno t. subst t.
  assert (Hu : ContactLandlordDialog.signedIn r = None).
  { unfold ContactLandlordDialog.signedIn.
    destruct (Supabase.authError r); [reflexivity|].
    destruct Hno as [Hno|Hno]; [exact Hno|congruence]. }
  unfold ContactLandlordDialog.submit, ContactLandlordDialog.handleSubmit.
  neat. rewrite Hv, Hs, Hget. neat. rewrite Hu. cbn.
  repeat split. destruct s as [o m b]. cbn in *. subst. reflexivity.
Qed.

Lemma unsigned_visitor_is_asked_to_sign_in_witness :
  ContactLandlordDialog.toasts
    (fst (ContactLandlordDialog.submit ContactLandlordDialog.sampleProps
            (ContactLandlordDialog.typed 3)
            (ContactLandlordDialog.mkWorld
               (Js.Fulfilled (Supabase.mkAuth None None))
               (ContactLandlordDialog.insertMessage
                  ContactLandlordDialog.acceptingWorld))))
  = [ContactLandlordDialog.authRequired].
Proof.
  apply (unsigned_visitor_is_asked_to_sign_in
           ContactLandlordDialog.sampleProps (ContactLandlordDialog.typed 3)
           (ContactLandlordDialog.mkWorld
              (Js.Fulfilled (Supabase.mkAuth None None))
              (ContactLandlordDialog.insertMessage
                 ContactLandlordDialog.acceptingWorld))
           (Supabase.mkAuth None None));
    [reflexivity | reflexivity | reflexivity | left; reflexivity].
Defined.

(** X17. What the dialog shows about the message agrees with its
    validity: exactly one of the two hints is shown when the message is
    invalid and none when it is valid; the counter turns red and the text
    area is marked invalid exactly when the message is too long; and the
    message is valid exactly when the counter reads between 0 and 499. *)
Theorem hints_agree_with_validity :
  forall s : ContactLandlordDialog.State,
    xorb (ContactLandlordDialog.showsRequired s)
         (ContactLandlordDialog.showsTooLong s)
      = negb (ContactLandlordDialog.isValid s)
    /\ ContactLandlordDialog.showsRequired s
       && ContactLandlordDialog.showsTooLong s = false
    /\ ContactLandlordDialog.counterIsRed s
       = ContactLandlordDialog.showsTooLong s
    /\ ContactLandlordDialog.ariaInvalid s
       = ContactLandlordDialog.showsTooLong s
    /\ (ContactLandlordDialog.isValid s = true
        <-> 0 <= ContactLandlordDialog.remainingChars s <= 499).
Proof.
  intros s.
  unfold ContactLandlordDialog.showsRequired, ContactLandlordDialog.showsTooLong,
    ContactLandlordDialog.counterIsRed, ContactLandlordDialog.ariaInvalid,
    ContactLandlordDialog.remainingChars, ContactLandlordDialog.isValid.
  set (n := List.length (ContactLandlordDialog.trimmedMessage s)).
  destruct (Nat.leb_spec 1 n), (Nat.leb_spec n 500),
    (Nat.ltb_spec n 1), (Nat.ltb_spec 500 n), (Nat.ltb_spec 0 n),
    (Z.ltb_spec (500 - Z.of_nat n) 0); cbn [negb andb orb xorb];
    repeat split; intros; try lia; try discriminate; try reflexivity.
Qed.

(** X18. While a message is being sent the dialog can be neither opened
    nor closed; otherwise closing it discards the draft, so that closing
    and opening again shows an empty text area. *)
Theorem closing_discards_the_draft :
  forall (s : ContactLandlordDialog.State) (newOpen : bool),
    (ContactLandlordDialog.isSubmitting s = true ->
       ContactLandlordDialog.handleOpenChange s newOpen = s)
    /\ (ContactLandlordDialog.isSubmitting s = false ->
          ContactLandlordDialog.handleOpenChange
            (ContactLandlordDialog.handleOpenChange s false) true
          = ContactLandlordDialog.mkState true [] false
          /\ ContactLandlordDialog.message
               (ContactLandlordDialog.handleOpenChange s true)
             = ContactLandlordDialog.message s).
Proof.
  intros s newOpen. unfold ContactLandlordDialog.handleOpenChange. split.
  - intros ->. reflexivity.
  - intros Hs. rewrite Hs. cbn. split; reflexivity.
Qed.

Lemma closing_discards_the_draft_witness :
  ContactLandlordDialog.handleOpenChange
    (ContactLandlordDialog.handleOpenChange
       (ContactLandlordDialog.typed 3) false) true
  = ContactLandlordDialog.mkState true [] false.
Proof.
  apply (proj2 (closing_discards_the_draft
                  (ContactLandlordDialog.typed 3) true)).
  reflexivity.
Defined.

(** ** The landlord sections, continued *)

Section EmailFacts.
Import Crud.

Lemma splitAtSign_sound (s l r : Js.jsstring) :
  splitAtSign s = Some (l, r) -> s = l ++ at_sign :: r.
Proof.
  revert l r. induction s as [|c s IH]; intros l r; cbn.
  - discriminate.
  - destruct (N.eqb_spec c at_sign) as [->|_].
    + intros [= <- <-]. reflexivity.
    + destruct (splitAtSign s) as [[l' r']|]; [|discriminate].
      intros [= <- <-]. cbn. f_equal. apply IH. reflexivity.
Qed.

Lemma splitAtSign_complete (l r : Js.jsstring) :
  forallb plain l = true -> splitAtSign (l ++ at_sign :: r) = Some (l, r).
Proof.
  induction l as [|c l IH]; cbn.
  - intros _. reflexivity.
  - intros H. apply andb_true_iff in H. destruct H as [Hc Hl].
    unfold plain in Hc. apply andb_true_iff in Hc. destruct Hc as [_ Hc].
    apply negb_true_iff in Hc. rewrite Hc, (IH Hl). reflexivity.
Qed.

Lemma inner_dot_split (r : Js.jsstring) :
  existsb (N.eqb dot) (removelast (tl r)) = true ->
  exists b c, r = b ++ dot :: c /\ b <> [] /\ c <> [].
Proof.
  intros H. apply existsb_exists in H. destruct H as (x & Hin & Hx).
  apply N.eqb_eq in Hx. subst x.
  destruct r as [|h t]; [destruct Hin|]. cbn [tl] in Hin.
  destruct t as [|h' t']; [destruct Hin|].
  apply in_split in Hin. destruct Hin as (m1 & m2 & Hm).
  exists (h :: m1), (m2 ++ [last (h' :: t') 0%N]).
  split; [|split].
  - rewrite (app_removelast_last 0%N (l := h' :: t')) at 1 by discriminate.
    rewrite Hm. cbn. rewrite <- app_assoc. reflexivity.
  - discriminate.
  - destruct m2; discriminate.
Qed.

Lemma inner_dot_found (b c : Js.jsstring) :
  b <> [] -> c <> [] ->
  existsb (N.eqb dot) (removelast (tl (b ++ dot :: c))) = true.
Proof.
  intros Hb Hc. destruct b as [|h b']; [contradiction|]. cbn [app tl].
  rewrite removelast_app by discriminate.
  rewrite existsb_app. apply orb_true_iff. right.
  destruct c as [|x c']; [contradiction|]. reflexivity.
Qed.

End EmailFacts.

(** X19. The email test of the lease form accepts exactly the strings
    [local@domain.tld] in which the three parts are non-empty and hold
    neither white space nor a second [@] (dots are allowed inside the
    parts). *)
Theorem email_pattern_shape :
  forall s : Js.jsstring,
    Crud.emailPattern s = true
    <-> exists l b c : Js.jsstring,
          s = l ++ Crud.at_sign :: b ++ Crud.dot :: c
          /\ l <> [] /\ b <> [] /\ c <> []
          /\ forallb Crud.plain l = true
          /\ forallb Crud.plain b = true
          /\ forallb Crud.plain c = true.
Proof.
  intros s. unfold Crud.emailPattern. split.
  - destruct (Crud.splitAtSign s) as [[l r]|] eqn:Hs; [|discriminate].
    apply splitAtSign_sound in Hs.
    rewrite !andb_true_iff. intros [[[Hl Hpl] Hpr] Hdot].
    destruct (inner_dot_split r Hdot) as (b & c & -> & Hb & Hc).
    rewrite forallb_app in Hpr. apply andb_true_iff in Hpr.
    destruct Hpr as [Hpb Hpc]. cbn [forallb] in Hpc.
    apply andb_true_iff in Hpc. destruct Hpc as [_ Hpc].
    exists l, b, c. repeat split; try assumption.
    destruct l; [discriminate Hl|discriminate].
  - intros (l & b & c & -> & Hl & Hb & Hc & Hpl & Hpb & Hpc).
    rewrite (splitAtSign_complete l _ Hpl).
    rewrite Hpl, (inner_dot_found b c Hb Hc), forallb_app, Hpb.
    cbn [forallb]. rewrite Hpc.
    destruct l; [contradiction|]. reflexivity.
Qed.

(** Hypotheses of membership in a trace that has been computed. *)
Ltac pick :=
  repeat match goal with
         | H : In _ [] |- _ => destruct H
         | H : In _ (_ :: _) |- _ => destruct H as [H|H]
         | H : _ \/ _ |- _ => destruct H as [H|H]
         | H : False |- _ => destruct H
         | H : Crud.Insert _ _ = Crud.Insert _ _ |- _ =>
             injection H as ? ?; subst
         | H : Crud.Update _ _ _ = Crud.Update _ _ _ |- _ =>
             injection H as ? ? ?; subst
         | H : Crud.Delete _ _ = Crud.Delete _ _ |- _ =>
             injection H as ? ?; subst
         | H : @eq (Crud.Event _) _ _ |- _ => discriminate H
         end.

Section LeaseFormFacts.
Import Crud Supabase LeasesSection.
Variables parseFloat parseInt : option Js.jsstring -> Js.number.

Lemma lease_submit_bad_email_or_deposit (formData : FormData)
    (email : Js.jsstring)
    (profiles : Js.jsstring -> Js.settled (Response Profile)) (w : World) :
  negb (truthy email) || negb (emailPattern email)
  || truthyValue (formData "deposit_amount")
     && badDeposit (Some (parseFloat (formData "deposit_amount"))) = true ->
  turnedDown (fst (Eff.run (handleSubmit parseFloat parseInt formData
                              email profiles w)))
  /\ snd (Eff.run (handleSubmit parseFloat parseInt formData
                     email profiles w)) = Eff.Resolved.
Proof.
  intros H. unfold handleSubmit, turnedDown, found in *.
  branch tidy.
  all: try (repeat split; reflexivity).
  all: try discriminate.
  all: congruence.
Qed.

Lemma lease_rows (formData : FormData) (email : Js.jsstring)
    (profiles : Js.jsstring -> Js.settled (Response Profile)) (w : World)
    (tbl : string) (row : LeaseData) :
  In (Insert tbl row)
     (fst (Eff.run (handleSubmit parseFloat parseInt formData
                      email profiles w))) ->
  tbl = "leases"
  /\ badRent (rent_amount row) = false
  /\ badDeposit (deposit_amount row) = false
  /\ badDueDay (payment_due_day row) = false
  /\ emailPattern email = true
  /\ (exists r u, getUser w = Js.Fulfilled r /\ authError r = None
                  /\ user r = Some u /\ landlord_id row = id u)
  /\ (exists res prof, profiles email = Js.Fulfilled res
                       /\ error res = None /\ data res = Some prof
                       /\ tenant_id row = profileId prof).
Proof.
  unfold handleSubmit, found.
  branch tidy; intros Hin; pick.
  all: cbn [rent_amount deposit_amount payment_due_day landlord_id tenant_id].
  all: match goal with
       | H : negb _ || negb (emailPattern _) = false |- _ =>
           apply orb_false_iff in H; destruct H as [_ H];
           apply negb_false_iff in H
       end.
  all: repeat split; try assumption; try reflexivity.
  all: try (eexists; eexists; repeat split; eassumption).
  all: try (eexists; eexists; repeat split; try eassumption; reflexivity).
  all: match goal with
       | Hf : match error ?res with
              | Some _ => None
              | None => data ?res
              end = Some ?p |- _ =>
           exists res, p; destruct (error res); [discriminate Hf|];
           repeat split; assumption
       end.
Qed.

End LeaseFormFacts.

Section NumberShapes.
Import LeasesSection.

Lemma good_rent (x : Js.number) :
  badRent x = false -> Js.gt_lit x 0 = true.
Proof.
  unfold badRent. destruct x as [|q| |]; cbn; try discriminate;
    try reflexivity.
  intros ->. reflexivity.
Qed.

Lemma good_deposit (d : option Js.number) :
  badDeposit d = false ->
  d = None \/ exists x, d = Some x /\ Js.isNaN x = false
                        /\ Js.lt_lit x 0 = false.
Proof.
  unfold badDeposit. destruct d as [x|]; [|left; reflexivity].
  intros H. apply orb_false_iff in H. destruct H as [Hn Hl].
  right. exists x. auto.
Qed.

Lemma good_due_day (x : Js.number) :
  badDueDay x = false ->
  exists q, x = Js.Fin q /\ (1 <= q)%Q /\ (q <= 31)%Q.
Proof.
  unfold badDueDay. destruct x as [|q| |]; cbn; try discriminate.
  intros H. apply orb_false_iff in H. destruct H as [Hlo Hhi].
  apply negb_false_iff in Hlo, Hhi.
  exists q. split; [reflexivity|].
  split; apply Qle_bool_iff; assumption.
Qed.

End NumberShapes.

(** X20. Creating a lease is also turned down, with an error notification
    and nothing sent, when the tenant email is empty or not of the shape
    of an email, and when a deposit is given that is not a number or is
    negative. *)
Theorem lease_creation_rejects_bad_email_or_deposit :
  forall (parseFloat parseInt : option Js.jsstring -> Js.number)
         (formData : Crud.FormData) (email : Js.jsstring)
         (profiles : Js.jsstring
                     -> Js.settled (Supabase.Response LeasesSection.Profile))
         (w : LeasesSection.World),
    Crud.truthy email = false
    \/ Crud.emailPattern email = false
    \/ (Crud.truthyValue (formData "deposit_amount") = true
        /\ (Js.isNaN (parseFloat (formData "deposit_amount")) = true
            \/ Js.lt_lit (parseFloat (formData "deposit_amount")) 0 = true)) ->
    let outcome :=
      Eff.run (LeasesSection.handleSubmit parseFloat parseInt formData
                 email profiles w) in
    Crud.calls (fst outcome) = []
    /\ existsb Crud.isErrorToast (fst outcome) = true
    /\ Crud.reloads (fst outcome) = 0%nat
    /\ Crud.updates (fst outcome) = 0%nat
    /\ snd outcome = Eff.Resolved.
Proof.
  intros parseFloat parseInt formData email profiles w H outcome.
  subst outcome.
  destruct (lease_submit_bad_email_or_deposit parseFloat parseInt formData
              email profiles w) as [(Hc & He & Hr & Hu) Hs].
  - unfold LeasesSection.badDeposit.
    destruct H as [->|[->|[-> [->| ->]]]]; cbn;
      rewrite ?orb_true_r; reflexivity.
  - repeat split; assumption.
Qed.

Lemma lease_creation_rejects_bad_email_or_deposit_witness :
  Crud.calls
    (fst (Eff.run (LeasesSection.handleSubmit Js.parseDigits Js.parseDigits
                     (LeasesSection.leaseForm "1200" "15")
                     (Js.lit "tenant at example.com")
                     LeasesSection.directory LeasesSection.obligingWorld)))
  = [].
Proof.
  apply (lease_creation_rejects_bad_email_or_deposit Js.parseDigits
           Js.parseDigits (LeasesSection.leaseForm "1200" "15")
           (Js.lit "tenant at example.com")
           LeasesSection.directory LeasesSection.obligingWorld).
  right. left. reflexivity.
Defined.

(** X21. Every row the lease form sends to [leases] has passed the
    checks: its rent compares greater than 0, its due day is a number
    from 1 to 31, its deposit is absent or a number that is not negative,
    its landlord is the signed-in user and its tenant is the profile found
    under an email of the accepted shape. *)
Theorem inserted_lease_rows_are_checked :
  forall (parseFloat parseInt : option Js.jsstring -> Js.number)
         (formData : Crud.FormData) (email : Js.jsstring)
         (profiles : Js.jsstring
                     -> Js.settled (Supabase.Response LeasesSection.Profile))
         (w : LeasesSection.World) (tbl : string)
         (row : LeasesSection.LeaseData),
    In (Crud.Insert tbl row)
       (fst (Eff.run (LeasesSection.handleSubmit parseFloat parseInt formData
                        email profiles w))) ->
    tbl = "leases"
    /\ Js.gt_lit (LeasesSection.rent_amount row) 0 = true
    /\ (exists q, LeasesSection.payment_due_day row = Js.Fin q
                  /\ (1 <= q)%Q /\ (q <= 31)%Q)
    /\ (LeasesSection.deposit_amount row = None
        \/ exists d, LeasesSection.deposit_amount row = Some d
                     /\ Js.isNaN d = false /\ Js.lt_lit d 0 = false)
    /\ Crud.emailPattern email = true
    /\ (exists r u, Crud.getUser w = Js.Fulfilled r
                    /\ Supabase.authError r = None
                    /\ Supabase.user r = Some u
                    /\ LeasesSection.landlord_id row = Supabase.id u)
    /\ (exists res prof, profiles email = Js.Fulfilled res
                         /\ Supabase.error res = None
                         /\ Supabase.data res = Some prof
                         /\ LeasesSection.tenant_id row
                            = LeasesSection.profileId prof).
Proof.
  intros parseFloat parseInt formData email profiles w tbl row Hin.
  destruct (lease_rows parseFloat parseInt formData email profiles w tbl row
              Hin) as (Ht & Hr & Hd & Hday & He & Hu & Hp).
  split; [exact Ht|].
  split; [apply good_rent; exact Hr|].
  split; [apply good_due_day; exact Hday|].
  split; [apply good_deposit; exact Hd|].
  auto.
Qed.

Lemma inserted_lease_rows_are_checked_witness :
  Js.gt_lit (LeasesSection.rent_amount LeasesSection.sampleLease) 0 = true.
Proof.
  apply (inserted_lease_rows_are_checked Js.parseDigits Js.parseDigits
           (LeasesSection.leaseForm "1200" "15") LeasesSection.tenantEmail
           LeasesSection.directory LeasesSection.obligingWorld
           "leases" LeasesSection.sampleLease).
  right. left. reflexivity.
Defined.

(** X22. Answering no to the confirmation prompt stops a deletion there:
    the prompt is all that happens, for a lease as for a property. *)
Theorem declined_deletion_sends_nothing :
  (forall (leaseId : string) (w : LeasesSection.World),
      Crud.confirm w LeasesSection.deletePrompt = false ->
      Eff.run (LeasesSection.handleDelete leaseId w)
      = ([Crud.Confirm LeasesSection.deletePrompt], Eff.Resolved))
  /\ (forall (propertyId : string) (w : PropertiesSection.World),
         Crud.confirm w PropertiesSection.deletePrompt = false ->
         Eff.run (PropertiesSection.handleDelete propertyId w)
         = ([Crud.Confirm PropertiesSection.deletePrompt], Eff.Resolved)).
Proof.
  split; intros i w H.
  - unfold LeasesSection.handleDelete. neat. rewrite H. reflexivity.
  - unfold PropertiesSection.handleDelete. neat. rewrite H. reflexivity.
Qed.

Lemma declined_deletion_sends_nothing_witness :
  Eff.run (LeasesSection.handleDelete "l-1" LeasesSection.hesitantWorld)
  = ([Crud.Confirm LeasesSection.deletePrompt], Eff.Resolved)
  /\ Eff.run (PropertiesSection.handleDelete "p-1"
                PropertiesSection.hesitantWorld)
     = ([Crud.Confirm PropertiesSection.deletePrompt], Eff.Resolved).
Proof.
  split.
  - apply (proj1 declined_deletion_sends_nothing "l-1"
             LeasesSection.hesitantWorld). reflexivity.
  - apply (proj2 declined_deletion_sends_nothing "p-1"
             PropertiesSection.hesitantWorld). reflexivity.
Defined.

(** X23. The handlers of the leases and payments sections never reject:
    whatever fails ends in a notification.  Those of the properties
    section have no [catch]: they reject exactly with the error of a
    rejected promise of [getUser] or of the persistence call. *)
Theorem which_handlers_can_reject :
  (forall parseFloat parseInt formData email profiles
          (w : LeasesSection.World),
      snd (Eff.run (LeasesSection.handleSubmit parseFloat parseInt formData
                      email profiles w)) = Eff.Resolved)
  /\ (forall leaseId (w : LeasesSection.World),
         snd (Eff.run (LeasesSection.handleDelete leaseId w)) = Eff.Resolved)
  /\ (forall parseFloat formData (w : PaymentsSection.World),
         snd (Eff.run (PaymentsSection.handleSubmit parseFloat formData w))
         = Eff.Resolved)
  /\ (forall paymentId now (w : PaymentsSection.World),
         snd (Eff.run (PaymentsSection.markAsPaid paymentId now w))
         = Eff.Resolved)
  /\ (forall parseFloat formData editingProperty
             (w : PropertiesSection.World) (e : Js.Error),
         snd (Eff.run (PropertiesSection.handleSubmit parseFloat formData
                         editingProperty w)) = Eff.Failed e
         <-> Crud.getUser w = Js.Rejected e
             \/ exists c,
                  In c (Crud.calls
                          (fst (Eff.run (PropertiesSection.handleSubmit
                                           parseFloat formData
                                           editingProperty w))))
                  /\ Crud.respond w c = Js.Rejected e)
  /\ (forall propertyId (w : PropertiesSection.World) (e : Js.Error),
         snd (Eff.run (PropertiesSection.handleDelete propertyId w))
         = Eff.Failed e
         <-> exists c,
               In c (Crud.calls
                       (fst (Eff.run (PropertiesSection.handleDelete
                                        propertyId w))))
               /\ Crud.respond w c = Js.Rejected e).
Proof.
  split; [|split; [|split; [|split; [|split]]]].
  - intros. unfold LeasesSection.handleSubmit, LeasesSection.found.
    branch tidy; reflexivity.
  - intros. unfold LeasesSection.handleDelete. branch tidy; reflexivity.
  - intros. unfold PaymentsSection.handleSubmit. branch tidy; reflexivity.
  - intros. unfold PaymentsSection.markAsPaid. branch tidy; reflexivity.
  - intros parseFloat formData editingProperty w e.
    unfold PropertiesSection.handleSubmit.
    branch tidy; split;
      try discriminate;
      try (intros [= <-]; first [left; reflexivity
                                | right; eexists; split;
                                  [left; reflexivity | eassumption]]);
      intros [H|(c & Hin & Hc)]; try discriminate H; pick;
      try congruence.
  - intros propertyId w e.
    unfold PropertiesSection.handleDelete.
    branch tidy; split;
      try discriminate;
      try (intros [= <-]; eexists; split;
           [left; reflexivity | eassumption]);
      intros (c & Hin & Hc); pick; try congruence.
Qed.

Lemma which_handlers_can_reject_witness :
  snd (Eff.run (PropertiesSection.handleSubmit Js.parseDigits
                  PropertiesSection.propertyForm None
                  PropertiesSection.brokenWorld))
  = Eff.Failed (Js.mkError "" "Failed to fetch").
Proof.
  apply (proj1 (proj2 (proj2 (proj2 (proj2 which_handlers_can_reject))))
           Js.parseDigits PropertiesSection.propertyForm None
           PropertiesSection.brokenWorld (Js.mkError "" "Failed to fetch")).
  right. exists (Crud.Insert "properties" PropertiesSection.sampleRow).
  split; [left; reflexivity | reflexivity].
Defined.

(** X24. Recording a payment is turned down, with an error notification
    and nothing sent, when the parsed amount is not a number or is at most
    0; and every row the form sends to [rent_payments] has an amount that
    compares greater than 0, the status pending and no late fee. *)
Theorem payment_creation_checks_the_amount :
  forall (parseFloat : option Js.jsstring -> Js.number)
         (formData : Crud.FormData) (w : PaymentsSection.World),
    let t := fst (Eff.run (PaymentsSection.handleSubmit parseFloat formData
                             w)) in
    (Js.isNaN (parseFloat (formData "amount")) = true
     \/ Js.le_lit (parseFloat (formData "amount")) 0 = true ->
       t = [Crud.PreventDefault; Crud.Toast PaymentsSection.invalidAmount])
    /\ (forall tbl row,
           In (Crud.Insert tbl row) t ->
           tbl = "rent_payments"
           /\ row = PaymentsSection.NewPayment
                      (formData "lease_id") (parseFloat (formData "amount"))
                      (formData "due_date") "pending" 0
           /\ Js.gt_lit (parseFloat (formData "amount")) 0 = true).
Proof.
  intros parseFloat formData w t. subst t.
  unfold PaymentsSection.handleSubmit. split.
  - intros H.
    assert (Hb : Js.isNaN (parseFloat (formData "amount"))
                 || Js.le_lit (parseFloat (formData "amount")) 0 = true)
      by (destruct H as [->| ->]; rewrite ?orb_true_r; reflexivity).
    neat. rewrite Hb. reflexivity.
  - intros tbl row.
    destruct (Js.isNaN (parseFloat (formData "amount"))
              || Js.le_lit (parseFloat (formData "amount")) 0) eqn:Hb.
    + neat. intros Hin. pick.
    + assert (Hgt : Js.gt_lit (parseFloat (formData "amount")) 0 = true)
        by (apply good_rent; exact Hb).
      branch neat; intros Hin; pick; auto.
Qed.

Lemma payment_creation_checks_the_amount_witness :
  fst (Eff.run (PaymentsSection.handleSubmit Js.parseDigits
                  (PaymentsSection.paymentForm "0")
                  PaymentsSection.obligingWorld))
  = [Crud.PreventDefault; Crud.Toast PaymentsSection.invalidAmount].
Proof.
  apply (proj1 (payment_creation_checks_the_amount Js.parseDigits
                  (PaymentsSection.paymentForm "0")
                  PaymentsSection.obligingWorld)).
  right. reflexivity.
Defined.

(** X25. With nobody signed in (no user, no authentication error),
    creating a lease, deleting a lease after confirmation and marking a
    payment as paid each say so and send nothing, while saving a property
    ends silently, with no notification and nothing sent. *)
Theorem signed_out_handlers_send_nothing :
  (forall parseFloat parseInt formData email profiles
          (w : LeasesSection.World) r,
      Crud.getUser w = Js.Fulfilled r -> Supabase.authError r = None ->
      Supabase.user r = None ->
      Eff.run (LeasesSection.handleSubmit parseFloat parseInt formData
                 email profiles w)
      = ([Crud.PreventDefault; Crud.Toast LeasesSection.mustBeLoggedIn],
         Eff.Resolved))
  /\ (forall leaseId (w : LeasesSection.World) r,
         Crud.getUser w = Js.Fulfilled r -> Supabase.authError r = None ->
         Supabase.user r = None ->
         Crud.confirm w LeasesSection.deletePrompt = true ->
         Eff.run (LeasesSection.handleDelete leaseId w)
         = ([Crud.Confirm LeasesSection.deletePrompt;
             Crud.Toast LeasesSection.mustBeLoggedIn], Eff.Resolved))
  /\ (forall paymentId now (w : PaymentsSection.World) r,
         Crud.getUser w = Js.Fulfilled r -> Supabase.authError r = None ->
         Supabase.user r = None ->
         Eff.run (PaymentsSection.markAsPaid paymentId now w)
         = ([Crud.Toast PaymentsSection.mustBeLoggedIn], Eff.Resolved))
  /\ (forall parseFloat formData editingProperty
             (w : PropertiesSection.World) r,
         Crud.getUser w = Js.Fulfilled r -> Supabase.user r = None ->
         Eff.run (PropertiesSection.handleSubmit parseFloat formData
                    editingProperty w)
         = ([Crud.PreventDefault], Eff.Resolved)).
Proof.
  split; [|split; [|split]].
  - intros parseFloat parseInt formData email profiles w r Hget Ha Hu.
    unfold LeasesSection.handleSubmit. neat. rewrite Hget. neat.
    rewrite Ha, Hu. reflexivity.
  - intros leaseId w r Hget Ha Hu Hc.
    unfold LeasesSection.handleDelete. neat. rewrite Hc, Hget. neat.
    rewrite Ha, Hu. reflexivity.
  - intros paymentId now w r Hget Ha Hu.
    unfold PaymentsSection.markAsPaid. neat. rewrite Hget. neat.
    rewrite Ha, Hu. reflexivity.
  - intros parseFloat formData editingProperty w r Hget Hu.
    unfold PropertiesSection.handleSubmit. neat. rewrite Hget. neat.
    rewrite Hu. reflexivity.
Qed.

Lemma signed_out_handlers_send_nothing_witness :
  Eff.run (LeasesSection.handleSubmit Js.parseDigits Js.parseDigits
             (LeasesSection.leaseForm "1200" "15") LeasesSection.tenantEmail
             LeasesSection.directory LeasesSection.signedOutWorld)
  = ([Crud.PreventDefault; Crud.Toast LeasesSection.mustBeLoggedIn],
     Eff.Resolved).
Proof.
  apply (proj1 signed_out_handlers_send_nothing Js.parseDigits Js.parseDigits
           (LeasesSection.leaseForm "1200" "15") LeasesSection.tenantEmail
           LeasesSection.directory LeasesSection.signedOutWorld
           (Supabase.mkAuth None None)); reflexivity.
Defined.

Section PropertyRowFacts.
Import Crud Supabase PropertiesSection.

Lemma orNull_shape (v : option Js.jsstring) :
  orNull v = None \/ exists s, orNull v = Some s /\ s <> [].
Proof.
  unfold orNull, truthyValue, truthy.
  destruct v as [[|c s]|]; cbn; auto.
  right. exists (c :: s). split; [reflexivity|discriminate].
Qed.

Lemma numberOrNull_shape (x : Js.number) :
  numberOrNull x = None
  \/ exists d, numberOrNull x = Some d /\ Js.truthy_number d = true.
Proof.
  unfold numberOrNull. destruct (Js.truthy_number x) eqn:E; eauto.
Qed.

End PropertyRowFacts.

(** X26. The property form checks nothing: a signed-in submit always
    reaches the back end with one call, an update of the property being
    edited or else an insert, whose rent is the parsed value as it is.  In
    the row an empty unit number and a deposit of 0 (or one that is not a
    number) are stored as [null], and the landlord is the signed-in
    user. *)
Theorem property_rows_as_sent :
  forall (parseFloat : option Js.jsstring -> Js.number)
         (formData : Crud.FormData)
         (editingProperty : option PropertiesSection.Property)
         (w : PropertiesSection.World) (r : Supabase.AuthResponse)
         (u : Supabase.User),
    Crud.getUser w = Js.Fulfilled r ->
    Supabase.user r = Some u ->
    exists row,
      Crud.calls (fst (Eff.run (PropertiesSection.handleSubmit parseFloat
                                  formData editingProperty w)))
      = [match editingProperty with
         | Some editing =>
             Crud.Update "properties" row
                         (PropertiesSection.propertyId editing)
         | None => Crud.Insert "properties" row
         end]
      /\ PropertiesSection.landlord_id row = Supabase.id u
      /\ PropertiesSection.rent_amount row
         = parseFloat (formData "rent_amount")
      /\ (PropertiesSection.unit_number row = None
          \/ exists s, PropertiesSection.unit_number row = Some s /\ s <> [])
      /\ (PropertiesSection.deposit_amount row = None
          \/ exists d, PropertiesSection.deposit_amount row = Some d
                       /\ Js.truthy_number d = true).
Proof.
  intros parseFloat formData editingProperty w r u Hget Hu.
  exists (PropertiesSection.mkPropertyData
            (Supabase.id u) (formData "name") (formData "address")
            (PropertiesSection.orNull (formData "unit_number"))
            (parseFloat (formData "rent_amount"))
            (PropertiesSection.numberOrNull
               (parseFloat (formData "deposit_amount")))
            (formData "status")).
  cbn [PropertiesSection.landlord_id PropertiesSection.rent_amount
       PropertiesSection.unit_number PropertiesSection.deposit_amount].
  split; [|split; [reflexivity|split; [reflexivity|split;
            [apply orNull_shape|apply numberOrNull_shape]]]].
  unfold PropertiesSection.handleSubmit. neat. rewrite Hget. neat.
  rewrite Hu. destruct editingProperty; branch neat; reflexivity.
Qed.

Lemma property_rows_as_sent_witness :
  exists row,
    Crud.calls (fst (Eff.run (PropertiesSection.handleSubmit Js.parseDigits
                                PropertiesSection.propertyForm None
                                PropertiesSection.obligingWorld)))
    = [Crud.Insert "properties" row]
    /\ PropertiesSection.landlord_id row = "landlord-1"
    /\ PropertiesSection.rent_amount row
       = Js.parseDigits (PropertiesSection.propertyForm "rent_amount")
    /\ (PropertiesSection.unit_number row = None
        \/ exists s, PropertiesSection.unit_number row = Some s /\ s <> [])
    /\ (PropertiesSection.deposit_amount row = None
        \/ exists d, PropertiesSection.deposit_amount row = Some d
                     /\ Js.truthy_number d = true).
Proof.
  apply (property_rows_as_sent Js.parseDigits PropertiesSection.propertyForm
           None PropertiesSection.obligingWorld
           (Supabase.mkAuth (Some (Supabase.mkUser "landlord-1")) None)
           (Supabase.mkUser "landlord-1")); reflexivity.
Defined.

(** ** The page *)

(** X27. Signing out always ends on the sign-in page: whether [signOut]
    succeeds, answers with an error or its promise is rejected, the handler
    asks for the sign-out once, navigates to [/auth] once and does not
    reject. *)
Theorem sign_out_always_navigates :
  forall w : Index.World,
    let t := fst (Eff.run (Index.handleSignOut w)) in
    snd (Eff.run (Index.handleSignOut w)) = Eff.Resolved
    /\ Index.navigations t = ["/auth"]
    /\ hd_error t = Some Index.SignOut
    /\ List.length (filter (fun e => match e with
                                     | Index.SignOut => true
                                     | _ => false
                                     end) t) = 1%nat.
Proof.
  intros w t. subst t. unfold Index.handleSignOut.
  branch neat; repeat split.
Qed.

Section PageFacts.
Import Index.

(** What [loadUserRole] changes: the role, and only when the look-up
    returned a row without error. *)
Lemma loadUserRole_state (w : World) (u : Supabase.User) (s : State) :
  snd (Eff.call (loadUserRole w (Supabase.id u))) = Eff.Done tt
  /\ navigations (fst (Eff.call (loadUserRole w (Supabase.id u)))) = []
  /\ stateAfter s (fst (Eff.call (loadUserRole w (Supabase.id u))))
     = match roleOf w u with
       | Some r => mkState (user s) (Some r) (loading s)
       | None => s
       end.
Proof.
  unfold loadUserRole, roleOf.
  branch neat; repeat split; destruct s; reflexivity.
Qed.

Lemma checkUser_run (w : World) :
  Eff.run (checkUser w)
  = match sessionUserOf w with
    | Some u =>
        (SetUser (Some u) :: fst (Eff.call (loadUserRole w (Supabase.id u)))
           ++ [SetLoading false], Eff.Resolved)
    | None =>
        match getSession w with
        | Js.Fulfilled r =>
            match sessionError r with
            | None => ([Navigate "/auth"; SetLoading false], Eff.Resolved)
            | Some _ =>
                ([ConsoleError "Error checking user:"; Navigate "/auth";
                  SetLoading false], Eff.Resolved)
            end
        | Js.Rejected _ =>
            ([ConsoleError "Error checking user:"; Navigate "/auth";
              SetLoading false], Eff.Resolved)
        end
    end.
Proof.
  unfold checkUser, sessionUserOf.
  destruct (getSession w) as [r|e]; [|reflexivity].
  cbn [Eff.await Eff.bind Eff.ret]. unfold Index.throwIf.
  destruct (sessionError r); [reflexivity|].
  destruct (userOf (session r)) as [u|]; [|reflexivity].
  destruct (loadUserRole_state w u initialState) as [Hd _].
  destruct (Eff.call (loadUserRole w (Supabase.id u))) as [t o].
  cbn in Hd. subst o. reflexivity.
Qed.

End PageFacts.

Section PageAfterLoad.
Import Index.

Lemma checkUser_state (w : World) (s : State) :
  stateAfter s (fst (Eff.run (checkUser w)))
  = match sessionUserOf w with
    | Some u =>
        match roleOf w u with
        | Some r => mkState (Some u) (Some r) false
        | None => mkState (Some u) (role s) false
        end
    | None => mkState (user s) (role s) false
    end.
Proof.
  rewrite checkUser_run.
  destruct (sessionUserOf w) as [u|].
  - cbn [fst]. unfold stateAfter. cbn [fold_left]. rewrite fold_left_app.
    fold (stateAfter (applyEvent s (SetUser (Some u)))
            (fst (Eff.call (loadUserRole w (Supabase.id u))))).
    destruct (loadUserRole_state w u (applyEvent s (SetUser (Some u))))
      as (_ & _ & ->).
    destruct (roleOf w u); reflexivity.
  - destruct (getSession w) as [r|e]; [destruct (sessionError r)|];
      reflexivity.
Qed.

Lemma checkUser_navigations (w : World) :
  navigations (fst (Eff.run (checkUser w)))
  = match sessionUserOf w with
    | Some _ => []
    | None => ["/auth"]
    end.
Proof.
  rewrite checkUser_run.
  destruct (sessionUserOf w) as [u|].
  - cbn [fst]. unfold navigations. cbn [flat_map]. rewrite flat_map_app.
    fold (navigations (fst (Eff.call (loadUserRole w (Supabase.id u))))).
    destruct (loadUserRole_state w u initialState) as (_ & -> & _).
    reflexivity.
  - destruct (getSession w) as [r|e]; [destruct (sessionError r)|];
      reflexivity.
Qed.

End PageAfterLoad.

(** X28. The first check of the session never rejects and always ends by
    clearing the loading flag, its last effect.  Without a usable session
    (none, an error, a rejected promise) it navigates to [/auth] once and
    leaves user and role alone; with one it sets the user and does not
    navigate. *)
Theorem check_user_clears_loading :
  forall (w : Index.World) (s : Index.State),
    let t := fst (Eff.run (Index.checkUser w)) in
    snd (Eff.run (Index.checkUser w)) = Eff.Resolved
    /\ Index.loading (Index.stateAfter s t) = false
    /\ last t (Index.SetLoading true) = Index.SetLoading false
    /\ (Index.sessionUserOf w = None ->
          Index.navigations t = ["/auth"]
          /\ Index.user (Index.stateAfter s t) = Index.user s
          /\ Index.role (Index.stateAfter s t) = Index.role s)
    /\ (forall u, Index.sessionUserOf w = Some u ->
          Index.navigations t = []
          /\ Index.user (Index.stateAfter s t) = Some u).
Proof.
  intros w s t. subst t.
  rewrite checkUser_state, checkUser_navigations.
  split; [|split; [|split; [|split]]].
  - rewrite checkUser_run.
    destruct (Index.sessionUserOf w);
      [|destruct (Index.getSession w) as [r|e];
        [destruct (Index.sessionError r)|]]; reflexivity.
  - destruct (Index.sessionUserOf w) as [u|];
      [destruct (Index.roleOf w u)|]; reflexivity.
  - rewrite checkUser_run.
    destruct (Index.sessionUserOf w) as [u|].
    + cbn [fst]. rewrite app_comm_cons. apply last_last.
    + destruct (Index.getSession w) as [r|e];
        [destruct (Index.sessionError r)|]; reflexivity.
  - intros ->. repeat split.
  - intros u ->. split; [reflexivity|].
    destruct (Index.roleOf w u); reflexivity.
Qed.

Lemma check_user_clears_loading_witness :
  Index.navigations (fst (Eff.run (Index.checkUser (Index.visitor "tenant"))))
  = []
  /\ Index.user (Index.stateAfter Index.initialState
                   (fst (Eff.run (Index.checkUser (Index.visitor "tenant")))))
     = Some (Supabase.mkUser "u-1").
Proof.
  apply (proj2 (proj2 (proj2 (proj2 (check_user_clears_loading
                                       (Index.visitor "tenant")
                                       Index.initialState))))
           (Supabase.mkUser "u-1")).
  reflexivity.
Defined.

(** X29. What the page shows once the first check of the session is done:
    nothing without a session user, nothing when the look-up of the role
    fails or returns no row or an empty role, the landlord's dashboard when
    the role is ["landlord"], and the tenant's dashboard for every other
    role; never the loading screen. *)
Theorem page_after_first_check :
  forall w : Index.World,
    Index.render (Index.stateAfter Index.initialState
                    (fst (Eff.run (Index.checkUser w))))
    = match Index.sessionUserOf w with
      | None => Index.Blank
      | Some u =>
          match Index.roleOf w u with
          | None => Index.Blank
          | Some r =>
              if r =? "" then Index.Blank
              else if r =? "landlord" then Index.LandlordPortal
              else Index.TenantPortal
          end
      end.
Proof.
  intros w. rewrite checkUser_state.
  destruct (Index.sessionUserOf w) as [u|]; [|reflexivity].
  destruct (Index.roleOf w u) as [r|]; [|reflexivity].
  unfold Index.render, Index.hasUser, Index.hasRole, Index.isLandlord.
  cbn [Index.loading Index.user Index.role negb orb].
  destruct (r =? ""); reflexivity.
Qed.

(** ** The tenant's dashboard *)

(** X30. The tenant's payment history is set only together with a lease:
    whenever [loadTenantData] sets the payments, it has just set the active
    lease, and the payments are the rows returned for that lease's id (none
    when that query returns no data).  Without a user or an active lease
    it sets nothing. *)
Theorem tenant_payments_follow_the_lease :
  forall w : TenantDashboard.World,
    let t := fst (Eff.run (TenantDashboard.loadTenantData w)) in
    (forall ps, In (TenantDashboard.SetPayments ps) t ->
       exists l res,
         t = [TenantDashboard.SetLease l; TenantDashboard.SetPayments ps]
         /\ TenantDashboard.paymentsQuery w (TenantDashboard.leaseId l)
            = Js.Fulfilled res
         /\ ps = LandlordDashboard.orNil (Supabase.data res))
    /\ (forall r, TenantDashboard.getUser w = Js.Fulfilled r ->
                  Supabase.user r = None -> t = [])
    /\ (forall r u res,
          TenantDashboard.getUser w = Js.Fulfilled r ->
          Supabase.user r = Some u ->
          TenantDashboard.leaseQuery w (Supabase.id u) = Js.Fulfilled res ->
          Supabase.data res = None -> t = []).
Proof.
  intros w t. subst t. unfold TenantDashboard.loadTenantData.
  split; [|split].
  - intros ps.
    branch neat; intros Hin;
      repeat match goal with
             | H : _ \/ _ |- _ => destruct H as [H|H]
             | H : False |- _ => destruct H
             | H : TenantDashboard.SetLease _ = TenantDashboard.SetPayments _
               |- _ => discriminate H
             | H : TenantDashboard.SetPayments _ = TenantDashboard.SetPayments _
               |- _ => injection H as H; subst
             end.
    eexists; eexists. split; [reflexivity|]. split; [eassumption|reflexivity].
  - intros r Hget Hu. neat. rewrite Hget. neat. rewrite Hu. reflexivity.
  - intros r u res Hget Hu Hl Hd. neat. rewrite Hget. neat. rewrite Hu. neat.
    rewrite Hl. neat. rewrite Hd. reflexivity.
Qed.

Lemma tenant_payments_follow_the_lease_witness :
  exists l res,
    fst (Eff.run (TenantDashboard.loadTenantData TenantDashboard.tenantWorld))
    = [TenantDashboard.SetLease l;
       TenantDashboard.SetPayments
         [TenantDashboard.mkPayment "pay-2" "pending";
          TenantDashboard.mkPayment "pay-1" "paid"]]
    /\ TenantDashboard.paymentsQuery TenantDashboard.tenantWorld
         (TenantDashboard.leaseId l) = Js.Fulfilled res
    /\ [TenantDashboard.mkPayment "pay-2" "pending";
        TenantDashboard.mkPayment "pay-1" "paid"]
       = LandlordDashboard.orNil (Supabase.data res).
Proof.
  apply (proj1 (tenant_payments_follow_the_lease TenantDashboard.tenantWorld)).
  right. left. reflexivity.
Defined.
